(** * Plan / execute pipeline of the Playwright-MCP agent

    A shallow embedding of the planner ([ai_agent.py]), the tool-name
    resolver ([mcp_client.py]) and the orchestration flow ([agent_cli.py]),
    followed by the properties the specification states about them.

    Conventions of the embedding.
    - Python [str] values are [string]s; the text model is ASCII (case
      folding, whitespace and the [re] character classes are the ASCII
      restrictions of Python's).
    - [Dict[str, Any]] and every JSON-like value is a [json]; a dict is an
      association list with unique keys, in insertion order.
    - Code that touches the browser, the MCP server, the model backend or
      the clock is a state transformer over an abstract world [W] that
      returns an [outcome]: the value returned or the exception raised. *)

From Stdlib Require Import String Ascii List ZArith QArith Bool Lia.
From Stdlib Require Import Qround.
Import ListNotations.
Open Scope string_scope.
Open Scope list_scope.
Open Scope Z_scope.

(* ================================================================== *)
(** * Values *)
(* ================================================================== *)

(** Python values as they come out of [json.loads] or a dict literal. *)
#[warnings="-register-all"]
Inductive json : Type :=
| JNull                                  (* None *)
| JBool   (b : bool)
| JInt    (z : Z)
| JFloat  (q : Q)
| JString (s : string)
| JArray  (l : list json)
| JObject (o : list (string * json)).

Definition dict := list (string * json).

(** [d.get(k)] on the association list. *)
Fixpoint dict_find (d : dict) (k : string) : option json :=
  match d with
  | [] => None
  | (k', v) :: d' => if String.eqb k' k then Some v else dict_find d' k
  end.

(** [d.get(k)]: [None] when the key is absent. *)
Definition dict_get (d : dict) (k : string) : json :=
  match dict_find d k with Some v => v | None => JNull end.

(** [d.get(k, dflt)]. *)
Definition dict_get_default (d : dict) (k : string) (dflt : json) : json :=
  match dict_find d k with Some v => v | None => dflt end.

(** [d[k] = v]: overwrite in place, or append a new key. *)
Fixpoint dict_set (d : dict) (k : string) (v : json) : dict :=
  match d with
  | [] => [(k, v)]
  | (k', v') :: d' =>
      if String.eqb k' k then (k', v) :: d' else (k', v') :: dict_set d' k v
  end.

Definition dict_keys (d : dict) : list string := map fst d.

(** Python truthiness ([if x:], [x and y], [not x]). *)
Definition truthy (v : json) : bool :=
  match v with
  | JNull => false
  | JBool b => b
  | JInt z => negb (z =? 0)
  | JFloat q => negb (Qeq_bool q 0)
  | JString s => negb (String.eqb s "")
  | JArray l => match l with [] => false | _ => true end
  | JObject o => match o with [] => false | _ => true end
  end.

(** [v == "lit"] for a string literal. *)
Definition eq_str (v : json) (lit : string) : bool :=
  match v with JString s => String.eqb s lit | _ => false end.

(** Lists and dicts are unhashable: using one as a dict key raises. *)
Definition hashable (v : json) : bool :=
  match v with JArray _ | JObject _ => false | _ => true end.

(* ================================================================== *)
(** * Exceptions and the effect monad *)
(* ================================================================== *)

(** The [Exception] subclasses the code distinguishes.  [PWTimeout] is
    Playwright's [TimeoutError]; [PWError] any other Playwright [Error];
    [RetryError] is tenacity's wrapper around the last failed attempt. *)
Inductive exn : Type :=
| PWTimeout
| PWError
| RuntimeError
| AssertionError
| ValueError
| TypeError
| AttributeError
| ValidationError
| JSONDecodeError
| RetryError (last : exn)
| OtherException (tag : string).

(** [isinstance(e, PWTimeout)], the test behind [except PWTimeout]. *)
Definition is_PWTimeout (e : exn) : bool :=
  match e with PWTimeout => true | _ => false end.

Inductive outcome (A : Type) : Type :=
| Returns (a : A)
| Raises (e : exn).
Arguments Returns {A} a.
Arguments Raises {A} e.

Definition M (W A : Type) : Type := W -> outcome A * W.

Definition ret {W A} (a : A) : M W A := fun w => (Returns a, w).
Definition raise {W A} (e : exn) : M W A := fun w => (Raises e, w).
Definition bind {W A B} (m : M W A) (k : A -> M W B) : M W B :=
  fun w => match m w with
           | (Returns a, w') => k a w'
           | (Raises e, w') => (Raises e, w')
           end.

(** [try: m  except <classes matching sel>: h e]; other exceptions pass. *)
Definition try_except {W A} (m : M W A) (sel : exn -> bool) (h : exn -> M W A)
  : M W A :=
  fun w => match m w with
           | (Returns a, w') => (Returns a, w')
           | (Raises e, w') => if sel e then h e w' else (Raises e, w')
           end.

(** [try: m  finally: fin]. *)
Definition try_finally {W A} (m : M W A) (fin : M W unit) : M W A :=
  fun w => match m w with
           | (r, w') =>
               match fin w' with
               | (Returns _, w'') => (r, w'')
               | (Raises e, w'') => (Raises e, w'')
               end
           end.

(** [except Exception]: every modelled exception is an [Exception]. *)
Definition any_Exception (e : exn) : bool := true.

Declare Scope py_scope.
Delimit Scope py_scope with py.
Notation "x <- m ;; k" := (bind m (fun x => k))
  (at level 100, m at next level, right associativity) : py_scope.
Notation "m ;;; k" := (bind m (fun _ => k))
  (at level 100, right associativity) : py_scope.
Open Scope py_scope.

(* ================================================================== *)
(** * Text helpers (ASCII model of [str]) *)
(* ================================================================== *)

(** ASCII characters for which [str.isspace] holds. *)
Definition is_space (c : ascii) : bool :=
  let n := nat_of_ascii c in
  ((9 <=? n) && (n <=? 13) || (28 <=? n) && (n <=? 32))%nat.

Fixpoint lstrip (s : string) : string :=
  match s with
  | String c s' => if is_space c then lstrip s' else s
  | EmptyString => EmptyString
  end.

Fixpoint rstrip (s : string) : string :=
  match s with
  | EmptyString => EmptyString
  | String c s' =>
      match rstrip s' with
      | EmptyString => if is_space c then EmptyString else String c EmptyString
      | r => String c r
      end
  end.

(** [s.strip()]. *)
Definition strip (s : string) : string := rstrip (lstrip s).

(** [s.startswith(p)]. *)
Fixpoint startswith (s p : string) : bool :=
  match p, s with
  | EmptyString, _ => true
  | String c p', String d s' => Ascii.eqb c d && startswith s' p'
  | String _ _, EmptyString => false
  end.

(** [p in s] for strings. *)
Fixpoint contains (s p : string) : bool :=
  startswith s p ||
  match s with
  | EmptyString => false
  | String _ s' => contains s' p
  end.

(** [s.replace(a, b)] for single characters. *)
Fixpoint replace_char (a b : ascii) (s : string) : string :=
  match s with
  | EmptyString => EmptyString
  | String c s' => String (if Ascii.eqb c a then b else c) (replace_char a b s')
  end.

Definition lower_char (c : ascii) : ascii :=
  let n := nat_of_ascii c in
  if ((65 <=? n) && (n <=? 90))%nat then ascii_of_nat (n + 32) else c.

Definition upper_char (c : ascii) : ascii :=
  let n := nat_of_ascii c in
  if ((97 <=? n) && (n <=? 122))%nat then ascii_of_nat (n - 32) else c.

Fixpoint str_map (f : ascii -> ascii) (s : string) : string :=
  match s with
  | EmptyString => EmptyString
  | String c s' => String (f c) (str_map f s')
  end.

(** [s.lower()] and [s.upper()]. *)
Definition lower (s : string) : string := str_map lower_char s.
Definition upper (s : string) : string := str_map upper_char s.

Definition LF : ascii := ascii_of_nat 10.
Definition SP : ascii := ascii_of_nat 32.

(** [s.split(c)]. *)
Fixpoint split_on (c : ascii) (s : string) : list string :=
  match s with
  | EmptyString => [EmptyString]
  | String x s' =>
      match split_on c s' with
      | cur :: more => if Ascii.eqb x c then EmptyString :: cur :: more
                       else String x cur :: more
      | [] => []
      end
  end.

(* ================================================================== *)
(** * The browser driver (Playwright's sync API) and the clock *)
(* ================================================================== *)

(** Locators are lazy descriptions of elements; building one does not
    touch the page. *)
Inductive locator : Type :=
| get_by_role (role name : json)        (* page.get_by_role(role=.., name=..) *)
| page_locator (sel : json)             (* page.locator(sel) *)
| loc_first (l : locator)               (* l.first *)
| loc_nth (l : locator) (i : nat).      (* l.nth(i), the items of l.all() *)

(** A node of [page.accessibility.snapshot()]. *)
#[warnings="-register-all"]
Inductive axnode : Type :=
| AxNode (role : string) (name : json) (children : list axnode).

(** The calls the agent makes on Playwright's sync API and on [time].
    One browser with one page lives in the world. *)
Class Browser (W : Type) : Type := {
  sync_playwright_enter : M W unit;
  sync_playwright_exit : M W unit;
  chromium_launch : M W unit;
  browser_new_page : M W unit;
  browser_close : M W unit;
  page_url : W -> string;
  page_goto : json -> Z -> M W unit;
  page_wait_for_load_state : Z -> M W unit;
  accessibility_snapshot : M W (option axnode);
  eval_on_selector_all : string -> M W json;
  mouse_wheel : Z -> Z -> M W unit;
  loc_wait_for : locator -> json -> M W unit;
  loc_fill : locator -> json -> M W unit;
  loc_click : locator -> M W unit;
  loc_press : locator -> json -> M W unit;
  loc_inner_text : locator -> M W string;
  loc_get_attribute : locator -> string -> M W (option string);
  loc_count : locator -> M W nat;
  loc_all : locator -> M W (list locator);
  time_sleep : Z -> W -> W;            (* milliseconds *)
  int_of_str : string -> option Z      (* [int(s)]; [None] is ValueError *)
}.

(* ================================================================== *)
(** * tenacity's [retry] decorator *)
(* ================================================================== *)

(** [wait_exponential(multiplier=0.5, max=cap)] after attempt [k], in ms. *)
Definition wait_exponential (cap_ms : Z) (attempt : nat) : Z :=
  Z.max 0 (Z.min cap_ms (500 * 2 ^ (Z.of_nat attempt - 1))).

Section Retry.
Context {W : Type} `{Browser W} {A : Type}.

(** One attempt, then [more] further ones.  With [reraise] left at its
    default ([False]) an exhausted retry raises [RetryError]. *)
Fixpoint retry_from (more : nat) (attempt : nat) (cap_ms : Z) (f : M W A)
  : M W A :=
  fun w =>
    match f w with
    | (Returns a, w') => (Returns a, w')
    | (Raises e, w') =>
        match more with
        | O => (Raises (RetryError e), w')
        | S more' =>
            retry_from more' (S attempt) cap_ms f
                       (time_sleep (wait_exponential cap_ms attempt) w')
        end
    end.

(** [@retry(stop=stop_after_attempt(n), wait=wait_exponential(0.5, cap))]. *)
Definition retry (stop_after_attempt : nat) (cap_ms : Z) (f : M W A) : M W A :=
  retry_from (Nat.pred stop_after_attempt) 1 cap_ms f.
End Retry.

(* ================================================================== *)
(** * ai_agent.py: action execution *)
(* ================================================================== *)

Definition BASE_URL : string := "https://data.lacity.org".

(** The least integer too large for a [float]: it rounds to 2^1024. *)
Definition FLOAT_OVERFLOW : Z := 2 ^ 1024 - 2 ^ 970.

(** [int(x)]. *)
Definition py_int {W} `{Browser W} (v : json) : outcome Z :=
  match v with
  | JInt z => Returns z
  | JBool b => Returns (if b then 1 else 0)
  | JFloat q => Returns (if Qle_bool 0 q then Qfloor q else Qceiling q)
  | JString s => match int_of_str s with
                 | Some z => Returns z
                 | None => Raises ValueError
                 end
  | _ => Raises TypeError
  end.

Section Actions.
Context {W : Type} `{Browser W}.

Definition _loc (step : dict) : M W locator :=
  let role := dict_get step "role" in
  let name := dict_get step "name" in
  if truthy role && truthy name then ret (get_by_role role name)
  else
    let sel := dict_get step "selector" in
    if truthy sel then ret (loc_first (page_locator sel))
    else raise RuntimeError.

Definition wait_for_once (step : dict) : M W unit :=
  loc <- _loc step ;;
  let timeout := dict_get_default step "timeout_ms" (JInt 7000) in
  loc_wait_for loc timeout.

Definition _do_wait_for (step : dict) : M W unit :=
  retry 3 3000 (wait_for_once step).

Definition _do_goto (step : dict) : M W unit :=
  let url := dict_get step "url" in
  if negb (truthy url) then raise RuntimeError
  else page_goto url 30000.

Definition fill_once (step : dict) : M W unit :=
  loc <- _loc step ;;
  let val := dict_get_default step "value" (JString "") in
  loc_fill loc val.

Definition _do_fill (step : dict) : M W unit :=
  retry 2 2000 (fill_once step).

Definition click_once (step : dict) : M W unit :=
  loc <- _loc step ;;
  loc_click loc.

Definition _do_click (step : dict) : M W unit :=
  retry 2 2000 (click_once step).

Definition _do_press (step : dict) : M W unit :=
  loc <- _loc step ;;
  let key := dict_get_default step "value" (JString "Enter") in
  loc_press loc key.

Definition _do_scroll (step : dict) : M W unit :=
  mouse_wheel 0 1200 ;;;
  fun w => (Returns tt, time_sleep 300 w).

(** [ms / 1000.0] first converts the int to a float, which raises
    [OverflowError] from [FLOAT_OVERFLOW] on in absolute value; then
    [time.sleep] rejects a negative length with [ValueError].  (A length
    beyond the range of the platform's clock is not told apart here.) *)
Definition _do_sleep (step : dict) : M W unit :=
  match py_int (dict_get_default step "timeout_ms" (JInt 500)) with
  | Raises e => raise e
  | Returns ms =>
      if FLOAT_OVERFLOW <=? Z.abs ms then raise (OtherException "OverflowError")
      else if ms <? 0 then raise ValueError
      else fun w => (Returns tt, time_sleep ms w)
  end.

(** [expected not in actual]; a non-string [expected] makes [in] raise. *)
Definition _do_assert_text (step : dict) : M W unit :=
  loc <- _loc step ;;
  let expected := dict_get_default step "assert" (JString "") in
  txt <- loc_inner_text loc ;;
  let actual := strip txt in
  match expected with
  | JString e => if contains actual e then ret tt else raise AssertionError
  | _ => raise TypeError
  end.

Definition opt_str_json (o : option string) : json :=
  match o with Some s => JString s | None => JNull end.

Definition _do_extract (step : dict) : M W json :=
  loc <- _loc step ;;
  txt <- loc_inner_text loc ;;
  let text := replace_char LF SP (strip txt) in
  href <- try_except
            (h <- loc_get_attribute loc "href" ;;
             match h with
             | Some s =>
                 if negb (String.eqb s "") && negb (startswith s "http")
                 then ret (Some (BASE_URL ++ s)%string)
                 else ret (Some s)
             | None => ret None
             end)
            any_Exception
            (fun _ => ret None) ;;
  ret (JObject [("text", JString text); ("href", opt_str_json href)]).

(** The table of handlers; ["extract"] is handled by the loop itself. *)
Definition ACTION_MAP : list (string * (dict -> M W unit)) :=
  [ ("goto", _do_goto);
    ("fill", _do_fill);
    ("click", _do_click);
    ("press", _do_press);
    ("wait_for", _do_wait_for);
    ("scroll", _do_scroll);
    ("sleep", _do_sleep);
    ("assert_text", _do_assert_text) ].

Fixpoint assoc_find {V} (tbl : list (string * V)) (k : string) : option V :=
  match tbl with
  | [] => None
  | (k', v) :: tbl' => if String.eqb k' k then Some v else assoc_find tbl' k
  end.

(** [ACTION_MAP.get(action)]. *)
Definition ACTION_MAP_get (action : json) : outcome (option (dict -> M W unit)) :=
  if negb (hashable action) then Raises TypeError
  else match action with
       | JString a => Returns (assoc_find ACTION_MAP a)
       | _ => Returns None
       end.

(** [action in {"goto", "click"}]. *)
Definition is_navigation (action : json) : bool :=
  eq_str action "goto" || eq_str action "click".

(** The body of the [for step in steps] loop, with [result] threaded. *)
Fixpoint exec_loop (steps : list dict) (result : dict) : M W dict :=
  match steps with
  | [] => ret result
  | step :: rest =>
      let action := dict_get step "action" in
      if negb (truthy action) then exec_loop rest result
      else if eq_str action "extract" then
        v <- _do_extract step ;;
        exec_loop rest (dict_set result "extracted" v)
      else
        match ACTION_MAP_get action with
        | Raises e => raise e
        | Returns None => exec_loop rest result
        | Returns (Some fn) =>
            try_except (fn step)
                       (fun _ => true)
                       (fun e => if is_PWTimeout e then raise e else ret tt) ;;;
            (if is_navigation action
             then try_except (page_wait_for_load_state 15000)
                             is_PWTimeout (fun _ => ret tt)
             else ret tt) ;;;
            exec_loop rest result
        end
  end.

Definition execute_steps (steps : list dict) : M W dict :=
  exec_loop steps [("extracted", JNull)].
End Actions.

(* ================================================================== *)
(** * ai_agent.py: the plan schema *)
(* ================================================================== *)

Inductive jtype : Type := TArray | TObject | TString | TNumber.

(** The JSON-Schema keywords [ACTION_SCHEMA] uses. *)
#[warnings="-register-all"]
Inductive schema : Type :=
| Schema (type : option jtype)
         (enum : option (list string))
         (required : list string)
         (properties : list (string * schema))
         (items : option schema).

Definition ACTION_ENUM : list string :=
  [ "goto"; "fill"; "click"; "press"; "wait_for";
    "extract"; "assert_text"; "select_option";
    "scroll"; "sleep" ].

Definition string_schema : schema := Schema (Some TString) None [] [] None.
Definition number_schema : schema := Schema (Some TNumber) None [] [] None.

Definition ACTION_SCHEMA : schema :=
  Schema (Some TArray) None [] []
    (Some (Schema (Some TObject) None ["action"]
             [ ("action", Schema (Some TString) (Some ACTION_ENUM) [] [] None);
               ("url", string_schema);
               ("selector", string_schema);
               ("role", string_schema);
               ("name", string_schema);
               ("value", string_schema);
               ("assert", string_schema);
               ("timeout_ms", number_schema) ]
             None)).

(** Draft 7 ["type"]: a boolean is not a number. *)
Definition type_ok (t : option jtype) (v : json) : bool :=
  match t, v with
  | None, _ => true
  | Some TArray, JArray _ => true
  | Some TObject, JObject _ => true
  | Some TString, JString _ => true
  | Some TNumber, (JInt _ | JFloat _) => true
  | Some _, _ => false
  end.

Definition str_in (s : string) (l : list string) : bool :=
  existsb (String.eqb s) l.

Definition enum_ok (e : option (list string)) (v : json) : bool :=
  match e, v with
  | None, _ => true
  | Some l, JString s => str_in s l
  | Some _, _ => false
  end.

(** ["required"] constrains objects only. *)
Definition required_ok (req : list string) (v : json) : bool :=
  match v with
  | JObject o =>
      forallb (fun k => match dict_find o k with Some _ => true | None => false end) req
  | _ => true
  end.

(** [Draft7Validator(s).is_valid(v)] for the keywords above. *)
Fixpoint validates (s : schema) (v : json) {struct s} : bool :=
  match s with
  | Schema ty en req props items =>
      type_ok ty v && enum_ok en v && required_ok req v &&
      (fix props_ok (ps : list (string * schema)) : bool :=
         match ps with
         | [] => true
         | (k, sub) :: ps' =>
             match v with
             | JObject o =>
                 match dict_find o k with
                 | Some x => validates sub x
                 | None => true
                 end
             | _ => true
             end && props_ok ps'
         end) props &&
      match items, v with
      | Some it, JArray l => forallb (validates it) l
      | _, _ => true
      end
  end.

(** [validate(instance=plan, schema=ACTION_SCHEMA)] and
    [_validator.validate(plan)]: raise [ValidationError] or return. *)
Definition validate (plan : json) : outcome unit :=
  if validates ACTION_SCHEMA plan then Returns tt else Raises ValidationError.

(** The properties of [ACTION_SCHEMA] an item is checked for besides its
    [action]. *)
Definition other_properties_ok (step : dict) : bool :=
  forallb (fun ks => match dict_find step (fst ks) with
                     | Some x => validates (snd ks) x
                     | None => true
                     end)
          [ ("url", string_schema); ("selector", string_schema);
            ("role", string_schema); ("name", string_schema);
            ("value", string_schema); ("assert", string_schema);
            ("timeout_ms", number_schema) ].

(** A plan that is schema-valid and has an [extract] step. *)
Definition complete_plan (plan : json) : Prop :=
  validate plan = Returns tt
  /\ exists l step,
       plan = JArray l /\ In (JObject step) l
       /\ dict_get step "action" = JString "extract".

(* ================================================================== *)
(** * ai_agent.py: the planner *)
(* ================================================================== *)

(** The process environment and the generative-model client. *)
Class Host (W : Type) : Type := {
  os_getenv : string -> W -> option string;
  (** [import google.generativeai; genai.configure(api_key=..)] *)
  genai_configure : string -> M W unit;
  (** [getattr(model(mid).generate_content([system, dumps(user)]), "text", "")]
      for [user = {goal, context}]; [None] when the attribute is None. *)
  generate_content_text : string -> string -> json -> M W (option string);
  (** [json.loads] *)
  json_loads : string -> outcome json;
  (** [urllib.parse.quote_plus] *)
  quote_plus : string -> string;
  (** [print(json.dumps(steps)); _save_plan(steps, meta)] of debug runs *)
  _save_plan : json -> dict -> M W unit
}.

(** [a or b] on [Optional[str]]. *)
Definition str_or (a b : option string) : option string :=
  match a with
  | Some s => if String.eqb s "" then b else a
  | None => b
  end.

(** [s.find(c)] and [s.rfind(c)]; [None] stands for [-1]. *)
Fixpoint find_char (c : ascii) (s : string) : option nat :=
  match s with
  | EmptyString => None
  | String d s' =>
      if Ascii.eqb d c then Some O
      else match find_char c s' with Some i => Some (S i) | None => None end
  end.

Fixpoint rfind_char (c : ascii) (s : string) : option nat :=
  match s with
  | EmptyString => None
  | String d s' =>
      match rfind_char c s' with
      | Some i => Some (S i)
      | None => if Ascii.eqb d c then Some O else None
      end
  end.

(** [s[i:j]] for [0 <= i] and [0 <= j]. *)
Definition slice (s : string) (i j : nat) : string :=
  substring i (j - i) s.

Definition LBRACKET : ascii := ascii_of_nat 91.
Definition RBRACKET : ascii := ascii_of_nat 93.

Definition MODEL_CANDIDATES : list string :=
  [ "models/gemini-2.5-flash";
    "models/gemini-2.5-flash-lite";
    "models/gemini-2.5-pro" ].

(** [any(step.get("action") == "extract" for step in plan)]. *)
Fixpoint any_extract (l : list json) : outcome bool :=
  match l with
  | [] => Returns false
  | JObject o :: l' =>
      if eq_str (dict_get o "action") "extract" then Returns true
      else any_extract l'
  | _ :: _ => Raises AttributeError
  end.

Definition has_extract (plan : json) : outcome bool :=
  match plan with
  | JArray l => any_extract l
  | JObject [] | JString "" => Returns false
  | JObject _ | JString _ => Raises AttributeError
  | _ => Raises TypeError
  end.

Definition lift {W A} (o : outcome A) : M W A := fun w => (o, w).

Definition SEARCH_INPUT : string := "input[placeholder*='Search' i]".
Definition RESULT_LINKS : string := "a[href*='/d/']".

Definition _fallback_plan (goal : string) (context : json) : json :=
  JArray
    [ JObject [("action", JString "wait_for"); ("selector", JString SEARCH_INPUT);
               ("timeout_ms", JInt 7000)];
      JObject [("action", JString "fill"); ("selector", JString SEARCH_INPUT);
               ("value", JString goal)];
      JObject [("action", JString "press"); ("selector", JString SEARCH_INPUT);
               ("value", JString "Enter")];
      JObject [("action", JString "wait_for"); ("selector", JString RESULT_LINKS);
               ("timeout_ms", JInt 15000)];
      JObject [("action", JString "extract"); ("selector", JString RESULT_LINKS)] ].

Definition fallback_meta : dict :=
  [("source", JString "fallback"); ("model", JNull)].

Section Planner.
Context {W : Type} `{Host W}.

(** One pass of the [for mid in MODEL_CANDIDATES] body, inside its [try];
    [None] is [continue]. *)
Definition try_model (mid goal : string) (context : json)
  : M W (option (json * dict)) :=
  t <- generate_content_text mid goal context ;;
  let text := strip (match t with Some s => s | None => "" end) in
  if String.eqb text "" then ret None
  else
    let sliced :=
      if startswith text (String LBRACKET EmptyString) then Some text
      else match find_char LBRACKET text, rfind_char RBRACKET text with
           | Some s, Some e => Some (slice text s (e + 1))
           | _, _ => None
           end in
    match sliced with
    | None => ret None
    | Some text' =>
        plan <- lift (json_loads text') ;;
        lift (validate plan) ;;;
        has <- lift (has_extract plan) ;;
        if negb has then ret None
        else ret (Some (plan, [("source", JString "gemini"); ("model", JString mid)]))
    end.

Fixpoint try_models (mids : list string) (goal : string) (context : json)
  : M W (option (json * dict)) :=
  match mids with
  | [] => ret None
  | mid :: rest =>
      r <- try_except (try_model mid goal context) any_Exception
                      (fun _ => ret None) ;;
      match r with
      | Some found => ret (Some found)
      | None => try_models rest goal context
      end
  end.

Definition _try_gemini_plan (goal : string) (context : json)
  : M W (option (json * dict)) :=
  fun w =>
    match str_or (os_getenv "GEMINI_API_KEY" w) (os_getenv "GOOGLE_API_KEY" w) with
    | None => (Returns None, w)
    | Some api_key =>
        if String.eqb api_key "" then (Returns None, w)
        else
          match genai_configure api_key w with
          | (Raises _, w') => (Returns None, w')
          | (Returns _, w') => try_models MODEL_CANDIDATES goal context w'
          end
    end.

Definition plan_actions_via_llm_mcp (goal : string) (context : json)
  : M W (json * dict) :=
  tried <- _try_gemini_plan goal context ;;
  let '(plan, meta) :=
    match tried with
    | Some pm => pm
    | None => (_fallback_plan goal context, fallback_meta)
    end in
  try_except (lift (validate plan) ;;; ret (plan, meta))
             (fun e => match e with ValidationError => true | _ => false end)
             (fun _ => ret (_fallback_plan goal context, fallback_meta)).
End Planner.

(* ================================================================== *)
(** * A backtracking matcher for the [re] patterns of agent_cli.py *)
(* ================================================================== *)

(** Pattern syntax.  Alternation is ordered and repetition greedy, as in
    Python's [re]; [Bol] is [^]; [Group i r] is the i-th capturing group. *)
Inductive regex : Type :=
| Eps
| Bol
| Chr (p : ascii -> bool)
| Seq (r1 r2 : regex)
| Alt (r1 r2 : regex)
| Star (r : regex)
| Group (i : nat) (r : regex).

Definition Plus (r : regex) : regex := Seq r (Star r).
Definition Opt (r : regex) : regex := Alt r Eps.

Definition caps := list (nat * string).

Definition cap_get (c : caps) (i : nat) : string :=
  match find (fun p => Nat.eqb (fst p) i) c with
  | Some (_, s) => s
  | None => ""
  end.

(** The first [n] characters of [s]. *)
Definition prefix_of (n : nat) (s : string) : string := substring 0 n s.

Section Matcher.
Context {A : Type}.
Variable total : nat.   (* length of the whole subject string *)

(** [rmatch r s c k]: match [r] at the front of [s] (a suffix of the
    subject), then continue with [k]; [None] backtracks. *)
Fixpoint rmatch (r : regex) (s : string) (c : caps)
         (k : string -> caps -> option A) {struct r} : option A :=
  match r with
  | Eps => k s c
  | Bol => if Nat.eqb (String.length s) total then k s c else None
  | Chr p =>
      match s with
      | String x s' => if p x then k s' c else None
      | EmptyString => None
      end
  | Seq r1 r2 => rmatch r1 s c (fun s' c' => rmatch r2 s' c' k)
  | Alt r1 r2 =>
      match rmatch r1 s c k with
      | Some a => Some a
      | None => rmatch r2 s c k
      end
  | Star r' =>
      (fix loop (n : nat) (s : string) (c : caps) {struct n} : option A :=
         match n with
         | O => k s c
         | S n' =>
             match rmatch r' s c
                     (fun s' c' =>
                        if Nat.ltb (String.length s') (String.length s)
                        then loop n' s' c' else None) with
             | Some a => Some a
             | None => k s c
             end
         end) (String.length s) s c
  | Group i r' =>
      rmatch r' s c
        (fun s' c' =>
           k s' ((i, prefix_of (String.length s - String.length s') s) :: c'))
  end.
End Matcher.

(** A match of [r] at the front of suffix [s]: the text matched, the
    groups, and what is left. *)
Definition match_here (total : nat) (r : regex) (s : string)
  : option (string * caps * string) :=
  rmatch total r s []
    (fun s' c => Some (prefix_of (String.length s - String.length s') s, c, s')).

(** Left-to-right scan for successive non-overlapping matches, for
    patterns that do not match the empty string.  [skip] counts the
    characters still covered by the previous match. *)
Fixpoint scan (total : nat) (r : regex) (s : string) (skip : nat)
  : list (string + (string * caps)) :=
  match s with
  | EmptyString => []
  | String x s' =>
      match skip with
      | S n => scan total r s' n
      | O =>
          match match_here total r s with
          | Some (m, c, _) =>
              match String.length m with
              | O => inl (String x EmptyString) :: scan total r s' O
              | S n => inr (m, c) :: scan total r s' n
              end
          | None => inl (String x EmptyString) :: scan total r s' O
          end
      end
  end.

(** [re.sub(r, repl, s)]. *)
Definition re_sub (r : regex) (repl : string) (s : string) : string :=
  String.concat ""
    (map (fun p => match p with inl lit => lit | inr _ => repl end)
         (scan (String.length s) r s O)).

(** [re.findall(r, s)]: for each match, the whole text and its groups. *)
Definition re_findall (r : regex) (s : string) : list (string * caps) :=
  flat_map (fun p => match p with inl _ => [] | inr mc => [mc] end)
           (scan (String.length s) r s O).

Definition chr (x : ascii) : regex := Chr (Ascii.eqb x).
Definition not_chr (x : ascii) : regex := Chr (fun c => negb (Ascii.eqb x c)).

(** A literal under [re.I]. *)
Fixpoint lit_i (s : string) : regex :=
  match s with
  | EmptyString => Eps
  | String x EmptyString => Chr (fun c => Ascii.eqb (lower_char c) (lower_char x))
  | String x s' => Seq (Chr (fun c => Ascii.eqb (lower_char c) (lower_char x))) (lit_i s')
  end.

(** [\s] and [\s*]. *)
Definition ws1 : regex := Chr is_space.
Definition ws : regex := Star ws1.

(** [A1|A2|...] in priority order. *)
Fixpoint alts (rs : list regex) : regex :=
  match rs with
  | [] => Chr (fun _ => false)
  | [r] => r
  | r :: rs' => Alt r (alts rs')
  end.

Fixpoint seqs (rs : list regex) : regex :=
  match rs with
  | [] => Eps
  | [r] => r
  | r :: rs' => Seq r (seqs rs')
  end.

(* ================================================================== *)
(** * agent_cli.py: the keyword extractor *)
(* ================================================================== *)

Definition DQ : ascii := ascii_of_nat 34.
Definition SQ : ascii := ascii_of_nat 39.

(** The phrase pattern: a double-quoted run of non-quote characters
    (group 1) or a single-quoted one (group 2), each at least one
    character long. *)
Definition RE_PHRASES : regex :=
  Alt (seqs [chr DQ; Group 1 (Plus (not_chr DQ)); chr DQ])
      (seqs [chr SQ; Group 2 (Plus (not_chr SQ)); chr SQ]).

(** The character class of the two quote characters. *)
Definition RE_QUOTES : regex :=
  Chr (fun c => Ascii.eqb c DQ || Ascii.eqb c SQ).

(** [^(i\s*(want|would\s*like|need)\s*(to\s*(know|see|find|search))?
       |tell\s*me|show\s*me|can\s*you\s*(find|show))\s*(about|for)?\s*],
    compiled with [re.I]. *)
Definition RE_FILLER : regex :=
  seqs
    [ Bol;
      Group 1
        (alts
           [ seqs [ lit_i "i"; ws;
                    Group 2 (alts [ lit_i "want";
                                    seqs [lit_i "would"; ws; lit_i "like"];
                                    lit_i "need" ]);
                    ws;
                    Opt (Group 3
                           (seqs [ lit_i "to"; ws;
                                   Group 4 (alts [ lit_i "know"; lit_i "see";
                                                   lit_i "find"; lit_i "search" ]) ])) ];
             seqs [lit_i "tell"; ws; lit_i "me"];
             seqs [lit_i "show"; ws; lit_i "me"];
             seqs [ lit_i "can"; ws; lit_i "you"; ws;
                    Group 5 (alts [lit_i "find"; lit_i "show"]) ] ]);
      ws;
      Opt (Group 6 (alts [lit_i "about"; lit_i "for"]));
      ws ].

Definition is_word_char (c : ascii) : bool :=
  let n := nat_of_ascii c in
  ((65 <=? n) && (n <=? 90) || (97 <=? n) && (n <=? 122)
   || (48 <=? n) && (n <=? 57) || (n =? 45))%nat.

(** [[A-Za-z0-9\-]+] *)
Definition RE_TOKEN : regex := Plus (Chr is_word_char).

Definition STOP : list string :=
  [ "the"; "a"; "an"; "and"; "or"; "of"; "on"; "in"; "for"; "to"; "from"; "with"; "about";
    "at"; "by"; "into"; "is"; "are"; "was"; "were"; "be"; "been"; "being"; "that"; "this";
    "these"; "those"; "it"; "its"; "as"; "i"; "we"; "you"; "they"; "he"; "she"; "them"; "me";
    "my"; "our"; "your"; "their"; "want"; "would"; "like"; "know"; "find"; "search"; "see";
    "please"; "dataset"; "datasets"; "data" ].

Definition SHORT_KEEP : list string := ["LA"; "PD"; "DPW"].

(** The [for t in tokens] filter. *)
Definition keep_token (t : string) : bool :=
  if str_in (lower t) STOP then false
  else if (String.length t <=? 2)%nat && negb (str_in (upper t) SHORT_KEEP) then false
  else true.

(** De-duplicate on the lower-cased token, first occurrence wins. *)
Fixpoint dedupe (seen : list string) (l : list string) : list string :=
  match l with
  | [] => []
  | t :: l' =>
      if str_in (lower t) seen then dedupe seen l'
      else t :: dedupe (lower t :: seen) l'
  end.

(** The list [deduped] just before it is joined. *)
Definition search_tokens (text : string) : list string :=
  let s := strip (re_sub (Plus ws1) " " text) in
  let phrases := re_findall RE_PHRASES s in
  let phrase_tokens :=
    map (fun p => let g1 := cap_get (snd p) 1 in
                  if String.eqb g1 "" then cap_get (snd p) 2 else g1) phrases in
  let s := re_sub RE_QUOTES "" s in
  let s := re_sub RE_FILLER "" s in
  let tokens := map fst (re_findall RE_TOKEN s) in
  let cleaned := filter keep_token tokens in
  let cleaned := match phrase_tokens with [] => cleaned | _ => cleaned ++ phrase_tokens end in
  let deduped := dedupe [] cleaned in
  let deduped := if (5 <? length deduped)%nat then firstn 5 deduped else deduped in
  map (fun t => if String.eqb (lower t) "la" then "LA" else t) deduped.

Definition _extract_search_text (text : string) : string :=
  if String.eqb text "" then ""
  else strip (String.concat " " (search_tokens text)).

Definition GOAL_CRIMES : string := "I want to know about the crimes in LA".
Definition GOAL_QUOTED : string :=
  "Find datasets on " ++ String DQ "General Services" ++ String DQ "".

(* ================================================================== *)
(** * mcp_client.py *)
(* ================================================================== *)

(** [_match_tool], over the names [list_tool_names()] returns. *)
Definition find_name (p : string -> bool) (names low_names : list string)
  : option string :=
  match find (fun nl => p (snd nl)) (combine names low_names) with
  | Some (n, _) => Some n
  | None => None
  end.

Fixpoint match_candidates (names low_names candidates : list string)
  : option string :=
  match candidates with
  | [] => None
  | c :: cs =>
      let c := lower c in
      (* prefer startswith *)
      match find_name (fun ln => startswith ln c) names low_names with
      | Some n => Some n
      | None =>
          (* fallback to contains *)
          match find_name (fun ln => contains ln c) names low_names with
          | Some n => Some n
          | None => match_candidates names low_names cs
          end
      end
  end.

Definition _match_tool (names candidates : list string) : option string :=
  match_candidates names (map lower names) candidates.

(** [n] starts with / contains candidate [c], ignoring case. *)
Definition starts_ci (n c : string) : bool := startswith (lower n) (lower c).
Definition has_ci (n c : string) : bool := contains (lower n) (lower c).

Definition NAVIGATE_CANDIDATES : list string :=
  ["playwright_navigate"; "playwright.navigate"; "page.navigate"; "navigate"].

Definition SNAPSHOT_CANDIDATES : list string :=
  ["playwright_snapshot"; "playwright.snapshot"; "page.snapshot"; "snapshot"].

Record MCPConfig : Type := { cmd : string; args : list string }.

(** The stdio transport and session of the [mcp] package. *)
Class MCPTransport (W : Type) : Type := {
  (** [from mcp_client import ...] *)
  import_mcp_client : M W unit;
  shlex_split : string -> outcome (list string);
  (** [__aenter__]: start the server, initialize, list the tool names. *)
  mcp_aenter : MCPConfig -> M W (list string);
  (** [session.call_tool]: the [text] attribute of each content item. *)
  mcp_call_tool : string -> json -> M W (list (option string));
  (** [__aexit__]: swallows its own failures. *)
  mcp_aexit : W -> W
}.

(** [len(x)]. *)
Definition py_len (v : json) : outcome nat :=
  match v with
  | JString s => Returns (String.length s)
  | JArray l => Returns (length l)
  | JObject o => Returns (length o)
  | _ => Raises TypeError
  end.

Section MCPClient.
Context {W : Type} `{Host W} `{MCPTransport W}.

Definition _get_config_from_env : M W (option MCPConfig) :=
  fun w =>
    match os_getenv "MCP_PLAYWRIGHT_CMD" w with
    | None => (Returns None, w)
    | Some c =>
        if String.eqb c "" then (Returns None, w)
        else
          let raw := match os_getenv "MCP_PLAYWRIGHT_ARGS" w with
                     | Some a => a
                     | None => ""
                     end in
          match shlex_split raw with
          | Returns a => (Returns (Some {| cmd := c; args := a |}), w)
          | Raises e => (Raises e, w)
          end
    end.

Definition build_playwright_mcp : M W (option MCPConfig) :=
  _get_config_from_env.

(** [async with mcp as client: body]. *)
Definition with_mcp {A} (cfg : MCPConfig) (body : list string -> M W A) : M W A :=
  tools <- mcp_aenter cfg ;;
  fun w => let '(r, w') := body tools w in (r, mcp_aexit w').

Definition call (tool_name : string) (a : json) : M W json :=
  content <- mcp_call_tool tool_name a ;;
  match find (fun t => match t with Some _ => true | None => false end) content with
  | Some (Some val) =>
      match json_loads val with
      | Returns v => ret v
      | Raises _ => ret (JString val)
      end
  | _ => ret JNull
  end.

Definition navigate (tools : list string) (url : string) : M W bool :=
  match _match_tool tools NAVIGATE_CANDIDATES with
  | None => ret false
  | Some name =>
      if String.eqb name "" then ret false
      else call name (JObject [("url", JString url)]) ;;; ret true
  end.

Definition get_page_context (tools : list string) : M W json :=
  match _match_tool tools SNAPSHOT_CANDIDATES with
  | None => ret JNull
  | Some name =>
      if String.eqb name "" then ret JNull
      else
        data <- call name (JObject []) ;;
        if negb (truthy data) then ret JNull
        else
          match data with
          | JObject d =>
              let elements := dict_get_default d "elements" (JArray []) in
              lift (py_len elements) ;;;
              ret (JObject [ ("url", dict_get_default d "url" (JString ""));
                             ("elements", elements);
                             ("testids", JArray []);
                             ("hints", JObject []);
                             ("title", dict_get_default d "title" (JString "")) ])
          | _ => raise AttributeError      (* data.keys() *)
          end
  end.
End MCPClient.

(* ================================================================== *)
(** * ai_agent.py: the page context builder *)
(* ================================================================== *)

Definition INTERACTIVE_ROLES : list string :=
  ["textbox"; "button"; "link"; "combobox"; "menuitem"; "checkbox"; "radio"; "img"].

Fixpoint walk (node : axnode) : list json :=
  match node with
  | AxNode role name children =>
      (if str_in role INTERACTIVE_ROLES
       then [JObject [("role", JString role); ("name", name)]]
       else [])
      ++ flat_map walk children
  end.

Definition SEARCH_BOX_SEL : string :=
  "input[placeholder*='Search' i], input[type='search']".
Definition SUBMIT_BTN_SEL : string :=
  "button[type='submit'], button:has(svg)".

Section ContextBuilder.
Context {W : Type} `{Browser W} `{Host W} `{MCPTransport W}.

(** The [async def _run()] body, run to completion on its worker thread. *)
Definition _run (cfg : MCPConfig) (url : string) : M W json :=
  with_mcp cfg
    (fun client =>
       try_except (navigate client url ;;; ret tt) any_Exception (fun _ => ret tt) ;;;
       data <- get_page_context client ;;
       ret data).

(** The MCP-first block inside its [try]; [None] is falling through. *)
Definition mcp_first (url : string) : M W (option json) :=
  import_mcp_client ;;;
  mcp <- build_playwright_mcp ;;
  match mcp with
  | None => ret None
  | Some cfg =>
      data <- _run cfg url ;;
      match data with
      | JObject d =>
          if truthy data && truthy (dict_get d "elements") then
            let data' := dict_set d "__source" (JString "mcp") in
            lift (py_len (dict_get_default data' "elements" (JArray []))) ;;;
            ret (Some (JObject data'))
          else ret None
      | _ => ret None
      end
  end.

(** The local fallback. *)
Definition local_context (url : string) : M W json :=
  ax <- try_except accessibility_snapshot any_Exception (fun _ => ret None) ;;
  let elements := match ax with Some node => walk node | None => [] end in
  testids <- try_except
               (t <- eval_on_selector_all "[data-testid]" ;;
                ret (if truthy t then t else JArray []))
               any_Exception (fun _ => ret (JArray [])) ;;
  n_search <- loc_count (page_locator (JString SEARCH_BOX_SEL)) ;;
  n_submit <- loc_count (page_locator (JString SUBMIT_BTN_SEL)) ;;
  ret (JObject [ ("__source", JString "local");
                 ("url", JString url);
                 ("elements", JArray elements);
                 ("testids", testids);
                 ("hints", JObject [ ("has_search_box", JBool (0 <? n_search)%nat);
                                     ("has_submit_btn", JBool (0 <? n_submit)%nat) ]) ]).

Definition build_page_context : M W json :=
  fun w =>
    let url := page_url w in
    (remote <- try_except (mcp_first url) any_Exception (fun _ => ret None) ;;
     match remote with
     | Some data => ret data
     | None => local_context url
     end) w.
End ContextBuilder.

(* ================================================================== *)
(** * agent_cli.py: the orchestration flow *)
(* ================================================================== *)

Definition START_URL : string := "https://data.lacity.org/".
Definition BROWSE_URL : string := "https://data.lacity.org/browse?limitTo=datasets&q=".

(** One entry of the result list, [{"title": .., "url": ..}]. *)
Record hit : Type := { title : string; url : string }.

(** [href if href.startswith("http") else f"https://data.lacity.org{href}"]. *)
Definition absolutize (href : string) : string :=
  if startswith href "http" then href else (BASE_URL ++ href)%string.

(** Iterating a value with [for x in v]. *)
Definition py_iter (v : json) : outcome (list json) :=
  match v with
  | JArray l => Returns l
  | JObject o => Returns (map (fun kv => JString (fst kv)) o)
  | JString s => Returns (map (fun c => JString (String c EmptyString)) (list_ascii_of_string s))
  | _ => Raises TypeError
  end.

(** The debug listing [for elem in context["elements"][:5]: elem.get(..)]. *)
Definition debug_sample (elements : json) : outcome unit :=
  match elements with
  | JArray l =>
      if forallb (fun e => match e with JObject _ => true | _ => false end) (firstn 5 l)
      then Returns tt else Raises AttributeError
  | JString _ => Raises AttributeError
  | _ => Raises TypeError
  end.

(** [action in {"press", "click", "goto"}]. *)
Definition is_reread_action (action : json) : bool :=
  eq_str action "press" || eq_str action "click" || eq_str action "goto".

(** The [first_hit] a step's result yields, if any. *)
Definition hit_of_result (result : dict) : option hit :=
  let eh := dict_get result "extracted" in
  if truthy eh then
    match eh with
    | JObject e =>
        match dict_get e "text", dict_get e "href" with
        | JString t, JString h =>
            if negb (String.eqb t "") && negb (String.eqb h "")
            then Some {| title := t; url := absolutize h |}
            else None
        | _, _ => None
        end
    | _ => None
    end
  else None.

Section Orchestration.
Context {W : Type} `{Browser W} `{Host W} `{MCPTransport W}.

Definition extract_first_result : M W (string * string) :=
  let first := loc_first (page_locator (JString RESULT_LINKS)) in
  loc_wait_for first (JInt 15000) ;;;
  txt <- loc_inner_text first ;;
  let title := replace_char LF SP (strip txt) in
  href <- loc_get_attribute first "href" ;;
  match href with
  | Some h =>
      if String.eqb h "" then ret (title, "")
      else ret (title, absolutize h)
  | None => ret (title, "")
  end.

(** One pass of the step loop.  The inner [try] is split at the point
    where [first_hit] is assigned: a failure of [execute_steps] leaves
    it alone, a failure of the re-read wait keeps the new value. *)
Definition run_step (use_mcp_reread : bool) (first_hit : option hit) (step : json)
  : M W (option hit) :=
  match step with
  | JObject d =>
      let action := dict_get d "action" in
      r <- try_except (result <- execute_steps [d] ;; ret (Some result))
                      any_Exception (fun _ => ret None) ;;
      match r with
      | None => ret first_hit
      | Some result =>
          let first_hit' := match hit_of_result result with
                            | Some h => Some h
                            | None => first_hit
                            end in
          (if use_mcp_reread && hashable action && is_reread_action action
           then try_except (page_wait_for_load_state 5000)
                           any_Exception (fun _ => ret tt)
           else ret tt) ;;;
          ret first_hit'
      end
  | _ => raise AttributeError       (* step.get *)
  end.

Fixpoint run_steps (use_mcp_reread : bool) (first_hit : option hit)
         (steps : list json) : M W (option hit) :=
  match steps with
  | [] => ret first_hit
  | step :: rest =>
      fh <- run_step use_mcp_reread first_hit step ;;
      run_steps use_mcp_reread fh rest
  end.

(** The [for a in anchors[:10]] loop. *)
Fixpoint collect (anchors : list locator) (results : list hit) : M W (list hit) :=
  match anchors with
  | [] => ret results
  | a :: rest =>
      item <- try_except
                (txt <- loc_inner_text a ;;
                 let t := replace_char LF SP (strip txt) in
                 href <- loc_get_attribute a "href" ;;
                 match href with
                 | Some h =>
                     if String.eqb t "" || String.eqb h "" then ret None
                     else ret (Some {| title := t; url := absolutize h |})
                 | None => ret None
                 end)
                any_Exception (fun _ => ret None) ;;
      collect rest (match item with
                    | Some h => results ++ [h]
                    | None => results
                    end)
  end.

(** The body of the top-level [try]. *)
Definition flow (goal : string) (debug use_mcp_reread : bool) : M W (list hit) :=
  (* 1) open the portal *)
  page_goto (JString START_URL) 30000 ;;;
  (* 2) initial context *)
  context <- build_page_context ;;
  elements <- match context with
              | JObject c => ret (dict_get_default c "elements" (JArray []))
              | _ => raise AttributeError
              end ;;
  n <- lift (py_len elements) ;;
  (if debug && (0 <? n)%nat then lift (debug_sample elements) else ret tt) ;;;
  (* 3) plan *)
  let kw_goal := _extract_search_text goal in
  pm <- plan_actions_via_llm_mcp kw_goal context ;;
  let '(steps, meta) := pm in
  lift (py_len steps) ;;;
  (if debug then _save_plan steps meta else ret tt) ;;;
  (* 4) execute, one step at a time *)
  items <- lift (py_iter steps) ;;
  first_hit <- run_steps use_mcp_reread None items ;;
  (* 5) make sure we are on the results page, then collect *)
  (fun w => if contains (page_url w) "browse" then (Returns tt, w)
            else page_goto (JString (BROWSE_URL ++ quote_plus kw_goal)%string) 30000 w) ;;;
  let sel := page_locator (JString RESULT_LINKS) in
  try_except (loc_wait_for (loc_first sel) (JInt 15000))
             any_Exception (fun _ => ret tt) ;;;
  anchors <- try_except (loc_all sel) any_Exception (fun _ => ret []) ;;
  results <- collect (firstn 10 anchors) [] ;;
  let results :=
    match first_hit with
    | Some fh =>
        if forallb (fun r => negb (String.eqb (url fh) (url r))) results
        then firstn 10 (fh :: results) else results
    | None => results
    end in
  match results with
  | [] =>
      try_except
        (tu <- extract_first_result ;;
         let '(t, u) := tu in
         if negb (String.eqb t "") && negb (String.eqb u "")
         then ret [{| title := t; url := u |}] else ret [])
        any_Exception (fun _ => ret [])
  | _ => ret results
  end.

(** [try: m  except A: h1  except B: h2]. *)
Definition try_except2 {A} (m : M W A)
           (sel1 : exn -> bool) (h1 : exn -> M W A)
           (sel2 : exn -> bool) (h2 : exn -> M W A) : M W A :=
  fun w => match m w with
           | (Returns a, w') => (Returns a, w')
           | (Raises e, w') =>
               if sel1 e then h1 e w'
               else if sel2 e then h2 e w'
               else (Raises e, w')
           end.

(** The [try / except PWTimeout / except Exception / finally] block. *)
Definition guarded_flow (goal : string) (debug use_mcp_reread : bool)
  : M W (list hit) :=
  try_finally
    (try_except2 (flow goal debug use_mcp_reread)
                 is_PWTimeout (fun _ => ret [])
                 any_Exception (fun _ => ret []))
    browser_close.

Definition run_goal (goal : string) (debug use_mcp_reread : bool)
  : M W (list hit) :=
  sync_playwright_enter ;;;
  try_finally
    (chromium_launch ;;;
     browser_new_page ;;;
     guarded_flow goal debug use_mcp_reread)
    sync_playwright_exit.
End Orchestration.

(* ================================================================== *)
(** * A simulated browser, to run the agent on concrete pages *)
(* ================================================================== *)

Module Sim.

(** What the simulated world records of the calls made on it. *)
Inductive event : Type :=
| EvStart | EvStop | EvLaunch | EvNewPage | EvClose
| EvGoto (u : json)
| EvLoadState (timeout : Z)
| EvSnapshot | EvEval | EvWheel
| EvWaitFor (l : locator)
| EvFill (l : locator) (v : json)
| EvClick (l : locator)
| EvPress (l : locator) (key : json)
| EvInnerText (l : locator)
| EvGetAttribute (l : locator)
| EvCount (l : locator)
| EvAll (l : locator)
| EvSleep (ms : Z).

(** A page with an optional search box and a list of result anchors
    (inner text, href).  [crashed]: every call on the page raises a
    Playwright [Error].  [click_broken]: [click] raises one. *)
Record sim : Type := {
  cur_url : string;
  crashed : bool;
  click_broken : bool;
  search_box : bool;
  links : list (string * string);
  env : list (string * string);
  log : list event
}.

Definition note (e : event) (w : sim) : sim :=
  {| cur_url := cur_url w; crashed := crashed w; click_broken := click_broken w;
     search_box := search_box w; links := links w; env := env w;
     log := log w ++ [e] |}.

Definition set_url (u : string) (w : sim) : sim :=
  {| cur_url := u; crashed := crashed w; click_broken := click_broken w;
     search_box := search_box w; links := links w; env := env w;
     log := log w |}.

Definition SECOND_LINK : string := "a[href*='/d/'] >> nth=1".

(** The elements a locator designates, as (inner text, href). *)
Fixpoint elements_of (w : sim) (l : locator) : list (string * option string) :=
  match l with
  | page_locator (JString s) =>
      if String.eqb s RESULT_LINKS
      then map (fun th => (fst th, Some (snd th))) (links w)
      else if String.eqb s SECOND_LINK
      then map (fun th => (fst th, Some (snd th))) (skipn 1 (links w))
      else if (String.eqb s SEARCH_INPUT || String.eqb s SEARCH_BOX_SEL) && search_box w
      then [("", None)]
      else []
  | loc_first l' => firstn 1 (elements_of w l')
  | loc_nth l' i => firstn 1 (skipn i (elements_of w l'))
  | _ => []
  end.

(** A call on the page: logged, failing outright on a crashed page. *)
Definition on_page {A} (e : event) (k : sim -> outcome A * sim) : M sim A :=
  fun w => let w' := note e w in
           if crashed w then (Raises PWError, w') else k w'.

(** A call that needs its element: times out when there is none. *)
Definition on_element {A} (e : event) (l : locator)
           (k : string * option string -> sim -> outcome A * sim) : M sim A :=
  on_page e (fun w => match elements_of w l with
                      | x :: _ => k x w
                      | [] => (Raises PWTimeout, w)
                      end).

Definition logged (e : event) : M sim unit := fun w => (Returns tt, note e w).

#[global] Instance sim_browser : Browser sim := {|
  sync_playwright_enter := logged EvStart;
  sync_playwright_exit := logged EvStop;
  chromium_launch := logged EvLaunch;
  browser_new_page := logged EvNewPage;
  browser_close := logged EvClose;
  page_url := cur_url;
  page_goto := fun u _ =>
    on_page (EvGoto u)
            (fun w => match u with
                      | JString s => (Returns tt, set_url s w)
                      | _ => (Raises PWError, w)
                      end);
  page_wait_for_load_state := fun t => on_page (EvLoadState t) (fun w => (Returns tt, w));
  accessibility_snapshot :=
    on_page EvSnapshot
            (fun w => (Returns (Some (AxNode "WebArea" (JString "")
                                        (if search_box w
                                         then [AxNode "textbox" (JString "Search") []]
                                         else []))), w));
  eval_on_selector_all := fun _ => on_page EvEval (fun w => (Returns (JArray []), w));
  mouse_wheel := fun _ _ => on_page EvWheel (fun w => (Returns tt, w));
  loc_wait_for := fun l _ => on_element (EvWaitFor l) l (fun _ w => (Returns tt, w));
  loc_fill := fun l v => on_element (EvFill l v) l (fun _ w => (Returns tt, w));
  loc_click := fun l =>
    on_page (EvClick l)
            (fun w => if click_broken w then (Raises PWError, w)
                      else match elements_of w l with
                           | _ :: _ => (Returns tt, w)
                           | [] => (Raises PWTimeout, w)
                           end);
  loc_press := fun l k => on_element (EvPress l k) l (fun _ w => (Returns tt, w));
  loc_inner_text := fun l => on_element (EvInnerText l) l (fun x w => (Returns (fst x), w));
  loc_get_attribute := fun l _ =>
    on_element (EvGetAttribute l) l (fun x w => (Returns (snd x), w));
  loc_count := fun l => on_page (EvCount l) (fun w => (Returns (length (elements_of w l)), w));
  loc_all := fun l =>
    on_page (EvAll l)
            (fun w => (Returns (map (loc_nth l) (seq 0 (length (elements_of w l)))), w));
  time_sleep := fun ms => note (EvSleep ms);
  int_of_str := fun _ => None
|}.

(** No model backend is reachable: [genai] cannot be imported. *)
#[global] Instance sim_host : Host sim := {|
  os_getenv := fun k w =>
    match find (fun kv => String.eqb (fst kv) k) (env w) with
    | Some (_, v) => Some v
    | None => None
    end;
  genai_configure := fun _ => raise (OtherException "ImportError");
  generate_content_text := fun _ _ _ => raise (OtherException "offline");
  json_loads := fun s =>
    if String.eqb s "EMPTY_SNAPSHOT"
    then Returns (JObject [("url", JString START_URL); ("elements", JArray [])])
    else Raises JSONDecodeError;
  quote_plus := fun s => s;
  _save_plan := fun _ _ => ret tt
|}.

(** A tool server whose snapshot tool reports a page without elements. *)
#[global] Instance sim_mcp : MCPTransport sim := {|
  import_mcp_client := ret tt;
  shlex_split := fun s => Returns (if String.eqb s "" then [] else [s]);
  mcp_aenter := fun _ => ret ["playwright_navigate"; "playwright_snapshot"];
  mcp_call_tool := fun _ _ => ret [Some "EMPTY_SNAPSHOT"];
  mcp_aexit := fun w => w
|}.

Definition LINKS : list (string * string) :=
  [ ("Crime Data from 2020 to Present", "/d/2nrs-mtv8");
    ("Arrest Data", "https://data.lacity.org/d/amvf-fr72") ].

(** The portal's home page, healthy, without MCP configuration. *)
Definition home : sim :=
  {| cur_url := START_URL; crashed := false; click_broken := false;
     search_box := true; links := LINKS; env := []; log := [] |}.

(** The same page with a [click] that fails with a Playwright [Error]. *)
Definition home_click_broken : sim :=
  {| cur_url := START_URL; crashed := false; click_broken := true;
     search_box := true; links := LINKS; env := []; log := [] |}.

(** The same page after the tab has crashed. *)
Definition home_crashed : sim :=
  {| cur_url := START_URL; crashed := true; click_broken := false;
     search_box := true; links := LINKS; env := []; log := [] |}.

(** The home page with an MCP server configured. *)
Definition home_with_mcp : sim :=
  {| cur_url := START_URL; crashed := false; click_broken := false;
     search_box := true; links := LINKS;
     env := [("MCP_PLAYWRIGHT_CMD", "python3")]; log := [] |}.

Definition step_wait_missing : dict :=
  [("action", JString "wait_for"); ("selector", JString "#never-visible");
   ("timeout_ms", JInt 1000)].
Definition step_click : dict :=
  [("action", JString "click"); ("selector", JString RESULT_LINKS)].
Definition step_press : dict :=
  [("action", JString "press"); ("selector", JString SEARCH_INPUT);
   ("value", JString "Enter")].
Definition step_extract : dict :=
  [("action", JString "extract"); ("selector", JString RESULT_LINKS)].
Definition step_extract_second : dict :=
  [("action", JString "extract");
   ("selector", JString SECOND_LINK)].
Definition step_select : dict :=
  [("action", JString "select_option"); ("selector", JString "select#sort");
   ("value", JString "newest")].

(** Tool names as a server with drifted naming might list them. *)
Definition DRIFTED_TOOLS : list string := ["x_page.navigate"; "navigate"].

Definition is_wait_for (e : event) : bool :=
  match e with EvWaitFor _ => true | _ => false end.
Definition is_click (e : event) : bool :=
  match e with EvClick _ => true | _ => false end.

End Sim.

(* ================================================================== *)
(** * Vocabulary for the further properties *)
(* ================================================================== *)

(** The keys of [ACTION_MAP]. *)
Definition ACTION_NAMES : list string :=
  ["goto"; "fill"; "click"; "press"; "wait_for"; "scroll"; "sleep"; "assert_text"].

(** [c in s] for a character. *)
Fixpoint mem_char (c : ascii) (s : string) : bool :=
  match s with
  | EmptyString => false
  | String x s' => Ascii.eqb x c || mem_char c s'
  end.

(** A step can be addressed: it has a role and a name, or a selector. *)
Definition addressable (step : dict) : bool :=
  truthy (dict_get step "role") && truthy (dict_get step "name")
  || truthy (dict_get step "selector").

(** Every character of [s] satisfies [p]. *)
Fixpoint all_chars (p : ascii -> bool) (s : string) : bool :=
  match s with
  | EmptyString => true
  | String x s' => p x && all_chars p s'
  end.

(** [s.isascii()]: every character is below 128.  On such strings
    [lower] and [upper] above are Python's [str.lower] and [str.upper]. *)
Definition isascii (s : string) : bool :=
  all_chars (fun c => (nat_of_ascii c <? 128)%nat) s.

(** The property names [ACTION_SCHEMA] declares. *)
Definition DECLARED_PROPERTIES : list string :=
  ["action"; "url"; "selector"; "role"; "name"; "value"; "assert"; "timeout_ms"].

(** The declared properties of a step that must be strings, [action]
    apart. *)
Definition STRING_PROPERTIES : list string :=
  ["url"; "selector"; "role"; "name"; "value"; "assert"].

(** A Python [str]. *)
Definition is_str (v : json) : Prop := exists s, v = JString s.

(** A Python [int] or [float]; a [bool] is not one here. *)
Definition is_number (v : json) : Prop :=
  (exists z, v = JInt z) \/ (exists q, v = JFloat q).

(** One item of a valid plan, spelled out: a dict whose [action] is one
    of the ten strings of the enum, whose [url], [selector], [role],
    [name], [value] and [assert] are strings where present, and whose
    [timeout_ms] is a number where present. *)
Definition valid_step (item : json) : Prop :=
  exists d a, item = JObject d
              /\ dict_find d "action" = Some (JString a)
              /\ In a ACTION_ENUM
              /\ (forall k v, In k STRING_PROPERTIES ->
                              dict_find d k = Some v -> is_str v)
              /\ (forall v, dict_find d "timeout_ms" = Some v -> is_number v).

(** The [meta] of a plan a model produced. *)
Definition gemini_meta (mid : string) : dict :=
  [("source", JString "gemini"); ("model", JString mid)].

(** The text of a model's reply as the planner reads it:
    [(getattr(resp, "text", "") or "").strip()]. *)
Definition reply_text (t : option string) : string :=
  strip (match t with Some s => s | None => "" end).

(** [text] is the part of the reply [t] that goes to [json.loads]: the
    stripped reply itself when it begins with an opening bracket, else
    what lies between its first opening and its last closing bracket,
    both included. *)
Definition parsed_part (t : option string) (text : string) : Prop :=
  reply_text t <> ""
  /\ ((startswith (reply_text t) (String LBRACKET "") = true /\ text = reply_text t)
      \/ (startswith (reply_text t) (String LBRACKET "") = false
          /\ exists i e, find_char LBRACKET (reply_text t) = Some i
                         /\ rfind_char RBRACKET (reply_text t) = Some e
                         /\ text = slice (reply_text t) i (e + 1))).

Section PlanCheck.
Context {W : Type} `{Host W}.

(** What a pass of the model loop does with the text it has cut out of
    a reply: parse it, validate the plan, look for an [extract] step. *)
Definition check_plan (mid text : string) : M W (option (json * dict)) :=
  plan <- lift (json_loads text) ;;
  lift (validate plan) ;;;
  has <- lift (has_extract plan) ;;
  if negb has then ret None else ret (Some (plan, gemini_meta mid)).
End PlanCheck.

(** An element of the local context: a role/name dict whose role is
    one of the interactive roles. *)
Definition interactive_element (e : json) : Prop :=
  exists role name,
    e = JObject [("role", JString role); ("name", name)]
    /\ In role INTERACTIVE_ROLES.

(** The quoted phrases [_extract_search_text] sets aside, in order. *)
Definition quoted_phrases (text : string) : list string :=
  map (fun p => let g1 := cap_get (snd p) 1 in
                if String.eqb g1 "" then cap_get (snd p) 2 else g1)
      (re_findall RE_PHRASES (strip (re_sub (Plus ws1) " " text))).

(** The words [_extract_search_text] keeps from the unquoted text,
    before phrases are re-attached. *)
Definition word_tokens (text : string) : list string :=
  let s := strip (re_sub (Plus ws1) " " text) in
  filter keep_token
    (map fst (re_findall RE_TOKEN (re_sub RE_FILLER "" (re_sub RE_QUOTES "" s)))).

(** A result item fit to show: a title and an absolute URL. *)
Definition good_hit (h : hit) : Prop :=
  title h <> "" /\ startswith (url h) "http" = true.

(** [None], or a hit fit to show. *)
Definition good_first_hit (fh : option hit) : Prop :=
  match fh with Some h => good_hit h | None => True end.

(* ================================================================== *)
(** * main.py: the scripted run and its AI-driven variant *)
(* ================================================================== *)

(** What main.py needs beyond the agent's calls: the page title, a
    headed launch, and the clock and files behind [save_debug]. *)
Class Desk (W : Type) : Type := {
  page_title : M W string;
  chromium_launch_headed : M W unit;    (* launch(headless=False) *)
  now_stamp : W -> string;              (* datetime.now().strftime(..) *)
  debug_mkdir : M W unit;               (* Path("debug").mkdir(exist_ok=True) *)
  page_screenshot : string -> M W unit;
  page_content : M W string;
  write_text : string -> string -> M W unit;
  exn_str : exn -> string               (* str(e) *)
}.

Definition TITLE_CANDIDATES : list string :=
  [ "div.browse2-result-card__title a";
    "a[href*='/datasets/']";
    "a[href*='/d/']";
    "a[href*='/resource/']";
    "[data-testid='browse2-result-name']";
    ".browse2-result-name";
    "article [data-testid='result-name']";
    "a.socrata-card__title" ].

Definition DESCRIPTION_SEL : string :=
  "div.browse2-result-card__description, " ++
  "[data-testid='browse2-result-description'], " ++
  ".browse2-result-description".

Section MainScript.
Context {W : Type} `{Browser W} `{Host W} `{MCPTransport W} `{Desk W}.

Definition save_debug (label : string) : M W unit :=
  fun w =>
    let ts := now_stamp w in
    (debug_mkdir ;;;
     page_screenshot ("debug/" ++ ts ++ "_" ++ label ++ ".png")%string ;;;
     html <- page_content ;;
     write_text ("debug/" ++ ts ++ "_" ++ label ++ ".html")%string html) w.

Fixpoint first_visible (selectors : list string) (timeout_each : Z)
  : M W (option locator) :=
  match selectors with
  | [] => ret None
  | sel :: rest =>
      let loc := loc_first (page_locator (JString sel)) in
      r <- try_except (loc_wait_for loc (JInt timeout_each) ;;; ret (Some loc))
                      is_PWTimeout (fun _ => ret None) ;;
      match r with
      | Some l => ret (Some l)
      | None => first_visible rest timeout_each
      end
  end.

Definition open_portal (u : string) : M W unit :=
  page_goto (JString u) 30000 ;;;
  page_title ;;;
  ret tt.

(** The body of the [try] inside the candidate loop of
    [extract_first_result]; a missing href makes [href.startswith]
    raise. *)
Definition extract_candidate (sel : string) : M W (string * string * string) :=
  let loc := loc_first (page_locator (JString sel)) in
  loc_wait_for loc (JInt 4000) ;;;
  txt <- loc_inner_text loc ;;
  let title := replace_char LF SP (strip txt) in
  href <- loc_get_attribute loc "href" ;;
  match href with
  | None => raise AttributeError
  | Some h =>
      let u := absolutize h in
      let desc_loc := loc_first (page_locator (JString DESCRIPTION_SEL)) in
      description <- try_except
                       (d <- loc_inner_text desc_loc ;;
                        ret (replace_char LF SP (strip d)))
                       any_Exception (fun _ => ret "") ;;
      ret (title, u, description)
  end.

(** main.py's [extract_first_result]. *)
Fixpoint extract_first_of (candidates : list string) : M W (string * string * string) :=
  match candidates with
  | [] => raise RuntimeError
  | sel :: rest =>
      r <- try_except (x <- extract_candidate sel ;; ret (Some x))
                      is_PWTimeout (fun _ => ret None) ;;
      match r with
      | Some x => ret x
      | None => extract_first_of rest
      end
  end.

Definition main_extract_first_result : M W (string * string * string) :=
  extract_first_of TITLE_CANDIDATES.

(** [execute_steps] handed values that need not be dicts: [step.get]
    raises AttributeError on anything else. *)
Fixpoint exec_any (steps : list json) (result : dict) : M W dict :=
  match steps with
  | [] => ret result
  | JObject step :: rest => r <- exec_loop [step] result ;; exec_any rest r
  | _ :: _ => raise AttributeError
  end.

Definition execute_steps_any (steps : list json) : M W dict :=
  exec_any steps [("extracted", JNull)].

(** The body of the [try] of [run_ai]; [steps] is the pair the planner
    returns, iterated as it is. *)
Definition run_ai_body (goal : string) : M W dict :=
  open_portal START_URL ;;;
  context <- build_page_context ;;
  pm <- plan_actions_via_llm_mcp goal context ;;
  let steps := [fst pm; JObject (snd pm)] in
  execute_steps_any steps ;;;
  tud <- main_extract_first_result ;;
  let '(t, u, desc) := tud in
  ret [ ("status", JString "success"); ("mode", JString "ai");
        ("goal", JString goal); ("title", JString t);
        ("url", JString u); ("description", JString desc) ].

Definition run_ai (goal : string) : M W dict :=
  sync_playwright_enter ;;;
  try_finally
    (chromium_launch_headed ;;;
     browser_new_page ;;;
     try_finally
       (fun w =>
          match run_ai_body goal w with
          | (Returns r, w') => (Returns r, w')
          | (Raises e, w') =>
              if is_PWTimeout e then
                (save_debug "timeout_ai" ;;;
                 ret [ ("status", JString "timeout"); ("mode", JString "ai");
                       ("error", JString (exn_str e)) ]) w'
              else
                (save_debug "error_ai" ;;;
                 ret [ ("status", JString "error"); ("mode", JString "ai");
                       ("error", JString (exn_str e)) ]) w'
          end)
       browser_close)
    sync_playwright_exit.
End MainScript.

(* ================================================================== *)
(** * mcp_server.py: the tool server *)
(* ================================================================== *)

(** The scripts the server evaluates in the page. *)
Inductive script : Type :=
| TITLE_PROBE         (* () => document.title *)
| RICH_SNAPSHOT.      (* the DOM scan *)

(** Playwright's async API as the server uses it, run to completion call
    by call, with [json.dumps] and the error texts. *)
Class ServerDriver (W : Type) : Type := {
  HEADLESS : bool;
  async_playwright_start : M W unit;
  srv_launch : bool -> M W unit;
  srv_new_page : M W unit;
  srv_goto : json -> M W unit;
  srv_url : W -> string;
  srv_title : M W string;
  srv_wait_for_load_state : Z -> M W unit;
  srv_evaluate : script -> M W json;
  srv_accessibility_snapshot : M W (option axnode);
  srv_click : json -> M W unit;
  el_scroll_into_view_if_needed : locator -> M W unit;
  el_click : locator -> M W unit;
  el_type : locator -> json -> Z -> M W unit;
  keyboard_down : string -> M W unit;
  keyboard_press : string -> M W unit;
  keyboard_up : string -> M W unit;
  srv_browser_close : M W unit;
  srv_playwright_stop : M W unit;
  json_dumps : json -> string;
  str_of_exn : exn -> string;           (* str(e) *)
  format_exc : exn -> string            (* traceback.format_exc() *)
}.

(** The fields of [PlaywrightMCPServer]: which handles are set. *)
Record server : Type := {
  has_playwright : bool;
  has_browser : bool;
  has_page : bool
}.

Definition fresh_server : server :=
  {| has_playwright := false; has_browser := false; has_page := false |}.

Definition SERVER_ROLES : list string :=
  ["textbox"; "button"; "link"; "combobox"; "menuitem"; "checkbox"; "radio"].

(** [n.get("name") or ""]. *)
Definition name_or_empty (name : json) : json :=
  if truthy name then name else JString "".

(** The server's own accessibility walk. *)
Fixpoint server_walk (n : axnode) : list json :=
  match n with
  | AxNode role name children =>
      (if str_in role SERVER_ROLES
       then [JObject [("role", JString role); ("name", name_or_empty name)]]
       else [])
      ++ flat_map server_walk children
  end.

Definition RESULT_SELECTOR_CANDIDATES : json :=
  JArray [ JString "li.listing a[href^='/d/']";
           JString ".search-results a[href*='/d/']";
           JString "a[href*='/d/']" ].

(** An element of the server's fallback snapshot. *)
Definition server_element (e : json) : Prop :=
  exists role name,
    e = JObject [("role", JString role); ("name", name)]
    /\ In role SERVER_ROLES /\ name <> JNull.

(** [arguments[key]]. *)
Definition subscript (arguments : json) (key : string) : outcome json :=
  match arguments with
  | JObject d => match dict_find d key with
                 | Some v => Returns v
                 | None => Raises (OtherException "KeyError")
                 end
  | _ => Raises TypeError
  end.

Section Server.
Context {W : Type} `{ServerDriver W}.

(** The server object lives beside the driver's world, so that a field
    assigned before a failure stays assigned. *)
Definition on_driver {A} (m : M W A) : M (server * W) A :=
  fun sw => let '(r, w') := m (snd sw) in (r, (fst sw, w')).

Definition self : M (server * W) server := fun sw => (Returns (fst sw), sw).

Definition assign (f : server -> server) : M (server * W) unit :=
  fun sw => (Returns tt, (f (fst sw), snd sw)).

(** A call on [self.page]: AttributeError while it is still None. *)
Definition on_self_page {A} (m : M W A) : M (server * W) A :=
  s <- self ;;
  if has_page s then on_driver m else raise AttributeError.

Definition start_browser : M (server * W) unit :=
  s <- self ;;
  if has_browser s then ret tt
  else
    on_driver async_playwright_start ;;;
    assign (fun s => {| has_playwright := true; has_browser := has_browser s;
                        has_page := has_page s |}) ;;;
    on_driver (srv_launch HEADLESS) ;;;
    assign (fun s => {| has_playwright := has_playwright s; has_browser := true;
                        has_page := has_page s |}) ;;;
    on_driver srv_new_page ;;;
    assign (fun s => {| has_playwright := has_playwright s;
                        has_browser := has_browser s; has_page := true |}).

Definition srv_navigate (u : json) : M (server * W) json :=
  start_browser ;;;
  on_self_page (srv_goto u) ;;;
  cur <- on_self_page (fun w => (Returns (srv_url w), w)) ;;
  ret (JObject [("success", JBool true); ("url", JString cur)]).

Definition srv_do_click (selector : json) : M (server * W) json :=
  start_browser ;;;
  on_self_page (srv_click selector) ;;;
  ret (JObject [("success", JBool true)]).

Definition chord (modifier : string) : M W unit :=
  keyboard_down modifier ;;; keyboard_press "KeyA" ;;; keyboard_up modifier.

Definition srv_fill (selector text : json) : M (server * W) json :=
  start_browser ;;;
  let el := loc_first (page_locator selector) in
  on_self_page (ret tt) ;;;
  on_driver (el_scroll_into_view_if_needed el) ;;;
  on_driver (el_click el) ;;;
  try_except (on_self_page (chord "Meta")) any_Exception
             (fun _ => try_except (on_self_page (chord "Control")) any_Exception
                                  (fun _ => ret tt)) ;;;
  on_self_page (keyboard_press "Backspace") ;;;
  on_driver (el_type el text 10) ;;;
  ret (JObject [("success", JBool true)]).

Definition warning (fields : dict) : json := JObject fields.

(** The handler of the rich scan's [except]: the accessibility fallback. *)
Definition snapshot_fallback (e : exn) : M (server * W) json :=
  let err := JString (str_of_exn e) in
  let tb := JString (format_exc e) in
  r <- try_except (ax <- on_self_page srv_accessibility_snapshot ;; ret (inr ax))
                  any_Exception (fun ax_e => ret (inl ax_e)) ;;
  match r with
  | inl ax_e =>
      cur <- on_self_page (fun w => (Returns (srv_url w), w)) ;;
      t <- on_self_page srv_title ;;
      ret (JObject
             [ ("url", JString cur); ("title", JString t);
               ("elements", JArray []); ("element_count", JInt 0);
               ("warning",
                warning [ ("rich_snapshot_error", err); ("trace", tb);
                          ("accessibility_error", JString (str_of_exn ax_e));
                          ("note", JString "Both rich and accessibility snapshots failed.") ]) ])
  | inr ax =>
      let elements := match ax with Some n => server_walk n | None => [] end in
      cur <- on_self_page (fun w => (Returns (srv_url w), w)) ;;
      t <- on_self_page srv_title ;;
      ret (JObject
             [ ("url", JString cur); ("title", JString t);
               ("elements", JArray elements);
               ("element_count", JInt (Z.of_nat (length elements)));
               ("recommended",
                JObject [("resultsSelectorCandidates", RESULT_SELECTOR_CANDIDATES)]);
               ("warning",
                warning [ ("rich_snapshot_error", err); ("trace", tb);
                          ("note", JString "Returned fallback accessibility snapshot.") ]) ])
  end.

(** The rich scan inside its [try]. *)
Definition snapshot_rich : M (server * W) json :=
  data <- on_self_page (srv_evaluate RICH_SNAPSHOT) ;;
  match data with
  | JObject d =>
      u <- (if truthy (dict_get d "url") then ret (dict_get d "url")
            else cur <- on_self_page (fun w => (Returns (srv_url w), w)) ;;
                 ret (JString cur)) ;;
      t <- (if truthy (dict_get d "title") then ret (dict_get d "title")
            else x <- on_self_page srv_title ;; ret (JString x)) ;;
      ret (JObject
             [ ("url", u); ("title", t);
               ("elements", dict_get_default d "elements" (JArray []));
               ("element_count", dict_get_default d "element_count" (JInt 0));
               ("recommended", dict_get_default d "recommended" (JObject [])) ])
  | _ => raise AttributeError          (* data.get *)
  end.

Definition get_snapshot : M (server * W) json :=
  start_browser ;;;
  try_except (on_self_page (srv_wait_for_load_state 10000))
             any_Exception (fun _ => ret tt) ;;;
  try_except (on_self_page (srv_evaluate TITLE_PROBE) ;;; ret tt)
             any_Exception (fun _ => raise RuntimeError) ;;;
  try_except snapshot_rich any_Exception snapshot_fallback.

Definition cleanup : M (server * W) unit :=
  s <- self ;;
  (if has_browser s then on_driver srv_browser_close else ret tt) ;;;
  (if has_playwright s then on_driver srv_playwright_stop else ret tt).

(** The dispatch inside the [try] of [call_tool]. *)
Definition dispatch (name : string) (arguments : json) : M (server * W) json :=
  if String.eqb name "playwright_navigate" then
    u <- lift (subscript arguments "url") ;; srv_navigate u
  else if String.eqb name "playwright_snapshot" then get_snapshot
  else if String.eqb name "playwright_click" then
    s <- lift (subscript arguments "selector") ;; srv_do_click s
  else if String.eqb name "playwright_fill" then
    s <- lift (subscript arguments "selector") ;;
    t <- lift (subscript arguments "text") ;;
    srv_fill s t
  else raise ValueError.

(** [call_tool]: the text of the one content item it returns. *)
Definition call_tool (name : string) (arguments : json) : M (server * W) (list string) :=
  try_except
    (result <- dispatch name arguments ;; ret [json_dumps result])
    any_Exception
    (fun e => ret [json_dumps (JObject [ ("error", JString (str_of_exn e));
                                         ("trace", JString (format_exc e)) ])]).

Definition SERVER_TOOLS : list string :=
  ["playwright_navigate"; "playwright_snapshot"; "playwright_click"; "playwright_fill"].
End Server.

(** Further steps and pages for the simulated browser. *)
Module SimX.

Definition step_press_missing : dict :=
  [("action", JString "press"); ("selector", JString "#never-visible")].
Definition step_extract_unaddressed : dict :=
  [("action", JString "extract"); ("role", JString "link")].
Definition started : server :=
  {| has_playwright := true; has_browser := true; has_page := true |}.
Definition step_hover : dict :=
  [("action", JString "hover"); ("selector", JString RESULT_LINKS)].

(** Debug files land nowhere; the page title is fixed. *)
#[global] Instance sim_desk : Desk Sim.sim := {|
  page_title := ret "DataLA";
  chromium_launch_headed := Sim.logged Sim.EvLaunch;
  now_stamp := fun _ => "20250101_000000";
  debug_mkdir := ret tt;
  page_screenshot := fun _ => ret tt;
  page_content := ret "<html></html>";
  write_text := fun _ _ => ret tt;
  exn_str := fun _ => "error"
|}.

(** The server's browser on a simulated page: [new_page] fails on a
    crashed world, the rich scan fails where clicks are broken. *)
#[global] Instance sim_server : ServerDriver Sim.sim := {|
  HEADLESS := true;
  async_playwright_start := Sim.logged Sim.EvStart;
  srv_launch := fun _ => Sim.logged Sim.EvLaunch;
  srv_new_page := fun w =>
    if Sim.crashed w then (Raises PWError, Sim.note Sim.EvNewPage w)
    else (Returns tt, Sim.note Sim.EvNewPage w);
  srv_goto := fun u =>
    Sim.on_page (Sim.EvGoto u)
                (fun w => match u with
                          | JString s => (Returns tt, Sim.set_url s w)
                          | _ => (Raises PWError, w)
                          end);
  srv_url := Sim.cur_url;
  srv_title := Sim.on_page Sim.EvEval (fun w => (Returns "DataLA", w));
  srv_wait_for_load_state := fun t =>
    Sim.on_page (Sim.EvLoadState t) (fun w => (Returns tt, w));
  srv_evaluate := fun sc =>
    Sim.on_page Sim.EvEval
      (fun w => match sc with
                | TITLE_PROBE => (Returns (JString "DataLA"), w)
                | RICH_SNAPSHOT =>
                    if Sim.click_broken w then (Raises PWError, w)
                    else (Returns (JObject [("url", JString (Sim.cur_url w));
                                            ("elements", JArray []);
                                            ("element_count", JInt 0)]), w)
                end);
  srv_accessibility_snapshot :=
    Sim.on_page Sim.EvSnapshot
      (fun w => (Returns (Some (AxNode "WebArea" JNull
                                  [AxNode "textbox" JNull [];
                                   AxNode "img" (JString "logo") [];
                                   AxNode "link" (JString "Crime Data") []])), w));
  srv_click := fun sel =>
    Sim.on_element (Sim.EvClick (page_locator sel)) (page_locator sel)
                   (fun _ w => (Returns tt, w));
  el_scroll_into_view_if_needed := fun l =>
    Sim.on_element (Sim.EvWaitFor l) l (fun _ w => (Returns tt, w));
  el_click := fun l => Sim.on_element (Sim.EvClick l) l (fun _ w => (Returns tt, w));
  el_type := fun l t _ => Sim.on_element (Sim.EvFill l t) l (fun _ w => (Returns tt, w));
  keyboard_down := fun _ => ret tt;
  keyboard_press := fun _ => ret tt;
  keyboard_up := fun _ => ret tt;
  srv_browser_close := Sim.logged Sim.EvClose;
  srv_playwright_stop := Sim.logged Sim.EvStop;
  json_dumps := fun v =>
    match v with
    | JObject d => match dict_find d "error" with
                   | Some _ => "{error}"
                   | None => "{result}"
                   end
    | _ => "?"
    end;
  str_of_exn := fun _ => "error";
  format_exc := fun _ => "Traceback"
|}.

End SimX.

(** ** A browser session that breaks at a chosen point *)

Module SimFault.

(** Where the session breaks: [chromium.launch], [browser.new_page], or
    the wait for the page to settle, each with a Playwright [Error]. *)
Inductive fault : Type := LaunchFails | NewPageFails | SettleFails.

(** A simulated page behind a browser with one fault. *)
Record faulty : Type := { what : fault; page : Sim.sim }.

(** A call passed on to the simulated page. *)
Definition on_sim {A} (m : M Sim.sim A) : M faulty A :=
  fun w => let '(o, s) := m (page w) in (o, {| what := what w; page := s |}).

(** A call that is made, and logged, but fails under the fault [f]. *)
Definition failing_under {A} (f : fault) (m : M Sim.sim A) : M faulty A :=
  fun w => let '(o, s) := m (page w) in
           let w' := {| what := what w; page := s |} in
           match f, what w with
           | LaunchFails, LaunchFails
           | NewPageFails, NewPageFails
           | SettleFails, SettleFails => (Raises PWError, w')
           | _, _ => (o, w')
           end.

#[global] Instance faulty_browser : Browser faulty := {|
  sync_playwright_enter := on_sim sync_playwright_enter;
  sync_playwright_exit := on_sim sync_playwright_exit;
  chromium_launch := failing_under LaunchFails chromium_launch;
  browser_new_page := failing_under NewPageFails browser_new_page;
  browser_close := on_sim browser_close;
  page_url := fun w => page_url (page w);
  page_goto := fun u t => on_sim (page_goto u t);
  page_wait_for_load_state := fun t =>
    failing_under SettleFails (page_wait_for_load_state t);
  accessibility_snapshot := on_sim accessibility_snapshot;
  eval_on_selector_all := fun sel => on_sim (eval_on_selector_all sel);
  mouse_wheel := fun x y => on_sim (mouse_wheel x y);
  loc_wait_for := fun l t => on_sim (loc_wait_for l t);
  loc_fill := fun l v => on_sim (loc_fill l v);
  loc_click := fun l => on_sim (loc_click l);
  loc_press := fun l k => on_sim (loc_press l k);
  loc_inner_text := fun l => on_sim (loc_inner_text l);
  loc_get_attribute := fun l a => on_sim (loc_get_attribute l a);
  loc_count := fun l => on_sim (loc_count l);
  loc_all := fun l => on_sim (loc_all l);
  time_sleep := fun ms w => {| what := what w; page := time_sleep ms (page w) |};
  int_of_str := int_of_str (W := Sim.sim)
|}.

#[global] Instance faulty_host : Host faulty := {|
  os_getenv := fun k w => os_getenv k (page w);
  genai_configure := fun key => on_sim (genai_configure key);
  generate_content_text := fun mid goal context =>
    on_sim (generate_content_text mid goal context);
  json_loads := json_loads (W := Sim.sim);
  quote_plus := quote_plus (W := Sim.sim);
  _save_plan := fun plan meta => on_sim (_save_plan plan meta)
|}.

#[global] Instance faulty_mcp : MCPTransport faulty := {|
  import_mcp_client := on_sim import_mcp_client;
  shlex_split := shlex_split (W := Sim.sim);
  mcp_aenter := fun cfg => on_sim (mcp_aenter cfg);
  mcp_call_tool := fun name a => on_sim (mcp_call_tool name a);
  mcp_aexit := fun w => {| what := what w; page := mcp_aexit (page w) |}
|}.





End SimFault.

(** ** A host with an API key and a model backend that answers *)

Module SimOnline.

(** The world records the models asked, in order. *)
Record online : Type := { asked : list string }.

Definition FLASH : string := "models/gemini-2.5-flash".
Definition FLASH_LITE : string := "models/gemini-2.5-flash-lite".

(** The first model answers in prose only; the others wrap a plan in
    prose. *)
Definition PROSE : string := "  I am sorry, I cannot browse the web.  ".
Definition WRAPPED : string := "Sure, here is the plan: [PLAN] Good luck!".

Definition reply_of (mid : string) : option string :=
  if String.eqb mid FLASH then Some PROSE else Some WRAPPED.

(** The plan the backend's JSON stands for. *)
Definition PLAN : json :=
  JArray [ JObject [("action", JString "goto"); ("url", JString "https://data.lacity.org/browse")];
           JObject [("action", JString "extract"); ("selector", JString RESULT_LINKS)] ].

#[global] Instance online_host : Host online := {|
  os_getenv := fun k _ => if String.eqb k "GEMINI_API_KEY" then Some "k3y" else None;
  genai_configure := fun _ => ret tt;
  generate_content_text := fun mid _ _ w =>
    (Returns (reply_of mid), {| asked := asked w ++ [mid] |});
  json_loads := fun s =>
    if String.eqb s "[PLAN]" then Returns PLAN else Raises JSONDecodeError;
  quote_plus := fun s => s;
  _save_plan := fun _ _ => ret tt
|}.

Definition start : online := {| asked := [] |}.

End SimOnline.

(* ================================================================== *)
(** * Properties *)
(* ================================================================== *)

(** ** The effect monad *)

Lemma bind_returns {W A B} (m : M W A) (k : A -> M W B) w a w1 :
  m w = (Returns a, w1) -> bind m k w = k a w1.
Proof. intros E. unfold bind. rewrite E. reflexivity. Qed.

Lemma bind_raises {W A B} (m : M W A) (k : A -> M W B) w e w1 :
  m w = (Raises e, w1) -> bind m k w = (Raises e, w1).
Proof. intros E. unfold bind. rewrite E. reflexivity. Qed.

Lemma bind_inv {W A B} (m : M W A) (k : A -> M W B) w b w' :
  bind m k w = (Returns b, w') ->
  exists a w1, m w = (Returns a, w1) /\ k a w1 = (Returns b, w').
Proof.
  unfold bind. destruct (m w) as [[a|e] w1]; intros E.
  - exists a, w1. split; [reflexivity | exact E].
  - discriminate E.
Qed.

(** A handler that returns makes the whole [try] return. *)
Lemma try_except_total {W A} (m : M W A) (h : exn -> A) w :
  exists a w', try_except m any_Exception (fun e => ret (h e)) w = (Returns a, w').
Proof.
  unfold try_except, any_Exception, ret. destruct (m w) as [[a|e] w1]; eauto.
Qed.

Ltac inv H := inversion H; subst; clear H.

(** ** The result dict of the executor *)

Lemma dict_get_set_same (d : dict) k v : dict_get (dict_set d k v) k = v.
Proof.
  unfold dict_get. induction d as [|[k' v'] d IH]; simpl.
  - rewrite String.eqb_refl. reflexivity.
  - destruct (String.eqb k' k) eqn:E; simpl; rewrite E; [reflexivity | exact IH].
Qed.

Lemma dict_keys_set_present (d : dict) k v :
  In k (dict_keys d) -> dict_keys (dict_set d k v) = dict_keys d.
Proof.
  unfold dict_keys. induction d as [|[k' v'] d IH]; simpl; intros HIn.
  - contradiction.
  - destruct (String.eqb k' k) eqn:E; simpl; [reflexivity|].
    f_equal. apply IH. destruct HIn as [->|HIn]; [|exact HIn].
    rewrite String.eqb_refl in E. discriminate.
Qed.

Section ExecutorFacts.
Context {W : Type} `{Browser W}.

(** What [_do_extract] hands back is always a [{text, href}] dict. *)
Lemma _do_extract_shape (step : dict) w v w' :
  _do_extract step w = (Returns v, w') ->
  exists t h, v = JObject [("text", JString t); ("href", h)].
Proof.
  unfold _do_extract. intros E.
  apply bind_inv in E as (loc & w1 & _ & E).
  apply bind_inv in E as (txt & w2 & _ & E).
  apply bind_inv in E as (href & w3 & _ & E).
  inv E. eauto.
Qed.

(** Unfolding one turn of the loop, by the kind of the step. *)
Lemma exec_loop_falsy step rest result :
  truthy (dict_get step "action") = false ->
  exec_loop (step :: rest) result = exec_loop rest result.
Proof. intros E. simpl. rewrite E. reflexivity. Qed.

Lemma exec_loop_extract step rest result :
  eq_str (dict_get step "action") "extract" = true ->
  exec_loop (step :: rest) result =
  (v <- _do_extract step ;; exec_loop rest (dict_set result "extracted" v)).
Proof.
  intros E. simpl. rewrite E.
  destruct (dict_get step "action"); try discriminate E.
  simpl in E. apply String.eqb_eq in E. subst. reflexivity.
Qed.

Lemma exec_loop_unmapped step rest result a :
  dict_get step "action" = JString a ->
  String.eqb a "extract" = false ->
  assoc_find (ACTION_MAP (W := W)) a = None ->
  exec_loop (step :: rest) result = exec_loop rest result.
Proof.
  intros Ea Ex Em. cbn [exec_loop]. rewrite Ea. cbn [eq_str]. rewrite Ex.
  unfold ACTION_MAP_get. cbn [hashable negb]. rewrite Em.
  destruct (negb (truthy (JString a))); reflexivity.
Qed.

Lemma exec_loop_mapped step rest result a fn :
  dict_get step "action" = JString a ->
  a <> "" ->
  String.eqb a "extract" = false ->
  assoc_find (ACTION_MAP (W := W)) a = Some fn ->
  exec_loop (step :: rest) result =
  (try_except (fn step) (fun _ => true)
              (fun e => if is_PWTimeout e then raise e else ret tt) ;;;
   (if is_navigation (JString a)
    then try_except (page_wait_for_load_state 15000) is_PWTimeout (fun _ => ret tt)
    else ret tt) ;;;
   exec_loop rest result).
Proof.
  intros Ea Hne Ex Em. cbn [exec_loop]. rewrite Ea. cbn [eq_str truthy]. rewrite Ex.
  unfold ACTION_MAP_get. cbn [hashable negb]. rewrite Em.
  destruct (String.eqb a "") eqn:E0; [apply String.eqb_eq in E0; contradiction|].
  reflexivity.
Qed.

(** A turn of the loop that does not run [extract] hands [result] on
    untouched; one that does overwrites its ["extracted"] entry. *)
Lemma exec_loop_step_inv step rest result w r w' :
  exec_loop (step :: rest) result w = (Returns r, w') ->
  (eq_str (dict_get step "action") "extract" = false /\
   exists w1, exec_loop rest result w1 = (Returns r, w'))
  \/
  (eq_str (dict_get step "action") "extract" = true /\
   exists v w1, _do_extract step w = (Returns v, w1) /\
                exec_loop rest (dict_set result "extracted" v) w1 = (Returns r, w')).
Proof.
  intros E.
  destruct (eq_str (dict_get step "action") "extract") eqn:Ex.
  - right. split; [reflexivity|].
    rewrite (exec_loop_extract _ _ _ Ex) in E.
    apply bind_inv in E as (v & w1 & E1 & E2). eauto.
  - left. split; [reflexivity|].
    cbn [exec_loop] in E. rewrite Ex in E.
    destruct (negb (truthy (dict_get step "action"))); [eauto|].
    destruct (ACTION_MAP_get (dict_get step "action")) as [[fn|]|e]; [| eauto | discriminate E].
    apply bind_inv in E as (? & w1 & _ & E).
    apply bind_inv in E as (? & w2 & _ & E). eauto.
Qed.

Lemma exec_loop_no_extract steps : forall result w r w',
  (forall s, In s steps -> eq_str (dict_get s "action") "extract" = false) ->
  exec_loop steps result w = (Returns r, w') ->
  r = result.
Proof.
  induction steps as [|step rest IH]; intros result w r w' Hno E.
  - inv E. reflexivity.
  - apply exec_loop_step_inv in E as [[_ (w1 & E)] | [Ex _]].
    + eapply IH; [|exact E]. intros s Hs. apply Hno. right. exact Hs.
    + rewrite (Hno step (or_introl eq_refl)) in Ex. discriminate.
Qed.

Lemma exec_loop_keys steps : forall result w r w',
  In "extracted" (dict_keys result) ->
  exec_loop steps result w = (Returns r, w') ->
  dict_keys r = dict_keys result.
Proof.
  induction steps as [|step rest IH]; intros result w r w' Hk E.
  - inv E. reflexivity.
  - apply exec_loop_step_inv in E as [[_ (w1 & E)] | [_ (v & w1 & _ & E)]].
    + eapply IH; eassumption.
    + apply IH in E.
      * rewrite E. apply dict_keys_set_present. exact Hk.
      * rewrite dict_keys_set_present; assumption.
Qed.

(** Running a plan is running its front, then its back on what the
    front left. *)
Lemma exec_loop_app pre : forall post result w,
  exec_loop (pre ++ post) result w =
  match exec_loop pre result w with
  | (Returns r, w1) => exec_loop post r w1
  | (Raises e, w1) => (Raises e, w1)
  end.
Proof.
  induction pre as [|step pre IH]; intros post result w.
  - reflexivity.
  - change ((step :: pre) ++ post) with (step :: (pre ++ post)).
    cbn [exec_loop].
    destruct (negb (truthy (dict_get step "action"))); [apply IH|].
    destruct (eq_str (dict_get step "action") "extract").
    + unfold bind. destruct (_do_extract step w) as [[v|e] w1]; [apply IH | reflexivity].
    + destruct (ACTION_MAP_get (dict_get step "action")) as [[fn|]|e];
        [| apply IH | reflexivity].
      unfold bind.
      destruct (try_except (fn step) _ _ w) as [[u|e] w1]; [|reflexivity].
      match goal with
      | |- context [(if ?c then ?a else ?b) w1] =>
          destruct ((if c then a else b) w1) as [[u'|e] w2]
      end; [apply IH | reflexivity].
Qed.
End ExecutorFacts.

(** ** Retries that run out *)

Section RetryFacts.
Context {W : Type} `{Browser W} {A : Type}.


Lemma retry_three_exhausted (f : M W A) cap w e1 w1 e2 w2 e3 w3 :
  f w = (Raises e1, w1) ->
  f (time_sleep (wait_exponential cap 1) w1) = (Raises e2, w2) ->
  f (time_sleep (wait_exponential cap 2) w2) = (Raises e3, w3) ->
  retry 3 cap f w = (Raises (RetryError e3), w3).
Proof.
  intros E1 E2 E3. unfold retry. cbn [Nat.pred retry_from].
  rewrite E1, E2, E3. reflexivity.
Qed.

(** An exhausted retry never raises a Playwright timeout itself. *)
Lemma retry_from_not_timeout (f : M W A) cap more : forall attempt w e w',
  retry_from more attempt cap f w = (Raises e, w') -> is_PWTimeout e = false.
Proof.
  induction more as [|more IH]; intros attempt w e w' E; cbn [retry_from] in E;
    destruct (f w) as [[a|e0] w0]; try discriminate E.
  - inv E. reflexivity.
  - eapply IH. exact E.
Qed.
End RetryFacts.

Section ExecutorClaims.
Context {W : Type} `{Browser W}.

(** Whatever makes the three attempts of a [wait_for] step fail, the
    loop swallows the resulting [RetryError] and goes on with the rest
    of the plan. *)
Lemma wait_for_exhausted_continues
      (step : dict) (rest : list dict) (result : dict)
      (w w1 w2 w3 : W) (e1 e2 e3 : exn) :
  dict_get step "action" = JString "wait_for" ->
  wait_for_once step w = (Raises e1, w1) ->
  wait_for_once step (time_sleep 500 w1) = (Raises e2, w2) ->
  wait_for_once step (time_sleep 1000 w2) = (Raises e3, w3) ->
  _do_wait_for step w = (Raises (RetryError e3), w3) /\
  exec_loop (step :: rest) result w = exec_loop rest result w3.
Proof.
  intros Ea E1 E2 E3.
  assert (R : _do_wait_for step w = (Raises (RetryError e3), w3)).
  { unfold _do_wait_for. eapply retry_three_exhausted; eassumption. }
  split; [exact R|].
  rewrite (exec_loop_mapped step rest result "wait_for" _do_wait_for Ea);
    [| discriminate | reflexivity | reflexivity].
  unfold bind, try_except. rewrite R. reflexivity.
Qed.


(** C9.  The dict [execute_steps] returns has ['extracted'] as its one
    key; its value is [None] when the plan has no [extract] step, and
    otherwise it is what the last [extract] step of the plan captured,
    a [{text, href}] dict. *)
Theorem execute_steps_extracted (steps : list dict) (w w' : W) (r : dict) :
  execute_steps steps w = (Returns r, w') ->
  dict_keys r = ["extracted"]
  /\ ((forall s, In s steps -> eq_str (dict_get s "action") "extract" = false) ->
      dict_get r "extracted" = JNull)
  /\ (forall pre s post,
         steps = pre ++ s :: post ->
         eq_str (dict_get s "action") "extract" = true ->
         (forall s', In s' post -> eq_str (dict_get s' "action") "extract" = false) ->
         exists r1 w1 w2 t h,
           exec_loop pre [("extracted", JNull)] w = (Returns r1, w1)
           /\ _do_extract s w1 = (Returns (dict_get r "extracted"), w2)
           /\ dict_get r "extracted" = JObject [("text", JString t); ("href", h)]).
Proof.
  unfold execute_steps. intros E. split; [|split].
  - apply exec_loop_keys in E; [exact E | left; reflexivity].
  - intros Hno. apply exec_loop_no_extract in E; [|exact Hno].
    subst r. reflexivity.
  - intros pre s post -> Ex Hpost.
    rewrite exec_loop_app in E.
    destruct (exec_loop pre [("extracted", JNull)] w) as [[r1|e] w1] eqn:Epre;
      [|discriminate E].
    rewrite (exec_loop_extract _ _ _ Ex) in E.
    apply bind_inv in E as (v & w2 & Ev & E).
    apply exec_loop_no_extract in E; [|exact Hpost]. subst r.
    rewrite dict_get_set_same.
    destruct (_do_extract_shape _ _ _ _ Ev) as (t & h & Hv).
    exists r1, w1, w2, t, h. repeat split; assumption.
Qed.
End ExecutorClaims.

Section SelectOption.
Context {W : Type} `{Browser W}.

(** C10.  ["select_option"] is in the schema's enum, so a step of that
    kind validates whenever its other declared properties do; it has no
    entry in [ACTION_MAP], and the loop passes over it: the page and
    the result dict are exactly what they were. *)
Theorem select_option_valid_but_skipped
        (step : dict) (rest : list dict) (result : dict) (w : W) :
  dict_get step "action" = JString "select_option" ->
  str_in "select_option" ACTION_ENUM = true
  /\ validates ACTION_SCHEMA (JArray [JObject step]) = other_properties_ok step
  /\ assoc_find (ACTION_MAP (W := W)) "select_option" = None
  /\ exec_loop (step :: rest) result w = exec_loop rest result w
  /\ execute_steps [step] w = (Returns [("extracted", JNull)], w).
Proof.
  intros Ea.
  assert (Hskip : forall rest result,
             exec_loop (step :: rest) result = exec_loop rest result).
  { intros. apply (exec_loop_unmapped step _ _ "select_option" Ea); reflexivity. }
  repeat split.
  - unfold dict_get in Ea.
    destruct (dict_find step "action") as [a|] eqn:Ef; [|discriminate Ea].
    subst a. unfold other_properties_ok.
    cbn -[dict_find String.eqb]. rewrite Ef.
    cbn -[dict_find]. rewrite !andb_true_r. reflexivity.
  - rewrite Hskip. reflexivity.
  - unfold execute_steps. rewrite Hskip. reflexivity.
Qed.
End SelectOption.

(** ** The planner *)

Lemma any_extract_true l :
  any_extract l = Returns true ->
  exists step, In (JObject step) l /\ dict_get step "action" = JString "extract".
Proof.
  induction l as [|x l IH]; simpl; intros E; [discriminate|].
  destruct x; try discriminate E.
  destruct (eq_str (dict_get o "action") "extract") eqn:Ex.
  - exists o. split; [left; reflexivity|].
    destruct (dict_get o "action"); try discriminate Ex.
    simpl in Ex. apply String.eqb_eq in Ex. subst. reflexivity.
  - destruct (IH E) as (step & Hin & Ha). exists step. split; [right|]; assumption.
Qed.

Lemma validate_inv plan : validate plan = Returns tt -> exists l, plan = JArray l.
Proof.
  unfold validate. destruct plan; cbn; try discriminate. eauto.
Qed.

Lemma fallback_plan_complete goal context : complete_plan (_fallback_plan goal context).
Proof.
  split; [reflexivity|].
  eexists _, [("action", JString "extract"); ("selector", JString RESULT_LINKS)].
  split; [reflexivity|]. split; [|reflexivity].
  simpl. do 4 right. left. reflexivity.
Qed.

Section PlannerClaims.
Context {W : Type} `{Host W}.

Lemma try_model_complete mid goal context w plan meta w' :
  try_model mid goal context w = (Returns (Some (plan, meta)), w') ->
  complete_plan plan.
Proof.
  unfold try_model. intros E.
  apply bind_inv in E as (t & w1 & _ & E).
  destruct (String.eqb (strip _) ""); [discriminate E|].
  match type of E with
  | (match ?s with Some _ => _ | None => _ end) _ = _ => destruct s as [text'|]
  end; [|discriminate E].
  apply bind_inv in E as (p & w2 & _ & E).
  apply bind_inv in E as (u & w3 & Ev & E).
  apply bind_inv in E as (has & w4 & Eh & E).
  destruct has; [|discriminate E].
  unfold lift in Ev, Eh.
  assert (Hv : validate p = Returns tt) by (destruct u; inversion Ev; reflexivity).
  assert (Hh : has_extract p = Returns true) by (inversion Eh; reflexivity).
  assert (Hp : p = plan) by (inversion E; reflexivity).
  subst p. split; [exact Hv|].
  destruct (validate_inv plan Hv) as (l & ->).
  exists l. cbn [has_extract] in Hh.
  destruct (any_extract_true l Hh) as (step & Hin & Ha). eauto.
Qed.

Lemma try_models_complete mids goal context : forall w,
  exists r w', try_models mids goal context w = (Returns r, w')
               /\ forall plan meta, r = Some (plan, meta) -> complete_plan plan.
Proof.
  induction mids as [|mid rest IH]; intros w.
  - exists None, w. split; [reflexivity | discriminate].
  - cbn [try_models]. unfold bind, try_except, any_Exception, ret.
    destruct (try_model mid goal context w) as [[[[plan meta]|]|e] w1] eqn:E.
    + exists (Some (plan, meta)), w1. split; [reflexivity|].
      intros p m Hpm. inv Hpm. eapply try_model_complete. exact E.
    + apply IH.
    + apply IH.
Qed.

Lemma _try_gemini_plan_complete goal context w :
  exists r w', _try_gemini_plan goal context w = (Returns r, w')
               /\ forall plan meta, r = Some (plan, meta) -> complete_plan plan.
Proof.
  unfold _try_gemini_plan.
  destruct (str_or _ _) as [key|]; [|exists None, w; split; [reflexivity|discriminate]].
  destruct (String.eqb key ""); [exists None, w; split; [reflexivity|discriminate]|].
  destruct (genai_configure key w) as [[u|e] w1].
  - apply try_models_complete.
  - exists None, w1. split; [reflexivity | discriminate].
Qed.

(** C1.  For every goal and context, whatever the model backend does,
    [plan_actions_via_llm_mcp] returns a pair (plan, meta) rather than
    raising; the plan validates against [ACTION_SCHEMA] and has a step
    whose [action] is ["extract"]. *)
Theorem plan_actions_always_complete (goal : string) (context : json) (w : W) :
  exists plan meta w',
    plan_actions_via_llm_mcp goal context w = (Returns (plan, meta), w')
    /\ validate plan = Returns tt
    /\ exists l step,
         plan = JArray l /\ In (JObject step) l
         /\ dict_get step "action" = JString "extract".
Proof.
  destruct (_try_gemini_plan_complete goal context w) as (r & w1 & E & Hr).
  unfold plan_actions_via_llm_mcp.
  rewrite (bind_returns _ _ _ _ _ E).
  assert (Hc : complete_plan
                 (fst (match r with
                       | Some pm => pm
                       | None => (_fallback_plan goal context, fallback_meta)
                       end))).
  { destruct r as [[p m]|]; cbn [fst].
    - eapply Hr. reflexivity.
    - apply fallback_plan_complete. }
  destruct (match r with
            | Some pm => pm
            | None => (_fallback_plan goal context, fallback_meta)
            end) as [plan meta].
  cbn [fst] in Hc. destruct Hc as [Hv Hx].
  exists plan, meta, w1. split; [|split; assumption].
  unfold try_except, bind, lift, ret. rewrite Hv. reflexivity.
Qed.
End PlannerClaims.

(** ** Tool-name resolution *)

Lemma startswith_contains s p : startswith s p = true -> contains s p = true.
Proof. intros E. destruct s; cbn [contains]; rewrite E; reflexivity. Qed.

Lemma find_name_some p names : forall n,
  find_name p names (map lower names) = Some n ->
  In n names /\ p (lower n) = true.
Proof.
  unfold find_name. induction names as [|a names IH]; intros n; simpl; [discriminate|].
  destruct (p (lower a)) eqn:E.
  - intros [= <-]. split; [left; reflexivity | exact E].
  - intros F. destruct (IH n F) as [Hin Hp]. split; [right|]; assumption.
Qed.

Lemma find_name_none p names :
  find_name p names (map lower names) = None ->
  forall n, In n names -> p (lower n) = false.
Proof.
  unfold find_name. induction names as [|a names IH]; simpl; [contradiction|].
  destruct (p (lower a)) eqn:E; [discriminate|].
  intros F n [<-|Hin]; [exact E | apply IH; assumption].
Qed.

Lemma match_tool_some names cands : forall n,
  _match_tool names cands = Some n ->
  In n names /\
  exists pre c post,
    cands = pre ++ c :: post
    /\ (forall c' n', In c' pre -> In n' names -> has_ci n' c' = false)
    /\ (starts_ci n c = true
        \/ (has_ci n c = true /\ forall n', In n' names -> starts_ci n' c = false)).
Proof.
  unfold _match_tool. induction cands as [|c cs IH]; intros n; cbn [match_candidates];
    [discriminate|].
  destruct (find_name (fun ln => startswith ln (lower c)) names (map lower names))
    as [n1|] eqn:E1.
  - intros [= <-]. apply find_name_some in E1 as [Hin Hp].
    split; [exact Hin|]. exists [], c, cs. split; [reflexivity|].
    split; [intros ? ? []|]. left. exact Hp.
  - pose proof (find_name_none _ _ E1) as Hnone.
    destruct (find_name (fun ln => contains ln (lower c)) names (map lower names))
      as [n2|] eqn:E2.
    + intros [= <-]. apply find_name_some in E2 as [Hin Hp].
      split; [exact Hin|]. exists [], c, cs. split; [reflexivity|].
      split; [intros ? ? []|]. right. split; [exact Hp | exact Hnone].
    + pose proof (find_name_none _ _ E2) as Hnone2.
      intros F. destruct (IH n F) as (Hin & pre & c0 & post & -> & Hpre & Hc).
      split; [exact Hin|]. exists (c :: pre), c0, post. split; [reflexivity|].
      split; [|exact Hc].
      intros c' n' [<-|Hc'] Hn'; [apply Hnone2; exact Hn' | apply Hpre; assumption].
Qed.

Lemma match_tool_none names cands :
  _match_tool names cands = None <->
  (forall c n, In c cands -> In n names -> starts_ci n c = false /\ has_ci n c = false).
Proof.
  unfold _match_tool. induction cands as [|c cs IH]; cbn [match_candidates].
  - split; [intros _ ? ? [] | reflexivity].
  - destruct (find_name (fun ln => startswith ln (lower c)) names (map lower names))
      as [n1|] eqn:E1.
    + apply find_name_some in E1 as [Hin Hp].
      split; [discriminate|]. intros Hall.
      destruct (Hall c n1 (or_introl eq_refl) Hin) as [Hs _].
      unfold starts_ci in Hs. congruence.
    + pose proof (find_name_none _ _ E1) as Hnone.
      destruct (find_name (fun ln => contains ln (lower c)) names (map lower names))
        as [n2|] eqn:E2.
      * apply find_name_some in E2 as [Hin Hp].
        split; [discriminate|]. intros Hall.
        destruct (Hall c n2 (or_introl eq_refl) Hin) as [_ Hc].
        unfold has_ci in Hc. congruence.
      * pose proof (find_name_none _ _ E2) as Hnone2.
        rewrite IH. split.
        -- intros Hall c' n [<-|Hc'] Hn; [|apply Hall; assumption].
           split; [apply Hnone | apply Hnone2]; exact Hn.
        -- intros Hall c' n Hc' Hn. apply Hall; [right|]; assumption.
Qed.

(** C5, as the code has it.  Candidates are tried in priority order and
    the first one that some tool name starts with or contains settles the
    answer: for that candidate a tool name starting with it is returned
    whenever there is one, and a name merely containing it only when no
    tool name starts with it.  [None] is returned exactly when no tool
    name starts with or contains any candidate. *)
Theorem match_tool_by_candidate_priority (names cands : list string) :
  (forall n,
      _match_tool names cands = Some n ->
      In n names /\
      exists pre c post,
        cands = pre ++ c :: post
        /\ (forall c' n', In c' pre -> In n' names -> has_ci n' c' = false)
        /\ (starts_ci n c = true
            \/ (has_ci n c = true /\ forall n', In n' names -> starts_ci n' c = false)))
  /\ (_match_tool names cands = None <->
      (forall c n, In c cands -> In n names ->
                   starts_ci n c = false /\ has_ci n c = false)).
Proof.
  split; [apply match_tool_some | apply match_tool_none].
Qed.

Lemma match_tool_by_candidate_priority_witness :
  In "x_page.navigate" Sim.DRIFTED_TOOLS /\
  exists pre c post,
    NAVIGATE_CANDIDATES = pre ++ c :: post
    /\ (forall c' n', In c' pre -> In n' Sim.DRIFTED_TOOLS -> has_ci n' c' = false)
    /\ (starts_ci "x_page.navigate" c = true
        \/ (has_ci "x_page.navigate" c = true
            /\ forall n', In n' Sim.DRIFTED_TOOLS -> starts_ci n' c = false)).
Proof.
  apply (proj1 (match_tool_by_candidate_priority Sim.DRIFTED_TOOLS NAVIGATE_CANDIDATES)).
  reflexivity.
Defined.

(** C5 as stated fails: with the tools [x_page.navigate] and [navigate]
    and the navigate candidates, the tool [navigate] starts with the
    candidate [navigate], yet the name returned is [x_page.navigate],
    which contains the earlier candidate [page.navigate] and starts with
    no candidate at all. *)
Lemma match_tool_prefix_not_global :
  (exists n c, In n Sim.DRIFTED_TOOLS /\ In c NAVIGATE_CANDIDATES /\ starts_ci n c = true)
  /\ _match_tool Sim.DRIFTED_TOOLS NAVIGATE_CANDIDATES = Some "x_page.navigate"
  /\ ~ (exists n c, _match_tool Sim.DRIFTED_TOOLS NAVIGATE_CANDIDATES = Some n
                    /\ In c NAVIGATE_CANDIDATES /\ starts_ci n c = true).
Proof.
  split; [|split].
  - exists "navigate", "navigate". repeat split; simpl; auto 10.
  - reflexivity.
  - intros (n & c & E & Hc & Hs).
    assert (n = "x_page.navigate") by (vm_compute in E; congruence). subst n.
    simpl in Hc. repeat (destruct Hc as [<-|Hc]; [vm_compute in Hs; discriminate|]).
    exact Hc.
Qed.

(** ** The keyword extractor *)

(** C7.  On "I want to know about the crimes in LA" the extractor
    returns "crimes LA": the tokens crimes and LA joined by a space, two
    tokens (at most 5), none of them a stopword. *)
Theorem extract_keywords_crimes_LA :
  let out := _extract_search_text GOAL_CRIMES in
  out = "crimes LA"
  /\ search_tokens GOAL_CRIMES = split_on SP out
  /\ In "crimes" (split_on SP out)
  /\ In "LA" (split_on SP out)
  /\ (length (split_on SP out) <= 5)%nat
  /\ forallb (fun t => negb (str_in t STOP) && negb (str_in (lower t) STOP))
             (split_on SP out) = true.
Proof.
  cbv zeta.
  assert (E : _extract_search_text GOAL_CRIMES = "crimes LA") by (vm_compute; reflexivity).
  rewrite E.
  split; [reflexivity|].
  split; [vm_compute; reflexivity|].
  split; [vm_compute; auto|].
  split; [vm_compute; auto|].
  split; [vm_compute; lia | vm_compute; reflexivity].
Qed.

(** C8.  On the goal [Find datasets on DQ General Services DQ] (DQ the
    double quote) the quoted phrase is captured verbatim and comes out
    as one element of the token list, its two words adjacent and in
    order, and so appears intact in the joined output. *)
Theorem extract_keywords_keeps_quoted_phrase :
  map (fun p => cap_get (snd p) 1) (re_findall RE_PHRASES GOAL_QUOTED)
    = ["General Services"]
  /\ search_tokens GOAL_QUOTED = ["General"; "Services"; "General Services"]
  /\ In "General Services" (search_tokens GOAL_QUOTED)
  /\ _extract_search_text GOAL_QUOTED = "General Services General Services"
  /\ contains (_extract_search_text GOAL_QUOTED) "General Services" = true.
Proof.
  assert (E : search_tokens GOAL_QUOTED = ["General"; "Services"; "General Services"])
    by (vm_compute; reflexivity).
  split; [vm_compute; reflexivity|].
  split; [exact E|].
  split; [rewrite E; right; right; left; reflexivity|].
  split; vm_compute; reflexivity.
Qed.

(** ** The page context builder *)

Lemma dict_get_set_other (d : dict) k k' v :
  String.eqb k k' = false -> dict_get (dict_set d k v) k' = dict_get d k'.
Proof.
  intros Hk. unfold dict_get. induction d as [|[k0 v0] d IH]; simpl.
  - rewrite Hk. reflexivity.
  - destruct (String.eqb k0 k) eqn:E; simpl.
    + apply String.eqb_eq in E. subst k0. rewrite Hk. reflexivity.
    + destruct (String.eqb k0 k'); [reflexivity | exact IH].
Qed.

Section ContextFacts.
Context {W : Type} `{Browser W} `{Host W} `{MCPTransport W}.

(** The remote answer is used only when it carries elements; it is
    then tagged as coming from MCP. *)
Lemma mcp_first_some url w data w' :
  mcp_first url w = (Returns (Some data), w') ->
  exists d, data = JObject d
            /\ dict_get d "__source" = JString "mcp"
            /\ truthy (dict_get d "elements") = true.
Proof.
  unfold mcp_first. intros E.
  apply bind_inv in E as (u & w1 & _ & E).
  apply bind_inv in E as (mcp & w2 & _ & E).
  destruct mcp as [cfg|]; [|discriminate E].
  apply bind_inv in E as (got & w3 & _ & E).
  destruct got as [| | | | | |d]; try discriminate E.
  destruct (truthy (JObject d) && truthy (dict_get d "elements")) eqn:Ht;
    [|discriminate E].
  apply bind_inv in E as (n & w4 & _ & E).
  assert (Hd : data = JObject (dict_set d "__source" (JString "mcp")))
    by (inversion E; reflexivity).
  exists (dict_set d "__source" (JString "mcp")).
  split; [exact Hd|]. split; [apply dict_get_set_same|].
  rewrite dict_get_set_other by reflexivity.
  apply andb_true_iff in Ht. apply Ht.
Qed.

(** Once both hint probes return, the local path returns a context
    tagged [local]. *)
Lemma local_context_tagged url w :
  (forall v, exists n v',
      loc_count (page_locator (JString SEARCH_BOX_SEL)) v = (Returns n, v')) ->
  (forall v, exists n v',
      loc_count (page_locator (JString SUBMIT_BTN_SEL)) v = (Returns n, v')) ->
  exists ctx w', local_context url w = (Returns (JObject ctx), w')
                 /\ dict_get ctx "__source" = JString "local".
Proof.
  intros Hsearch Hsubmit. unfold local_context.
  destruct (try_except_total accessibility_snapshot (fun _ => None) w) as (ax & w1 & E1).
  rewrite (bind_returns _ _ _ _ _ E1).
  destruct (try_except_total
              (t <- eval_on_selector_all "[data-testid]" ;;
               ret (if truthy t then t else JArray []))
              (fun _ => JArray []) w1) as (ids & w2 & E2).
  rewrite (bind_returns _ _ _ _ _ E2).
  destruct (Hsearch w2) as (n1 & w3 & E3). rewrite (bind_returns _ _ _ _ _ E3).
  destruct (Hsubmit w3) as (n2 & w4 & E4). rewrite (bind_returns _ _ _ _ _ E4).
  eexists _, w4. split; reflexivity.
Qed.

(** The builder degrades to the local context whenever the remote path
    raises, is not configured or comes back without elements, provided
    the two hint probes return. *)
Lemma build_page_context_degrades w :
  (forall data w1, mcp_first (page_url w) w <> (Returns (Some data), w1)) ->
  (forall v, exists n v',
      loc_count (page_locator (JString SEARCH_BOX_SEL)) v = (Returns n, v')) ->
  (forall v, exists n v',
      loc_count (page_locator (JString SUBMIT_BTN_SEL)) v = (Returns n, v')) ->
  exists ctx w', build_page_context w = (Returns (JObject ctx), w')
                 /\ dict_get ctx "__source" = JString "local".
Proof.
  intros Hremote Hsearch Hsubmit. unfold build_page_context.
  unfold bind at 1. unfold try_except at 1, any_Exception, ret.
  destruct (mcp_first (page_url w) w) as [[[data|]|e] w1] eqn:E.
  - exfalso. eapply Hremote. reflexivity.
  - apply local_context_tagged; assumption.
  - apply local_context_tagged; assumption.
Qed.
End ContextFacts.

(** C4.  On a page whose tab has crashed, with no MCP server configured,
    the builder does take the local path, swallows the failures of the
    accessibility snapshot and of the test-id probe, and then raises from
    the search-box probe, which alone is left unguarded. *)
Theorem build_page_context_raises_on_crashed_page :
  os_getenv "MCP_PLAYWRIGHT_CMD" Sim.home_crashed = None
  /\ fst (build_page_context Sim.home_crashed) = Raises PWError
  /\ Sim.log (snd (build_page_context Sim.home_crashed))
     = [ Sim.EvSnapshot; Sim.EvEval;
         Sim.EvCount (page_locator (JString SEARCH_BOX_SEL)) ].
Proof. repeat split. Qed.

(** C2.  On a page where the awaited element never shows up, each of the
    three attempts of the [wait_for] step times out, [_do_wait_for]
    raises tenacity's [RetryError] rather than the timeout, and
    [execute_steps] swallows it: the following [extract] step runs and
    the call returns normally. *)
Theorem wait_for_timeout_is_swallowed :
  fst (wait_for_once Sim.step_wait_missing Sim.home) = Raises PWTimeout
  /\ fst (_do_wait_for Sim.step_wait_missing Sim.home) = Raises (RetryError PWTimeout)
  /\ length (filter Sim.is_wait_for
               (Sim.log (snd (_do_wait_for Sim.step_wait_missing Sim.home)))) = 3%nat
  /\ fst (execute_steps [Sim.step_wait_missing; Sim.step_extract] Sim.home)
     = Returns [("extracted",
                 JObject [("text", JString "Crime Data from 2020 to Present");
                          ("href", JString "https://data.lacity.org/d/2nrs-mtv8")])].
Proof. repeat split. Qed.

(** ** The orchestration flow *)

Section OrchestrationClaims.
Context {W : Type} `{Browser W} `{Host W} `{MCPTransport W}.

End OrchestrationClaims.

(** ** The claims on concrete pages *)


Lemma execute_steps_extracted_witness :
  exists r w',
    execute_steps [Sim.step_extract; Sim.step_press; Sim.step_extract_second] Sim.home
      = (Returns r, w')
    /\ dict_keys r = ["extracted"]
    /\ dict_get r "extracted"
       = JObject [("text", JString "Arrest Data");
                  ("href", JString "https://data.lacity.org/d/amvf-fr72")].
Proof.
  eexists _, _. split; [cbv; reflexivity|].
  split; [|reflexivity].
  eapply (execute_steps_extracted
            [Sim.step_extract; Sim.step_press; Sim.step_extract_second] Sim.home).
  cbv. reflexivity.
Defined.

Lemma select_option_valid_but_skipped_witness :
  validates ACTION_SCHEMA (JArray [JObject Sim.step_select]) = true
  /\ execute_steps [Sim.step_select] Sim.home = (Returns [("extracted", JNull)], Sim.home).
Proof.
  destruct (select_option_valid_but_skipped
              (W := Sim.sim) Sim.step_select [] [] Sim.home eq_refl)
    as (_ & Hv & _ & _ & Hrun).
  split; [rewrite Hv; reflexivity | exact Hrun].
Defined.




(* ================================================================== *)
(** * Further properties of the executor *)
(* ================================================================== *)

Lemma ACTION_MAP_names {W : Type} `{Browser W} :
  map fst (ACTION_MAP (W := W)) = ACTION_NAMES.
Proof. reflexivity. Qed.

Lemma ACTION_MAP_miss {W : Type} `{Browser W} (a : string) :
  str_in a ACTION_NAMES = false -> assoc_find (ACTION_MAP (W := W)) a = None.
Proof.
  unfold str_in, ACTION_NAMES, ACTION_MAP. cbn [existsb assoc_find].
  rewrite !orb_false_iff. intros (E1 & E2 & E3 & E4 & E5 & E6 & E7 & E8 & _).
  rewrite (String.eqb_sym "goto"), E1, (String.eqb_sym "fill"), E2,
          (String.eqb_sym "click"), E3, (String.eqb_sym "press"), E4,
          (String.eqb_sym "wait_for"), E5, (String.eqb_sym "scroll"), E6,
          (String.eqb_sym "sleep"), E7, (String.eqb_sym "assert_text"), E8.
  reflexivity.
Qed.

Lemma mem_char_replace (a b : ascii) (s : string) :
  Ascii.eqb b a = false -> mem_char a (replace_char a b s) = false.
Proof.
  intros Hab. induction s as [|c s IH]; cbn [replace_char mem_char]; [reflexivity|].
  rewrite IH, orb_false_r. destruct (Ascii.eqb c a) eqn:E; [exact Hab | exact E].
Qed.

Section ExecutorMore.
Context {W : Type} `{Browser W}.

(** X1.  Executing a concatenated plan is executing its first part and,
    when that returns, its second part on the page and with the result
    dict the first part left; when the first part raises, nothing of the
    second part runs. *)
Theorem execute_steps_concat (p q : list dict) (w : W) :
  execute_steps (p ++ q) w =
  match execute_steps p w with
  | (Returns r, w1) => exec_loop q r w1
  | (Raises e, w1) => (Raises e, w1)
  end.
Proof. unfold execute_steps. apply exec_loop_app. Qed.

(** X2.  A step is passed over, page and result dict untouched, when its
    action is missing or falsy, when it is a string other than extract
    and the eight keys of ACTION_MAP, or when it is a number or a
    boolean; an action that is a non-empty list or dict makes the call
    raise TypeError instead. *)
Theorem unknown_action_is_skipped (step : dict) (rest : list dict)
        (result : dict) (w : W) :
  (truthy (dict_get step "action") = false ->
   exec_loop (step :: rest) result w = exec_loop rest result w)
  /\ (forall a, dict_get step "action" = JString a ->
                str_in a ("extract" :: ACTION_NAMES) = false ->
                exec_loop (step :: rest) result w = exec_loop rest result w)
  /\ (hashable (dict_get step "action") = true ->
      (forall a, dict_get step "action" <> JString a) ->
      exec_loop (step :: rest) result w = exec_loop rest result w)
  /\ (truthy (dict_get step "action") = true ->
      hashable (dict_get step "action") = false ->
      exec_loop (step :: rest) result w = (Raises TypeError, w)).
Proof.
  split; [|split; [|split]].
  - intros E. rewrite exec_loop_falsy by exact E. reflexivity.
  - intros a Ea Hn. cbn [str_in existsb] in Hn. apply orb_false_iff in Hn as [Hx Hn].
    rewrite (exec_loop_unmapped step rest result a Ea); [reflexivity | exact Hx |].
    apply ACTION_MAP_miss. exact Hn.
  - intros Hh Hs. cbn [exec_loop].
    destruct (dict_get step "action") as [| b | z | q | s | l | o];
      try discriminate Hh; try (exfalso; eapply Hs; reflexivity);
      cbn; repeat match goal with |- context [if ?c then _ else _] => destruct c end;
      reflexivity.
  - intros Ht Hh. cbn [exec_loop]. rewrite Ht.
    destruct (dict_get step "action"); try discriminate Hh; reflexivity.
Qed.


(** X4.  When the handler of a step itself raises Playwright's
    TimeoutError (goto, press, scroll, sleep and assert_text are not
    wrapped in a retry), execute_steps re-raises it at once: no settle
    wait and no later step runs. *)
Theorem handler_timeout_propagates (step : dict) (rest : list dict)
        (result : dict) (a : string) (fn : dict -> M W unit) (w w1 : W) :
  dict_get step "action" = JString a ->
  assoc_find (ACTION_MAP (W := W)) a = Some fn ->
  fn step w = (Raises PWTimeout, w1) ->
  exec_loop (step :: rest) result w = (Raises PWTimeout, w1).
Proof.
  intros Ea Em E.
  assert (Hne : a <> "") by (intros ->; discriminate Em).
  assert (Hx : String.eqb a "extract" = false).
  { destruct (String.eqb a "extract") eqn:Ex; [|reflexivity].
    apply String.eqb_eq in Ex. subst a. discriminate Em. }
  rewrite (exec_loop_mapped step rest result a fn Ea Hne Hx Em).
  unfold bind, try_except. rewrite E. reflexivity.
Qed.

(** X5.  An extract step that cannot be addressed (no role and name
    pair, no selector) makes execute_steps raise RuntimeError before the
    page is touched; the steps after it do not run. *)
Theorem unaddressed_extract_raises (step : dict) (rest : list dict)
        (result : dict) (w : W) :
  dict_get step "action" = JString "extract" ->
  addressable step = false ->
  exec_loop (step :: rest) result w = (Raises RuntimeError, w).
Proof.
  intros Ea Hadr. unfold addressable in Hadr. apply orb_false_iff in Hadr as [Hrn Hs].
  rewrite exec_loop_extract by (rewrite Ea; reflexivity).
  unfold bind, _do_extract, bind, _loc. rewrite Hrn, Hs. reflexivity.
Qed.

(** X6.  What an extract step captures is a dict with a text free of
    newlines and an href that is None, empty, or absolute (it starts
    with http). *)
Theorem _do_extract_capture (step : dict) (w w' : W) (v : json) :
  _do_extract step w = (Returns v, w') ->
  exists t h,
    v = JObject [("text", JString t); ("href", h)]
    /\ mem_char LF t = false
    /\ (h = JNull \/ h = JString ""
        \/ exists s, h = JString s /\ startswith s "http" = true).
Proof.
  unfold _do_extract. intros E.
  apply bind_inv in E as (loc & w1 & _ & E).
  apply bind_inv in E as (txt & w2 & _ & E).
  apply bind_inv in E as (href & w3 & Eh & E).
  exists (replace_char LF SP (strip txt)), (opt_str_json href).
  split; [inversion E; reflexivity|].
  split; [apply mem_char_replace; reflexivity|].
  unfold try_except, bind, any_Exception in Eh.
  destruct (loc_get_attribute loc "href" w2) as [[[s|]|e] w4].
  - destruct (String.eqb s "") eqn:E0; cbn [negb andb] in Eh.
    + apply String.eqb_eq in E0. subst s. inversion Eh. right. left. reflexivity.
    + destruct (startswith s "http") eqn:Es; cbn [negb] in Eh; inversion Eh;
        right; right; eexists; (split; [reflexivity|]); [exact Es | reflexivity].
  - inversion Eh. left. reflexivity.
  - inversion Eh. left. reflexivity.
Qed.
End ExecutorMore.

Lemma unknown_action_is_skipped_witness :
  execute_steps [SimX.step_hover; Sim.step_extract] Sim.home
  = execute_steps [Sim.step_extract] Sim.home.
Proof.
  unfold execute_steps.
  apply (proj1 (proj2 (unknown_action_is_skipped
                         (W := Sim.sim) SimX.step_hover [Sim.step_extract]
                         [("extracted", JNull)] Sim.home)) "hover");
    reflexivity.
Defined.


Lemma handler_timeout_propagates_witness :
  fst (execute_steps [SimX.step_press_missing; Sim.step_extract] Sim.home)
  = Raises PWTimeout.
Proof.
  unfold execute_steps.
  erewrite (handler_timeout_propagates
              (W := Sim.sim) SimX.step_press_missing [Sim.step_extract]
              [("extracted", JNull)] "press" _do_press Sim.home);
    [reflexivity | reflexivity | reflexivity | cbv; reflexivity].
Defined.

Lemma unaddressed_extract_raises_witness :
  execute_steps [SimX.step_extract_unaddressed; Sim.step_extract] Sim.home
  = (Raises RuntimeError, Sim.home).
Proof.
  unfold execute_steps.
  apply (unaddressed_extract_raises (W := Sim.sim)); reflexivity.
Defined.

Lemma _do_extract_capture_witness :
  exists t h,
    fst (_do_extract Sim.step_extract Sim.home)
    = Returns (JObject [("text", JString t); ("href", h)])
    /\ mem_char LF t = false
    /\ (h = JNull \/ h = JString ""
        \/ exists s, h = JString s /\ startswith s "http" = true).
Proof.
  edestruct (_do_extract_capture (W := Sim.sim) Sim.step_extract Sim.home)
    as (t & h & Ev & Hrest); [cbv; reflexivity|].
  exists t, h. split; [|exact Hrest]. rewrite <- Ev. reflexivity.
Defined.

(* ================================================================== *)
(** * Further properties of the schema and the planner *)
(* ================================================================== *)

Lemma str_in_In (s : string) (l : list string) : str_in s l = true <-> In s l.
Proof.
  unfold str_in. rewrite existsb_exists. split.
  - intros (x & Hin & E). apply String.eqb_eq in E. subst. exact Hin.
  - intros Hin. exists s. split; [exact Hin | apply String.eqb_refl].
Qed.

Lemma validates_item_bool (d : dict) (a : string) :
  dict_find d "action" = Some (JString a) ->
  validates (Schema (Some TObject) None ["action"]
               [ ("action", Schema (Some TString) (Some ACTION_ENUM) [] [] None);
                 ("url", string_schema); ("selector", string_schema);
                 ("role", string_schema); ("name", string_schema);
                 ("value", string_schema); ("assert", string_schema);
                 ("timeout_ms", number_schema) ] None) (JObject d)
  = str_in a ACTION_ENUM && other_properties_ok d.
Proof.
  intros Ef. unfold other_properties_ok.
  cbn -[dict_find str_in]. rewrite Ef. cbn -[dict_find str_in].
  rewrite !andb_true_r. reflexivity.
Qed.

Lemma string_schema_spec (v : json) :
  validates string_schema v = true <-> is_str v.
Proof.
  unfold is_str. split.
  - destruct v; try discriminate. intros _. eexists. reflexivity.
  - intros (s & ->). reflexivity.
Qed.

Lemma number_schema_spec (v : json) :
  validates number_schema v = true <-> is_number v.
Proof.
  unfold is_number. split.
  - destruct v; try discriminate; intros _; [left | right]; eexists; reflexivity.
  - intros [(z & ->) | (q & ->)]; reflexivity.
Qed.

Lemma property_ok_spec (d : dict) (k : string) (sub : schema) :
  match dict_find d k with Some x => validates sub x | None => true end = true
  <-> (forall v, dict_find d k = Some v -> validates sub v = true).
Proof.
  destruct (dict_find d k) as [x|]; split.
  - intros E v [= <-]. exact E.
  - intros Hv. apply Hv. reflexivity.
  - intros _ v [=].
  - reflexivity.
Qed.

Lemma other_properties_ok_spec (d : dict) :
  other_properties_ok d = true
  <-> (forall k v, In k STRING_PROPERTIES -> dict_find d k = Some v -> is_str v)
      /\ (forall v, dict_find d "timeout_ms" = Some v -> is_number v).
Proof.
  unfold other_properties_ok, STRING_PROPERTIES.
  cbn [forallb fst snd]. rewrite !andb_true_iff, !property_ok_spec.
  split.
  - intros (H1 & H2 & H3 & H4 & H5 & H6 & H7 & _). split.
    + intros k v Hk Hf. apply string_schema_spec.
      cbn [In] in Hk.
      destruct Hk as [<-|[<-|[<-|[<-|[<-|[<-|[]]]]]]]; auto.
    + intros v Hf. apply number_schema_spec. auto.
  - intros [Hs Hn].
    repeat split;
      try (intros v Hf; apply string_schema_spec; apply (Hs _ v) in Hf;
           [exact Hf | cbn [In]; auto 10]).
    intros v Hf. apply number_schema_spec. auto.
Qed.

Lemma validates_item (item : json) :
  validates (Schema (Some TObject) None ["action"]
               [ ("action", Schema (Some TString) (Some ACTION_ENUM) [] [] None);
                 ("url", string_schema); ("selector", string_schema);
                 ("role", string_schema); ("name", string_schema);
                 ("value", string_schema); ("assert", string_schema);
                 ("timeout_ms", number_schema) ] None) item = true
  <-> valid_step item.
Proof.
  unfold valid_step. split.
  - destruct item as [| | | | | |d]; try discriminate.
    destruct (dict_find d "action") as [x|] eqn:Ef.
    + destruct x as [| | | |a| |];
        try (cbn -[dict_find str_in]; rewrite Ef; cbn -[dict_find str_in];
             rewrite ?andb_false_r; discriminate).
      rewrite (validates_item_bool d a Ef). intros E.
      apply andb_true_iff in E as [E1 E2].
      apply other_properties_ok_spec in E2 as [Hs Hn].
      exists d, a. split; [reflexivity|]. split; [exact Ef|].
      split; [apply str_in_In; exact E1|]. split; assumption.
    + cbn -[dict_find str_in]. rewrite Ef. discriminate.
  - intros (d & a & -> & Ef & Ha & Hs & Hn).
    rewrite (validates_item_bool d a Ef).
    apply str_in_In in Ha. rewrite Ha.
    apply other_properties_ok_spec. split; assumption.
Qed.

Lemma validate_valid_steps (plan : json) :
  validate plan = Returns tt <->
  exists l, plan = JArray l /\ Forall valid_step l.
Proof.
  unfold validate. split.
  - destruct (validates ACTION_SCHEMA plan) eqn:E; [intros _ | discriminate].
    destruct plan as [| | | | |l|]; try discriminate E.
    exists l. split; [reflexivity|].
    cbn [validates ACTION_SCHEMA type_ok enum_ok required_ok andb] in E.
    rewrite forallb_forall in E. apply Forall_forall.
    intros item Hin. apply validates_item. apply E. exact Hin.
  - intros (l & -> & Hl).
    cbn [validates ACTION_SCHEMA type_ok enum_ok required_ok andb].
    replace (forallb _ l) with true; [reflexivity|].
    symmetry. apply forallb_forall. intros item Hin.
    apply validates_item. rewrite Forall_forall in Hl. apply Hl. exact Hin.
Qed.

(** X7.  validate accepts exactly the arrays whose every item is an
    object carrying an action string of the enum and, where present,
    string-typed url, selector, role, name, value and assert and a
    number-typed timeout_ms; anything else raises ValidationError. *)
Theorem validate_accepts_exactly (plan : json) :
  (validate plan = Returns tt <->
   exists l, plan = JArray l /\ Forall valid_step l)
  /\ (validate plan = Returns tt \/ validate plan = Raises ValidationError).
Proof.
  split; [apply validate_valid_steps|].
  unfold validate. destruct (validates ACTION_SCHEMA plan); auto.
Qed.

Lemma dict_find_set_other (d : dict) k k' v :
  String.eqb k k' = false -> dict_find (dict_set d k v) k' = dict_find d k'.
Proof.
  intros Hk. induction d as [|[k0 v0] d IH]; simpl.
  - rewrite Hk. reflexivity.
  - destruct (String.eqb k0 k) eqn:E; simpl.
    + apply String.eqb_eq in E. subst k0. rewrite Hk. reflexivity.
    + destruct (String.eqb k0 k'); [reflexivity | exact IH].
Qed.

(** X8.  Fields the schema does not declare are tolerated: setting any
    undeclared key of a step, to any value, leaves the verdict of the
    validator on the plan unchanged. *)
Theorem undeclared_field_tolerated (before after : list json) (d : dict)
        (k : string) (v : json) :
  str_in k DECLARED_PROPERTIES = false ->
  validates ACTION_SCHEMA (JArray (before ++ JObject (dict_set d k v) :: after))
  = validates ACTION_SCHEMA (JArray (before ++ JObject d :: after)).
Proof.
  intros Hk. unfold str_in, DECLARED_PROPERTIES in Hk. cbn [existsb] in Hk.
  rewrite !orb_false_iff in Hk.
  destruct Hk as (K1 & K2 & K3 & K4 & K5 & K6 & K7 & K8 & _).
  cbn [validates ACTION_SCHEMA type_ok enum_ok required_ok andb].
  rewrite !forallb_app. f_equal. cbn [forallb]. f_equal.
  cbn -[dict_find dict_set String.eqb str_in].
  rewrite !dict_find_set_other by assumption. reflexivity.
Qed.

Section PlannerMore.
Context {W : Type} `{Host W}.

Lemma check_plan_inv mid text (w w' : W) plan meta :
  check_plan mid text w = (Returns (Some (plan, meta)), w') ->
  w' = w /\ meta = gemini_meta mid
  /\ json_loads text = Returns plan
  /\ validate plan = Returns tt
  /\ has_extract plan = Returns true.
Proof.
  unfold check_plan, bind, lift, ret. intros E.
  destruct (json_loads text) as [p|e]; [|discriminate E].
  destruct (validate p) as [[]|e] eqn:Ev; [|discriminate E].
  destruct (has_extract p) as [[|]|e] eqn:Eh; cbn [negb] in E; try discriminate E.
  inversion E. subst. auto.
Qed.

(** One pass of the model loop, given what the model replied. *)
Lemma try_model_reply mid goal context (w w1 : W) t :
  generate_content_text mid goal context w = (Returns t, w1) ->
  try_model mid goal context w =
  (if String.eqb (reply_text t) "" then ret None
   else if startswith (reply_text t) (String LBRACKET "")
        then check_plan mid (reply_text t)
        else match find_char LBRACKET (reply_text t),
                   rfind_char RBRACKET (reply_text t) with
             | Some i, Some e => check_plan mid (slice (reply_text t) i (e + 1))
             | _, _ => ret None
             end) w1.
Proof.
  intros Eg. unfold try_model. rewrite (bind_returns _ _ _ _ _ Eg).
  fold (reply_text t).
  destruct (String.eqb (reply_text t) ""); [reflexivity|].
  destruct (startswith (reply_text t) (String LBRACKET "")); [reflexivity|].
  destruct (find_char LBRACKET (reply_text t)); [|reflexivity].
  destruct (rfind_char RBRACKET (reply_text t)); reflexivity.
Qed.

Lemma try_model_provenance mid goal context (w w' : W) plan meta :
  try_model mid goal context w = (Returns (Some (plan, meta)), w') ->
  meta = gemini_meta mid
  /\ exists t text,
       generate_content_text mid goal context w = (Returns t, w')
       /\ parsed_part t text
       /\ json_loads text = Returns plan
       /\ validate plan = Returns tt
       /\ has_extract plan = Returns true.
Proof.
  intros E.
  destruct (generate_content_text mid goal context w) as [[t|ex] w1] eqn:Eg.
  - rewrite (try_model_reply _ _ _ _ _ _ Eg) in E.
    destruct (String.eqb (reply_text t) "") eqn:Ee; [discriminate E|].
    apply String.eqb_neq in Ee.
    destruct (startswith (reply_text t) (String LBRACKET "")) eqn:Es.
    + apply check_plan_inv in E as (-> & Hm & Hj & Hv & Hh).
      split; [exact Hm|]. exists t, (reply_text t).
      repeat split; try assumption. left. split; [exact Es | reflexivity].
    + destruct (find_char LBRACKET (reply_text t)) as [i|] eqn:Ef; [|discriminate E].
      destruct (rfind_char RBRACKET (reply_text t)) as [e|] eqn:Er; [|discriminate E].
      apply check_plan_inv in E as (-> & Hm & Hj & Hv & Hh).
      split; [exact Hm|]. exists t, (slice (reply_text t) i (e + 1)).
      repeat split; try assumption. right. split; [exact Es|].
      exists i, e. auto.
  - unfold try_model in E. rewrite (bind_raises _ _ _ _ _ Eg) in E. discriminate E.
Qed.

Lemma try_models_provenance mids goal context : forall (w w' : W) plan meta,
  try_models mids goal context w = (Returns (Some (plan, meta)), w') ->
  exists mid w0 t text,
    In mid mids /\ meta = gemini_meta mid
    /\ generate_content_text mid goal context w0 = (Returns t, w')
    /\ parsed_part t text
    /\ json_loads text = Returns plan
    /\ validate plan = Returns tt
    /\ has_extract plan = Returns true.
Proof.
  induction mids as [|mid rest IH]; intros w w' plan meta E.
  - discriminate E.
  - cbn [try_models] in E. unfold bind, try_except, any_Exception, ret in E.
    destruct (try_model mid goal context w) as [[[[p m]|]|e] w1] eqn:Em.
    + inversion E. subst.
      apply try_model_provenance in Em as (Hm & t & text & Hrest).
      exists mid, w, t, text. split; [left; reflexivity | split; assumption].
    + destruct (IH _ _ _ _ E) as (mid' & w0 & t & text & Hin & Hrest).
      exists mid', w0, t, text. split; [right; exact Hin | exact Hrest].
    + destruct (IH _ _ _ _ E) as (mid' & w0 & t & text & Hin & Hrest).
      exists mid', w0, t, text. split; [right; exact Hin | exact Hrest].
Qed.

(** X9.  Whatever the model backend does, the planner hands back one of
    two things: the fixed fallback plan with meta source fallback and
    model None; or, with meta source gemini and the id of one of the
    three candidate models, the plan that json.loads parsed out of the
    reply that very model gave to this goal and context (the stripped
    reply itself when it begins with an opening bracket, else its part
    from the first opening to the last closing bracket), a plan that
    passed the validator and has an extract step.  In the second case
    that model's call is the last thing done to the world. *)
Theorem plan_provenance (goal : string) (context : json) (w w' : W)
        (plan : json) (meta : dict) :
  plan_actions_via_llm_mcp goal context w = (Returns (plan, meta), w') ->
  (plan = _fallback_plan goal context /\ meta = fallback_meta)
  \/ (exists mid w0 t text,
         In mid MODEL_CANDIDATES /\ meta = gemini_meta mid
         /\ generate_content_text mid goal context w0 = (Returns t, w')
         /\ parsed_part t text
         /\ json_loads text = Returns plan
         /\ validate plan = Returns tt
         /\ has_extract plan = Returns true).
Proof.
  unfold plan_actions_via_llm_mcp. intros E.
  apply bind_inv in E as (tried & w1 & Et & E).
  destruct tried as [[p m]|].
  - unfold _try_gemini_plan in Et.
    destruct (str_or _ _) as [key|]; [|discriminate Et].
    destruct (String.eqb key ""); [discriminate Et|].
    destruct (genai_configure key w) as [[u|e] w2]; [|discriminate Et].
    destruct (try_models_provenance _ _ _ _ _ _ _ Et)
      as (mid & w0 & t & text & Hin & Hm & Hg & Hp & Hj & Hv & Hh).
    unfold try_except, bind, lift, ret in E. rewrite Hv in E.
    inversion E. subst. right. exists mid, w0, t, text. auto 10.
  - left. unfold try_except, bind, lift, ret in E. cbn in E. inversion E. auto.
Qed.

(** X10.  With neither GEMINI_API_KEY nor GOOGLE_API_KEY set (or both
    empty) the planner returns the fallback plan with meta source
    fallback, without touching the model backend. *)
Theorem no_api_key_gives_fallback (goal : string) (context : json) (w : W) :
  os_getenv "GEMINI_API_KEY" w = None \/ os_getenv "GEMINI_API_KEY" w = Some "" ->
  os_getenv "GOOGLE_API_KEY" w = None \/ os_getenv "GOOGLE_API_KEY" w = Some "" ->
  plan_actions_via_llm_mcp goal context w
  = (Returns (_fallback_plan goal context, fallback_meta), w).
Proof.
  intros Hg Ho.
  assert (Et : _try_gemini_plan goal context w = (Returns None, w)).
  { unfold _try_gemini_plan.
    destruct Hg as [-> | ->]; destruct Ho as [-> | ->]; reflexivity. }
  unfold plan_actions_via_llm_mcp. rewrite (bind_returns _ _ _ _ _ Et). reflexivity.
Qed.
End PlannerMore.

Lemma plan_provenance_witness :
  plan_actions_via_llm_mcp "crimes LA" JNull SimOnline.start
  = (Returns (SimOnline.PLAN, gemini_meta SimOnline.FLASH_LITE),
     {| SimOnline.asked := [SimOnline.FLASH; SimOnline.FLASH_LITE] |})
  /\ exists mid w0 t text,
       In mid MODEL_CANDIDATES
       /\ gemini_meta SimOnline.FLASH_LITE = gemini_meta mid
       /\ generate_content_text mid "crimes LA" JNull w0
          = (Returns t, {| SimOnline.asked := [SimOnline.FLASH; SimOnline.FLASH_LITE] |})
       /\ parsed_part t text
       /\ json_loads (W := SimOnline.online) text = Returns SimOnline.PLAN
       /\ validate SimOnline.PLAN = Returns tt
       /\ has_extract SimOnline.PLAN = Returns true.
Proof.
  assert (E : plan_actions_via_llm_mcp "crimes LA" JNull SimOnline.start
              = (Returns (SimOnline.PLAN, gemini_meta SimOnline.FLASH_LITE),
                 {| SimOnline.asked := [SimOnline.FLASH; SimOnline.FLASH_LITE] |}))
    by (vm_compute; reflexivity).
  split; [exact E|].
  destruct (plan_provenance (W := SimOnline.online) _ _ _ _ _ _ E) as [[Hp _] | Hx].
  - discriminate Hp.
  - exact Hx.
Defined.

Lemma no_api_key_gives_fallback_witness :
  plan_actions_via_llm_mcp "crimes LA" JNull Sim.home
  = (Returns (_fallback_plan "crimes LA" JNull, fallback_meta), Sim.home).
Proof.
  apply (no_api_key_gives_fallback (W := Sim.sim)); left; reflexivity.
Defined.

Lemma undeclared_field_tolerated_witness :
  validates ACTION_SCHEMA
    (JArray ([] ++ JObject (dict_set Sim.step_extract "note" (JInt 1)) :: []))
  = validates ACTION_SCHEMA (JArray ([] ++ JObject Sim.step_extract :: [])).
Proof.
  apply undeclared_field_tolerated. reflexivity.
Defined.

(* ================================================================== *)
(** * Further properties of the MCP client *)
(* ================================================================== *)

Lemma startswith_spec (s p : string) :
  startswith s p = true <-> exists b, s = (p ++ b)%string.
Proof.
  revert s. induction p as [|c p IH]; intros s.
  - split; [intros _; exists s; reflexivity | intros _; destruct s; reflexivity].
  - destruct s as [|d s]; cbn [startswith].
    + split; [discriminate | intros (b & Hb); discriminate Hb].
    + rewrite andb_true_iff, IH. split.
      * intros (Ec & b & ->). apply Ascii.eqb_eq in Ec. subst. exists b. reflexivity.
      * intros (b & Hb). cbn in Hb. inversion Hb. subst.
        split; [apply Ascii.eqb_refl | exists b; reflexivity].
Qed.

Lemma contains_spec (s p : string) :
  contains s p = true <-> exists a b, s = (a ++ p ++ b)%string.
Proof.
  split.
  - induction s as [|c s IH]; cbn [contains]; rewrite orb_true_iff;
      intros [E | E]; try discriminate E.
    + apply startswith_spec in E as (b & ->). exists "", b. reflexivity.
    + apply startswith_spec in E as (b & Hb). exists "", b. exact Hb.
    + destruct (IH E) as (a & b & ->). exists (String c a), b. reflexivity.
  - intros (a & b & ->). induction a as [|c a IH].
    + apply startswith_contains. apply startswith_spec. exists b. reflexivity.
    + change ((String c a ++ p ++ b)%string) with (String c (a ++ p ++ b)%string).
      cbn [contains]. rewrite IH. apply orb_true_r.
Qed.

Lemma string_app_assoc (a b c : string) :
  ((a ++ b) ++ c = a ++ (b ++ c))%string.
Proof. induction a as [|x a IH]; cbn; [reflexivity | rewrite IH; reflexivity]. Qed.

Lemma contains_trans (s m p : string) :
  contains s m = true -> contains m p = true -> contains s p = true.
Proof.
  rewrite !contains_spec. intros (a & b & ->) (a' & b' & ->).
  exists (a ++ a')%string, (b' ++ b)%string.
  rewrite !string_app_assoc. reflexivity.
Qed.

(** When every candidate of a list contains [word], a tool name without
    [word] neither starts with nor contains any of them. *)
Lemma no_word_no_candidate (word : string) (cands : list string) (n : string) :
  (forall c, In c cands -> contains (lower c) word = true) ->
  contains (lower n) word = false ->
  forall c, In c cands -> starts_ci n c = false /\ has_ci n c = false.
Proof.
  intros Hw Hn c Hc.
  assert (Hh : has_ci n c = false).
  { unfold has_ci. destruct (contains (lower n) (lower c)) eqn:E; [|reflexivity].
    rewrite (contains_trans _ _ _ E (Hw c Hc)) in Hn. discriminate. }
  split; [|exact Hh].
  unfold starts_ci. destruct (startswith (lower n) (lower c)) eqn:E; [|reflexivity].
  apply startswith_contains in E. unfold has_ci in Hh. congruence.
Qed.

Lemma NAVIGATE_CANDIDATES_word c :
  In c NAVIGATE_CANDIDATES -> contains (lower c) "navigate" = true.
Proof.
  intros Hc. cbn in Hc.
  repeat (destruct Hc as [<- | Hc]; [vm_compute; reflexivity|]). contradiction.
Qed.

Lemma SNAPSHOT_CANDIDATES_word c :
  In c SNAPSHOT_CANDIDATES -> contains (lower c) "snapshot" = true.
Proof.
  intros Hc. cbn in Hc.
  repeat (destruct Hc as [<- | Hc]; [vm_compute; reflexivity|]). contradiction.
Qed.

Lemma contains_nonempty (s p : string) :
  contains s p = true -> p <> "" -> s <> "".
Proof.
  intros E Hp ->. cbn in E. destruct p; [contradiction | discriminate].
Qed.

Lemma lower_nonempty (s : string) : lower s <> "" -> s <> "".
Proof. intros H ->. apply H. reflexivity. Qed.

Section MCPClientMore.
Context {W : Type} `{Host W} `{MCPTransport W}.

(** X11.  navigate returns False, without calling any tool, exactly when
    no discovered tool name contains navigate (in any case); otherwise it
    calls a tool whose name contains navigate with the url as its one
    argument and returns True when that call returns. *)
Theorem navigate_needs_a_navigate_tool (tools : list string) (url : string) (w : W) :
  ((forall n, In n tools -> contains (lower n) "navigate" = false) ->
   navigate tools url w = (Returns false, w))
  /\ (forall n, In n tools -> contains (lower n) "navigate" = true ->
      exists name,
        In name tools /\ contains (lower name) "navigate" = true
        /\ navigate tools url w
           = (call name (JObject [("url", JString url)]) ;;; ret true) w).
Proof.
  split.
  - intros Hno. unfold navigate.
    replace (_match_tool tools NAVIGATE_CANDIDATES) with (@None string); [reflexivity|].
    symmetry. apply match_tool_none. intros c n Hc Hn.
    apply (no_word_no_candidate "navigate" NAVIGATE_CANDIDATES);
      [apply NAVIGATE_CANDIDATES_word | apply Hno; exact Hn | exact Hc].
  - intros n Hn Hw. unfold navigate.
    destruct (_match_tool tools NAVIGATE_CANDIDATES) as [name|] eqn:E.
    + destruct (match_tool_some _ _ _ E) as (Hin & pre & c & post & Hc & _ & Hsel).
      assert (Hcin : In c NAVIGATE_CANDIDATES) by (rewrite Hc; apply in_elt).
      assert (Hhas : has_ci name c = true).
      { destruct Hsel as [Hs | [Hh _]]; [apply startswith_contains; exact Hs | exact Hh]. }
      assert (Hword : contains (lower name) "navigate" = true).
      { eapply contains_trans; [exact Hhas | apply NAVIGATE_CANDIDATES_word; exact Hcin]. }
      exists name. split; [exact Hin|]. split; [exact Hword|].
      destruct (String.eqb name "") eqn:E0; [|reflexivity].
      apply String.eqb_eq in E0. subst name. discriminate Hword.
    + exfalso. rewrite match_tool_none in E.
      destruct (E "navigate" n) as [_ Hh]; [cbn; auto | exact Hn |].
      unfold has_ci in Hh. change (lower "navigate") with "navigate" in Hh. congruence.
Qed.

(** X12.  call never fails on what the tool sends back: when the
    transport returns, call returns None if no content item has text,
    the parsed JSON of the first text item, or that text itself, raw,
    when it is not JSON; only a failure of the transport is raised. *)
Theorem call_tolerates_any_reply (name : string) (a : json) (w : W) :
  match mcp_call_tool name a w with
  | (Raises e, w1) => call name a w = (Raises e, w1)
  | (Returns content, w1) =>
      match find (fun t => match t with Some _ => true | None => false end) content with
      | Some (Some val) =>
          exists v, call name a w = (Returns v, w1)
                    /\ (json_loads val = Returns v
                        \/ (v = JString val /\ exists e, json_loads val = Raises e))
      | _ => call name a w = (Returns JNull, w1)
      end
  end.
Proof.
  unfold call, bind.
  destruct (mcp_call_tool name a w) as [[content|e] w1]; [|reflexivity].
  destruct (find _ content) as [[val|]|]; try reflexivity.
  destruct (json_loads val) as [v|e] eqn:E.
  - exists v. split; [reflexivity | left; reflexivity].
  - exists (JString val). split; [reflexivity | right; eauto].
Qed.

(** X13.  What get_page_context returns is None or a dict with exactly
    the keys url, elements, testids, hints and title, whose testids is
    an empty list and whose hints is an empty dict; it is None whenever
    no discovered tool name contains snapshot. *)
Theorem get_page_context_shape (tools : list string) (w w' : W) (ctx : json) :
  get_page_context tools w = (Returns ctx, w') ->
  (ctx = JNull
   \/ exists u els t,
        ctx = JObject [ ("url", u); ("elements", els); ("testids", JArray []);
                        ("hints", JObject []); ("title", t) ]
        /\ exists n, py_len els = Returns n)
  /\ ((forall n, In n tools -> contains (lower n) "snapshot" = false) ->
      ctx = JNull /\ w' = w).
Proof.
  intros E. split.
  - unfold get_page_context in E.
    destruct (_match_tool tools SNAPSHOT_CANDIDATES) as [name|];
      [|inversion E; left; reflexivity].
    destruct (String.eqb name ""); [inversion E; left; reflexivity|].
    apply bind_inv in E as (data & w1 & _ & E).
    destruct (negb (truthy data)); [inversion E; left; reflexivity|].
    destruct data as [| | | | | |d]; try discriminate E.
    apply bind_inv in E as (n & w2 & En & E). unfold lift in En.
    inversion E. right. eexists _, _, _. split; [reflexivity|].
    exists n. inversion En. reflexivity.
  - intros Hno. unfold get_page_context in E.
    replace (_match_tool tools SNAPSHOT_CANDIDATES) with (@None string) in E;
      [inversion E; split; reflexivity|].
    symmetry. apply match_tool_none. intros c n Hc Hn.
    apply (no_word_no_candidate "snapshot" SNAPSHOT_CANDIDATES);
      [apply SNAPSHOT_CANDIDATES_word | apply Hno; exact Hn | exact Hc].
Qed.
End MCPClientMore.

Lemma lower_upper_char (c : ascii) : lower_char (upper_char c) = lower_char c.
Proof. destruct c as [[] [] [] [] [] [] [] []]; reflexivity. Qed.

Lemma lower_lower_char (c : ascii) : lower_char (lower_char c) = lower_char c.
Proof. destruct c as [[] [] [] [] [] [] [] []]; reflexivity. Qed.

(** On ASCII text, [s.upper().lower() == s.lower()]; beyond ASCII
    Python's case mappings do not obey this law. *)
Lemma lower_upper_ascii (s : string) :
  isascii s = true -> lower (upper s) = lower s.
Proof.
  unfold lower, upper, isascii.
  induction s as [|c s IH]; cbn [str_map all_chars]; [reflexivity|].
  intros E. apply andb_true_iff in E as [_ E].
  rewrite lower_upper_char, (IH E). reflexivity.
Qed.

Lemma lower_lower_ascii (s : string) :
  isascii s = true -> lower (lower s) = lower s.
Proof.
  unfold lower, isascii.
  induction s as [|c s IH]; cbn [str_map all_chars]; [reflexivity|].
  intros E. apply andb_true_iff in E as [_ E].
  rewrite lower_lower_char, (IH E). reflexivity.
Qed.

Lemma match_candidates_fold (f : string -> string) names lows cands :
  (forall c, In c cands -> lower (f c) = lower c) ->
  match_candidates names lows (map f cands) = match_candidates names lows cands.
Proof.
  induction cands as [|c cs IH]; intros Hf; cbn [map match_candidates];
    [reflexivity|].
  rewrite (Hf c (or_introl eq_refl)), IH; [reflexivity|].
  intros c' Hc'. apply Hf. right. exact Hc'.
Qed.

(** X14.  For candidates written in ASCII, as every candidate list of
    the module is, tool-name resolution ignores their case: upper-casing
    or lower-casing every candidate changes nothing.  And whatever the
    candidates, the name returned is one of the discovered names, in
    its original spelling. *)
Theorem match_tool_ignores_candidate_case (names cands : list string) :
  (Forall (fun c => isascii c = true) cands ->
   _match_tool names (map upper cands) = _match_tool names cands
   /\ _match_tool names (map lower cands) = _match_tool names cands)
  /\ (forall n, _match_tool names cands = Some n -> In n names).
Proof.
  unfold _match_tool. split.
  - intros Hascii. rewrite Forall_forall in Hascii. split.
    + apply match_candidates_fold. intros c Hc.
      apply lower_upper_ascii. apply Hascii. exact Hc.
    + apply match_candidates_fold. intros c Hc.
      apply lower_lower_ascii. apply Hascii. exact Hc.
  - intros n E. apply (match_tool_some names cands n E).
Qed.

Lemma match_tool_ignores_candidate_case_witness :
  _match_tool ["Browser_Navigate"; "browser_snapshot"] (map upper NAVIGATE_CANDIDATES)
  = Some "Browser_Navigate".
Proof.
  rewrite (proj1 (proj1 (match_tool_ignores_candidate_case
                           ["Browser_Navigate"; "browser_snapshot"]
                           NAVIGATE_CANDIDATES)
                        ltac:(repeat constructor))).
  reflexivity.
Defined.

Lemma navigate_needs_a_navigate_tool_witness :
  navigate (W := Sim.sim) ["playwright_click"; "playwright_fill"] START_URL Sim.home
  = (Returns false, Sim.home).
Proof.
  apply (proj1 (navigate_needs_a_navigate_tool
                  (W := Sim.sim) ["playwright_click"; "playwright_fill"]
                  START_URL Sim.home)).
  intros n [<- | [<- | []]]; reflexivity.
Defined.

Lemma get_page_context_shape_witness :
  exists u els t,
    fst (get_page_context (W := Sim.sim)
           ["playwright_navigate"; "playwright_snapshot"] Sim.home_with_mcp)
    = Returns (JObject [ ("url", u); ("elements", els); ("testids", JArray []);
                         ("hints", JObject []); ("title", t) ]).
Proof.
  edestruct (get_page_context_shape
               (W := Sim.sim) ["playwright_navigate"; "playwright_snapshot"]
               Sim.home_with_mcp)
    as [[Hnull | (u & els & t & Hctx & _)] _]; [vm_compute; reflexivity | discriminate Hnull |].
  exists u, els, t. rewrite <- Hctx. reflexivity.
Defined.

(* ================================================================== *)
(** * Further properties of the page context builder *)
(* ================================================================== *)

Lemma walk_interactive : forall node, Forall interactive_element (walk node).
Proof.
  fix IH 1. intros [role name children]. cbn [walk]. apply Forall_app. split.
  - destruct (str_in role INTERACTIVE_ROLES) eqn:E; constructor; [|constructor].
    exists role, name. split; [reflexivity | apply str_in_In; exact E].
  - induction children as [|c cs IHcs]; cbn [flat_map]; [constructor|].
    apply Forall_app. split; [apply IH | exact IHcs].
Qed.

Section ContextMore.
Context {W : Type} `{Browser W} `{Host W} `{MCPTransport W}.

Lemma local_context_shape url w ctx w' :
  local_context url w = (Returns ctx, w') ->
  exists els ids b1 b2,
    ctx = JObject [ ("__source", JString "local"); ("url", JString url);
                    ("elements", JArray els); ("testids", ids);
                    ("hints", JObject [ ("has_search_box", JBool b1);
                                        ("has_submit_btn", JBool b2) ]) ]
    /\ Forall interactive_element els.
Proof.
  unfold local_context. intros E.
  apply bind_inv in E as (ax & w1 & _ & E).
  apply bind_inv in E as (ids & w2 & _ & E).
  apply bind_inv in E as (n1 & w3 & _ & E).
  apply bind_inv in E as (n2 & w4 & _ & E).
  inversion E. eexists _, _, _, _. split; [reflexivity|].
  destruct ax as [node|]; [apply walk_interactive | constructor].
Qed.

(** X15.  Whatever build_page_context returns is a dict tagged mcp or
    local.  Tagged mcp, its elements entry is non-empty.  Tagged local,
    it has exactly the keys __source, url, elements, testids and hints,
    its url is the page's URL at the time of the call, its hints are the
    two booleans has_search_box and has_submit_btn, and each of its
    elements is a role/name dict with one of the eight interactive
    roles. *)
Theorem build_page_context_tagged (w w' : W) (ctx : json) :
  build_page_context w = (Returns ctx, w') ->
  (exists d, ctx = JObject d
             /\ dict_get d "__source" = JString "mcp"
             /\ truthy (dict_get d "elements") = true)
  \/ (exists els ids b1 b2,
         ctx = JObject [ ("__source", JString "local");
                         ("url", JString (page_url w));
                         ("elements", JArray els); ("testids", ids);
                         ("hints", JObject [ ("has_search_box", JBool b1);
                                             ("has_submit_btn", JBool b2) ]) ]
         /\ Forall interactive_element els).
Proof.
  unfold build_page_context. intros E.
  apply bind_inv in E as (remote & w1 & Er & E).
  destruct remote as [data|].
  - left. inversion E. subst.
    unfold try_except, any_Exception, ret in Er.
    destruct (mcp_first (page_url w) w) as [[r|e] w2] eqn:Em; [|discriminate Er].
    inversion Er. subst. apply (mcp_first_some _ _ _ _ Em).
  - right. apply (local_context_shape _ _ _ _ E).
Qed.
End ContextMore.

Lemma build_page_context_tagged_witness :
  exists els ids b1 b2,
    fst (build_page_context Sim.home_with_mcp)
    = Returns (JObject [ ("__source", JString "local");
                         ("url", JString START_URL);
                         ("elements", JArray els); ("testids", ids);
                         ("hints", JObject [ ("has_search_box", JBool b1);
                                             ("has_submit_btn", JBool b2) ]) ])
    /\ Forall interactive_element els.
Proof.
  edestruct (build_page_context_tagged (W := Sim.sim) Sim.home_with_mcp)
    as [(d & Hd & Hsrc & _) | (els & ids & b1 & b2 & Hctx & Hels)];
    [vm_compute; reflexivity | | ].
  - inversion Hd. subst d. discriminate Hsrc.
  - exists els, ids, b1, b2. split; [|exact Hels].
    change (JString (page_url Sim.home_with_mcp)) with (JString START_URL) in Hctx.
    rewrite <- Hctx. reflexivity.
Defined.

(* ================================================================== *)
(** * Further properties of the keyword extractor *)
(* ================================================================== *)

Lemma dedupe_spec (l : list string) : forall seen,
  NoDup (map lower (dedupe seen l))
  /\ forall t, In t (dedupe seen l) -> In t l /\ ~ In (lower t) seen.
Proof.
  induction l as [|x l IH]; intros seen; cbn [dedupe].
  - split; [constructor | intros t []].
  - destruct (str_in (lower x) seen) eqn:E.
    + destruct (IH seen) as [Hnd Hin]. split; [exact Hnd|].
      intros t Ht. destruct (Hin t Ht). split; [right|]; assumption.
    + destruct (IH (lower x :: seen)) as [Hnd Hin]. split.
      * cbn [map]. constructor; [|exact Hnd].
        intros Hx. apply in_map_iff in Hx as (t & Ht & Hint).
        destruct (Hin t Hint) as [_ Hns]. apply Hns. left. symmetry. exact Ht.
      * intros t [<- | Ht].
        -- split; [left; reflexivity|]. intros Hs. apply str_in_In in Hs. congruence.
        -- destruct (Hin t Ht) as [Hl Hns]. split; [right; exact Hl|].
           intros Hs. apply Hns. right. exact Hs.
Qed.

Lemma In_firstn_keep {A} (x : A) (n : nat) (l : list A) :
  In x (firstn n l) -> In x l.
Proof.
  revert n. induction l as [|y l IH]; intros [|n]; cbn; try contradiction.
  intros [-> | Hx]; [left; reflexivity | right; eapply IH; exact Hx].
Qed.

Lemma NoDup_firstn_keep {A} (n : nat) (l : list A) : NoDup l -> NoDup (firstn n l).
Proof.
  revert n. induction l as [|x l IH]; intros [|n] Hnd; cbn; try constructor.
  - inversion Hnd; subst. intros Hx. apply In_firstn_keep in Hx. contradiction.
  - inversion Hnd; subst. apply IH. assumption.
Qed.

Lemma normalize_la_lower (t : string) :
  lower (if String.eqb (lower t) "la" then "LA" else t) = lower t.
Proof.
  destruct (String.eqb (lower t) "la") eqn:E; [|reflexivity].
  apply String.eqb_eq in E. rewrite E. reflexivity.
Qed.

Lemma keep_token_not_stop (t : string) :
  keep_token t = true -> str_in (lower t) STOP = false.
Proof. unfold keep_token. destruct (str_in (lower t) STOP); [discriminate | reflexivity]. Qed.

Lemma keep_token_short (t : string) :
  keep_token t = true ->
  (String.length t <= 2)%nat -> str_in (upper t) SHORT_KEEP = true.
Proof.
  unfold keep_token. destruct (str_in (lower t) STOP); [discriminate|].
  intros E Hlen. apply Nat.leb_le in Hlen. rewrite Hlen in E. cbn [andb] in E.
  destruct (str_in (upper t) SHORT_KEEP); [reflexivity | discriminate E].
Qed.

(** X16.  For every input the extractor keeps at most 5 tokens, no two
    of them equal up to case; any token spelled la in some case comes
    out as LA; every token is either one of the quoted phrases of the
    input or not a stopword; and a token of one or two characters is a
    quoted phrase or one of LA, PD and DPW up to case. *)
Theorem search_tokens_invariants (text : string) :
  (length (search_tokens text) <= 5)%nat
  /\ NoDup (map lower (search_tokens text))
  /\ (forall t, In t (search_tokens text) -> lower t = "la" -> t = "LA")
  /\ (forall t, In t (search_tokens text) ->
                str_in (lower t) STOP = false \/ In t (quoted_phrases text))
  /\ (forall t, In t (search_tokens text) -> (String.length t <= 2)%nat ->
                str_in (upper t) SHORT_KEEP = true \/ In t (quoted_phrases text)).
Proof.
  unfold search_tokens.
  set (s0 := strip (re_sub (Plus ws1) " " text)).
  fold (quoted_phrases text). fold s0.
  set (phr := quoted_phrases text).
  set (cleaned := filter keep_token
                    (map fst (re_findall RE_TOKEN
                                (re_sub RE_FILLER "" (re_sub RE_QUOTES "" s0))))).
  set (cleaned' := match phr with [] => cleaned | _ :: _ => cleaned ++ phr end).
  assert (Hc' : cleaned' = cleaned ++ phr).
  { unfold cleaned'. destruct phr; [rewrite app_nil_r|]; reflexivity. }
  set (dd := dedupe [] cleaned').
  set (cut := if (5 <? length dd)%nat then firstn 5 dd else dd).
  assert (Hcut_in : forall t, In t cut -> In t dd).
  { unfold cut. destruct (5 <? length dd)%nat; [intros t; apply In_firstn_keep | auto]. }
  assert (Hcut_len : (length cut <= 5)%nat).
  { unfold cut. destruct (5 <? length dd)%nat eqn:E.
    - rewrite length_firstn. lia.
    - apply Nat.ltb_ge in E. exact E. }
  assert (Hcut_nd : NoDup (map lower cut)).
  { unfold cut. destruct (5 <? length dd)%nat.
    - rewrite <- firstn_map. apply NoDup_firstn_keep. apply (dedupe_spec cleaned' []).
    - apply (dedupe_spec cleaned' []). }
  split; [rewrite length_map; exact Hcut_len|].
  split.
  { rewrite map_map. erewrite map_ext; [exact Hcut_nd|].
    intros t. apply normalize_la_lower. }
  split; [|split].
  - intros t Ht Hla. apply in_map_iff in Ht as (t0 & <- & _).
    destruct (String.eqb (lower t0) "la") eqn:E; [reflexivity|].
    apply String.eqb_neq in E. contradiction.
  - intros t Ht. apply in_map_iff in Ht as (t0 & <- & Ht0).
    apply Hcut_in in Ht0. apply (dedupe_spec cleaned' []) in Ht0 as [Ht0 _].
    rewrite Hc' in Ht0. apply in_app_or in Ht0 as [Hcl | Hph].
    + left. rewrite normalize_la_lower. apply keep_token_not_stop.
      unfold cleaned in Hcl. apply filter_In in Hcl. apply Hcl.
    + destruct (String.eqb (lower t0) "la") eqn:E; [left; reflexivity | right; exact Hph].
  - intros t Ht. apply in_map_iff in Ht as (t0 & <- & Ht0).
    apply Hcut_in in Ht0. apply (dedupe_spec cleaned' []) in Ht0 as [Ht0 _].
    rewrite Hc' in Ht0.
    destruct (String.eqb (lower t0) "la") eqn:E; [intros _; left; reflexivity|].
    intros Hlen. apply in_app_or in Ht0 as [Hcl | Hph]; [left | right; exact Hph].
    apply keep_token_short; [|exact Hlen].
    unfold cleaned in Hcl. apply filter_In in Hcl. apply Hcl.
Qed.

(* ================================================================== *)
(** * Further properties of the orchestration flow *)
(* ================================================================== *)

Lemma absolutize_http (h : string) : startswith (absolutize h) "http" = true.
Proof.
  unfold absolutize. destruct (startswith h "http") eqn:E; [exact E | reflexivity].
Qed.

Lemma hit_of_result_good (result : dict) (h : hit) :
  hit_of_result result = Some h -> good_hit h.
Proof.
  unfold hit_of_result.
  destruct (truthy (dict_get result "extracted")); [|discriminate].
  destruct (dict_get result "extracted") as [| | | | | |e]; try discriminate.
  destruct (dict_get e "text") as [| | | |t| |]; try discriminate.
  destruct (dict_get e "href") as [| | | |r| |]; try discriminate.
  destruct (String.eqb t "") eqn:Et; [discriminate|].
  destruct (String.eqb r "") eqn:Er; [discriminate|].
  cbn [negb andb]. intros [= <-]. split; cbn [title url].
  - apply String.eqb_neq. exact Et.
  - apply absolutize_http.
Qed.

(** Whatever the planner returns has passed validation. *)
Lemma plan_actions_valid {W : Type} `{Host W} goal context (w w' : W) plan meta :
  plan_actions_via_llm_mcp goal context w = (Returns (plan, meta), w') ->
  validate plan = Returns tt.
Proof.
  unfold plan_actions_via_llm_mcp. intros E.
  apply bind_inv in E as (tried & w1 & Et & E).
  destruct (_try_gemini_plan_complete goal context w) as (r & w2 & Er & Hr).
  rewrite Et in Er. inversion Er. subst r w2.
  destruct tried as [[p m]|].
  - destruct (Hr p m eq_refl) as [Hv _].
    unfold try_except, bind, lift, ret in E. rewrite Hv in E. inversion E. subst. exact Hv.
  - destruct (fallback_plan_complete goal context) as [Hv _].
    unfold try_except, bind, lift, ret in E. rewrite Hv in E. inversion E. subst. exact Hv.
Qed.

Section OrchestrationMore.
Context {W : Type} `{Browser W} `{Host W} `{MCPTransport W}.

Lemma run_step_total (use_mcp_reread : bool) (fh : option hit) (d : dict) (w : W) :
  good_first_hit fh ->
  exists fh' w', run_step use_mcp_reread fh (JObject d) w = (Returns fh', w')
                 /\ good_first_hit fh'.
Proof.
  intros Hfh. unfold run_step.
  destruct (try_except_total (result <- execute_steps [d] ;; ret (Some result))
                             (fun _ => None) w) as (r & w1 & Er).
  rewrite (bind_returns _ _ _ _ _ Er).
  destruct r as [result|]; [|exists fh, w1; split; [reflexivity | exact Hfh]].
  assert (Hfh' : good_first_hit (match hit_of_result result with
                                 | Some h => Some h
                                 | None => fh
                                 end)).
  { destruct (hit_of_result result) as [h|] eqn:Eh; [|exact Hfh].
    apply (hit_of_result_good _ _ Eh). }
  destruct (use_mcp_reread && hashable (dict_get d "action")
            && is_reread_action (dict_get d "action")).
  - destruct (try_except_total (page_wait_for_load_state 5000) (fun _ => tt) w1)
      as (u & w2 & Eu).
    rewrite (bind_returns _ _ _ _ _ Eu). eexists _, w2. split; [reflexivity | exact Hfh'].
  - eexists _, w1. split; [reflexivity | exact Hfh'].
Qed.

Lemma run_steps_total (use_mcp_reread : bool) (items : list json) :
  Forall valid_step items ->
  forall (fh : option hit) (w : W),
    good_first_hit fh ->
    exists fh' w', run_steps use_mcp_reread fh items w = (Returns fh', w')
                   /\ good_first_hit fh'.
Proof.
  induction 1 as [|item items Hitem _ IH]; intros fh w Hfh.
  - exists fh, w. split; [reflexivity | exact Hfh].
  - destruct Hitem as (d & a & -> & _).
    destruct (run_step_total use_mcp_reread fh d w Hfh) as (fh1 & w1 & E1 & Hfh1).
    cbn [run_steps]. rewrite (bind_returns _ _ _ _ _ E1). apply IH. exact Hfh1.
Qed.

(** X17.  The step loop of run_goal contains every failure of a step:
    for a schema-valid plan, whatever the page does, iterating its steps
    never raises, and the first_hit it leaves is None or has a non-empty
    title and an absolute URL. *)
Theorem run_steps_never_raises (use_mcp_reread : bool) (plan : json) (w : W) :
  validate plan = Returns tt ->
  exists items fh w',
    py_iter plan = Returns items
    /\ run_steps use_mcp_reread None items w = (Returns fh, w')
    /\ good_first_hit fh.
Proof.
  intros Hv. apply validate_valid_steps in Hv as (l & -> & Hl).
  destruct (run_steps_total use_mcp_reread l Hl None w I) as (fh & w' & E & Hfh).
  exists l, fh, w'. split; [reflexivity | split; assumption].
Qed.

Lemma collect_good (anchors : list locator) : forall results w rs w',
  Forall good_hit results ->
  collect anchors results w = (Returns rs, w') ->
  Forall good_hit rs /\ (length rs <= length results + length anchors)%nat.
Proof.
  induction anchors as [|a anchors IH]; intros results w rs w' Hres E.
  - inversion E. subst. split; [exact Hres | lia].
  - cbn [collect] in E. apply bind_inv in E as (item & w1 & Ei & E).
    assert (Hitem : match item with Some h => good_hit h | None => True end).
    { unfold try_except, any_Exception, ret in Ei.
      match type of Ei with
      | (let (_, _) := ?m w in _) = _ => destruct (m w) as [[x|e] w2] eqn:Em
      | match ?m w with _ => _ end = _ => destruct (m w) as [[x|e] w2] eqn:Em
      end; [|inversion Ei; exact I].
      inversion Ei. subst.
      apply bind_inv in Em as (txt & w3 & _ & Em).
      apply bind_inv in Em as (href & w4 & _ & Em).
      destruct href as [h|]; [|inversion Em; exact I].
      destruct (String.eqb (replace_char LF SP (strip txt)) "") eqn:Et;
        [inversion Em; exact I|].
      destruct (String.eqb h "") eqn:Eh; [inversion Em; exact I|].
      cbn [orb] in Em. inversion Em. split; cbn [title url].
      - apply String.eqb_neq. exact Et.
      - apply absolutize_http. }
    apply IH in E.
    + destruct E as [Hg Hl]. split; [exact Hg|].
      destruct item; [rewrite length_app in Hl|]; cbn [length] in *; lia.
    + destruct item as [h|]; [|exact Hres].
      apply Forall_app. split; [exact Hres | constructor; [exact Hitem | constructor]].
Qed.

Lemma firstn_Forall_keep {A} (P : A -> Prop) (n : nat) (l : list A) :
  Forall P l -> Forall P (firstn n l).
Proof.
  intros Hl. apply Forall_forall. intros x Hx. apply In_firstn_keep in Hx.
  rewrite Forall_forall in Hl. apply Hl. exact Hx.
Qed.

Lemma flow_results_good goal debug use_mcp_reread w rs w' :
  flow goal debug use_mcp_reread w = (Returns rs, w') ->
  (length rs <= 10)%nat /\ Forall good_hit rs.
Proof.
  unfold flow. intros E.
  apply bind_inv in E as (u1 & w1 & _ & E).
  apply bind_inv in E as (context & w2 & _ & E).
  apply bind_inv in E as (elements & w3 & _ & E).
  apply bind_inv in E as (n & w4 & _ & E).
  apply bind_inv in E as (u2 & w5 & _ & E).
  apply bind_inv in E as ([steps meta] & w6 & Ep & E).
  apply bind_inv in E as (n2 & w7 & _ & E).
  apply bind_inv in E as (u3 & w8 & _ & E).
  apply bind_inv in E as (items & w9 & Ei & E).
  apply bind_inv in E as (first_hit & w10 & Er & E).
  apply bind_inv in E as (u4 & w11 & _ & E).
  apply bind_inv in E as (u5 & w12 & _ & E).
  apply bind_inv in E as (anchors & w13 & _ & E).
  apply bind_inv in E as (results & w14 & Ec & E).
  assert (Hfh : good_first_hit first_hit).
  { apply plan_actions_valid in Ep. apply validate_valid_steps in Ep as (l & -> & Hl).
    unfold lift in Ei. cbn [py_iter] in Ei. inversion Ei. subst items w9.
    destruct (run_steps_total use_mcp_reread l Hl None w8 I) as (fh & w10' & Er' & Hfh).
    rewrite Er in Er'. inversion Er'. subst. exact Hfh. }
  apply collect_good in Ec as [Hg Hl]; [|constructor].
  rewrite length_firstn in Hl. cbn [length] in Hl.
  set (results' :=
         match first_hit with
         | Some fh =>
             if forallb (fun r => negb (String.eqb (url fh) (url r))) results
             then firstn 10 (fh :: results) else results
         | None => results
         end) in E.
  assert (Hr' : (length results' <= 10)%nat /\ Forall good_hit results').
  { unfold results'. destruct first_hit as [fh|]; [|split; [lia | exact Hg]].
    destruct (forallb _ results); [|split; [lia | exact Hg]].
    split; [rewrite length_firstn; lia|].
    apply firstn_Forall_keep. constructor; [exact Hfh | exact Hg]. }
  destruct results' as [|r0 rest0] eqn:Eres.
  - unfold try_except, any_Exception, ret in E.
    match type of E with
    | (let (_, _) := ?m w14 in _) = _ => destruct (m w14) as [[x|e] w15] eqn:Em
    | match ?m w14 with _ => _ end = _ => destruct (m w14) as [[x|e] w15] eqn:Em
    end; [|inversion E; split; [cbn; lia | constructor]].
    inversion E. subst x w15.
    apply bind_inv in Em as ([t u] & w16 & Ex & Em).
    destruct (String.eqb t "") eqn:Et; [inversion Em; split; [cbn; lia | constructor]|].
    destruct (String.eqb u "") eqn:Eu; [inversion Em; split; [cbn; lia | constructor]|].
    cbn [negb andb] in Em. inversion Em. split; [cbn; lia|].
    constructor; [|constructor]. split; cbn [title url].
    + apply String.eqb_neq. exact Et.
    + unfold extract_first_result in Ex.
      apply bind_inv in Ex as (u6 & w17 & _ & Ex).
      apply bind_inv in Ex as (txt & w18 & _ & Ex).
      apply bind_inv in Ex as (href & w19 & _ & Ex).
      destruct href as [h|].
      * destruct (String.eqb h ""); inversion Ex; subst;
          [rewrite String.eqb_refl in Eu; discriminate | apply absolutize_http].
      * inversion Ex. subst. rewrite String.eqb_refl in Eu. discriminate.
  - inversion E. subst. exact Hr'.
Qed.

(** X18.  Whatever run_goal returns is a list of at most 10 items, each
    with a non-empty title and an absolute URL (one that starts with
    http). *)
Theorem run_goal_results_wellformed
        (goal : string) (debug use_mcp_reread : bool) (w w' : W) (rs : list hit) :
  run_goal goal debug use_mcp_reread w = (Returns rs, w') ->
  (length rs <= 10)%nat /\ Forall good_hit rs.
Proof.
  unfold run_goal. intros E.
  apply bind_inv in E as (u & w1 & _ & E).
  unfold try_finally in E at 1.
  destruct ((chromium_launch;;; browser_new_page;;;
             guarded_flow goal debug use_mcp_reread) w1) as [o w2] eqn:Eb.
  destruct (sync_playwright_exit w2) as [[u2|e] w3]; [|discriminate E].
  inversion E. subst o w3. clear E.
  apply bind_inv in Eb as (u3 & w4 & _ & Eb).
  apply bind_inv in Eb as (u4 & w5 & _ & Eb).
  unfold guarded_flow, try_finally, try_except2 in Eb.
  destruct (flow goal debug use_mcp_reread w5) as [[r|e] w6] eqn:Ef.
  - destruct (browser_close w6) as [[u5|e] w7]; [|discriminate Eb].
    inversion Eb. subst. apply (flow_results_good _ _ _ _ _ _ Ef).
  - unfold any_Exception, ret in Eb.
    destruct (is_PWTimeout e); destruct (browser_close w6) as [[u5|e'] w7];
      try discriminate Eb; inversion Eb; subst; split; try constructor; cbn; lia.
Qed.
End OrchestrationMore.

Lemma run_steps_never_raises_witness :
  exists fh w',
    run_steps true None
      [JObject SimX.step_press_missing; JObject Sim.step_extract] Sim.home
    = (Returns fh, w')
    /\ good_first_hit fh.
Proof.
  edestruct (run_steps_never_raises
               (W := Sim.sim) true
               (JArray [JObject SimX.step_press_missing; JObject Sim.step_extract])
               Sim.home)
    as (items & fh & w' & Ei & Er & Hfh); [reflexivity|].
  inversion Ei. subst items. exists fh, w'. split; assumption.
Defined.

Lemma run_goal_results_wellformed_witness :
  Forall good_hit
    [ {| title := "Crime Data from 2020 to Present";
         url := "https://data.lacity.org/d/2nrs-mtv8" |};
      {| title := "Arrest Data"; url := "https://data.lacity.org/d/amvf-fr72" |} ].
Proof.
  eapply (fun w' rs E =>
            proj2 (run_goal_results_wellformed
                     (W := Sim.sim) GOAL_CRIMES false true Sim.home w' rs E)).
  vm_compute. reflexivity.
Defined.

(* ================================================================== *)
(** * Properties of main.py *)
(* ================================================================== *)

Section MainScriptFacts.
Context {W : Type} `{Browser W} `{Host W} `{MCPTransport W} `{Desk W}.

(** X19.  first_visible hands back None or the first-match locator of
    one of the selectors it was given, None at once for an empty list;
    it never raises a Playwright timeout (those mean: try the next
    selector), only other errors of the page. *)
Theorem first_visible_among_candidates (selectors : list string) (t : Z) :
  forall (w : W),
    match first_visible selectors t w with
    | (Returns None, _) => True
    | (Returns (Some loc), _) =>
        exists sel, In sel selectors /\ loc = loc_first (page_locator (JString sel))
    | (Raises e, _) => is_PWTimeout e = false /\ selectors <> []
    end.
Proof.
  induction selectors as [|sel rest IH]; intros w; [exact I|].
  cbn [first_visible]. unfold bind at 1. unfold try_except.
  destruct ((loc_wait_for (loc_first (page_locator (JString sel))) (JInt t);;;
             ret (Some (loc_first (page_locator (JString sel))))) w)
    as [[r|e] w1] eqn:E.
  - apply bind_inv in E as (u & w2 & _ & E). inversion E. subst.
    exists sel. split; [left; reflexivity | reflexivity].
  - destruct (is_PWTimeout e) eqn:Et.
    + cbn [ret]. specialize (IH w1).
      destruct (first_visible rest t w1) as [[[loc|]|e'] w2].
      * destruct IH as (s & Hs & Hl). exists s. split; [right; exact Hs | exact Hl].
      * exact I.
      * split; [apply IH | discriminate].
    + split; [exact Et | discriminate].
Qed.



Lemma exec_any_objects (steps : list dict) : forall result (w : W),
  exec_any (map JObject steps) result w = exec_loop steps result w.
Proof.
  induction steps as [|step rest IH]; intros result w; [reflexivity|].
  pose proof (exec_loop_app [step] rest result w) as Ha. cbn [app] in Ha.
  rewrite Ha. cbn [map exec_any]. unfold bind, dict in *.
  destruct (exec_loop [step] result w) as [[r|e] w1]; [apply IH | reflexivity].
Qed.

Lemma run_ai_body_never_returns (goal : string) (w : W) :
  exists e w', run_ai_body goal w = (Raises e, w').
Proof.
  unfold run_ai_body.
  destruct (open_portal START_URL w) as [[u|e] w1] eqn:E1;
    [rewrite (bind_returns _ _ _ _ _ E1) | rewrite (bind_raises _ _ _ _ _ E1); eauto].
  destruct (build_page_context w1) as [[context|e] w2] eqn:E2;
    [rewrite (bind_returns _ _ _ _ _ E2) | rewrite (bind_raises _ _ _ _ _ E2); eauto].
  destruct (plan_actions_via_llm_mcp goal context w2) as [[[plan meta]|e] w3] eqn:E3;
    [rewrite (bind_returns _ _ _ _ _ E3) | rewrite (bind_raises _ _ _ _ _ E3); eauto].
  apply plan_actions_valid in E3. apply validate_inv in E3 as (l & ->).
  exists AttributeError, w3. reflexivity.
Qed.

(** X21.  run_ai never reports success: it passes the (plan, meta) pair
    the planner returns straight to execute_steps, whose first step is
    then the plan list itself, so the call fails with AttributeError at
    the latest; whatever run_ai returns has status timeout or error. *)
Theorem run_ai_never_succeeds (goal : string) (w w' : W) (r : dict) :
  run_ai goal w = (Returns r, w') ->
  dict_get r "status" = JString "timeout" \/ dict_get r "status" = JString "error".
Proof.
  unfold run_ai. intros E.
  apply bind_inv in E as (u & w1 & _ & E).
  unfold try_finally in E at 1.
  match type of E with
  | (let (_, _) := ?m w1 in _) = _ => destruct (m w1) as [o w2] eqn:Eb
  end.
  destruct (sync_playwright_exit w2) as [[u2|e] w3]; [|discriminate E].
  inversion E. subst o w3. clear E.
  apply bind_inv in Eb as (u3 & w4 & _ & Eb).
  apply bind_inv in Eb as (u4 & w5 & _ & Eb).
  unfold try_finally in Eb.
  destruct (run_ai_body_never_returns goal w5) as (e & w6 & Ebody).
  rewrite Ebody in Eb.
  destruct (is_PWTimeout e).
  - destruct ((save_debug "timeout_ai";;; ret _) w6) as [[r'|e'] w7] eqn:Es.
    + apply bind_inv in Es as (u5 & w8 & _ & Es). inversion Es. subst.
      destruct (browser_close w7) as [[u6|e''] w9]; [|discriminate Eb].
      inversion Eb. left. reflexivity.
    + destruct (browser_close w7) as [[u6|e''] w9]; discriminate Eb.
  - destruct ((save_debug "error_ai";;; ret _) w6) as [[r'|e'] w7] eqn:Es.
    + apply bind_inv in Es as (u5 & w8 & _ & Es). inversion Es. subst.
      destruct (browser_close w7) as [[u6|e''] w9]; [|discriminate Eb].
      inversion Eb. right. reflexivity.
    + destruct (browser_close w7) as [[u6|e''] w9]; discriminate Eb.
Qed.
End MainScriptFacts.

Lemma run_ai_never_succeeds_witness :
  dict_get (match fst (run_ai "crimes" Sim.home) with
            | Returns r => r
            | Raises _ => []
            end) "status" = JString "error".
Proof.
  edestruct (run_ai_never_succeeds (W := Sim.sim) "crimes" Sim.home) as [Ht | He];
    [vm_compute; reflexivity | discriminate Ht | ].
  vm_compute. reflexivity.
Defined.

(* ================================================================== *)
(** * Properties of the tool server *)
(* ================================================================== *)

Lemma server_walk_elements : forall node, Forall server_element (server_walk node).
Proof.
  fix IH 1. intros [role name children]. cbn [server_walk]. apply Forall_app. split.
  - destruct (str_in role SERVER_ROLES) eqn:E; constructor; [|constructor].
    exists role, (name_or_empty name). split; [reflexivity|].
    split; [apply str_in_In; exact E|].
    unfold name_or_empty. destruct (truthy name) eqn:Et; [|discriminate].
    intros ->. discriminate Et.
  - induction children as [|c cs IHcs]; cbn [flat_map]; [constructor|].
    apply Forall_app. split; [apply IH | exact IHcs].
Qed.

Section ServerFacts.
Context {W : Type} `{ServerDriver W}.

Lemma dispatch_unknown (name : string) (arguments : json) :
  str_in name SERVER_TOOLS = false ->
  dispatch name arguments = raise ValueError.
Proof.
  unfold str_in, SERVER_TOOLS. cbn [existsb]. rewrite !orb_false_iff.
  intros (E1 & E2 & E3 & E4 & _). unfold dispatch.
  rewrite E1, E2, E3, E4. reflexivity.
Qed.

(** X22.  call_tool never raises: whatever the tool does it returns
    exactly one text item, the dump of the tool's result or of an
    error/trace payload.  For a name that is none of the four tools the
    item is the payload of a ValueError, and neither the server object
    nor the browser is touched. *)
Theorem call_tool_never_raises (name : string) (arguments : json)
        (sw : server * W) :
  exists text sw',
    call_tool name arguments sw = (Returns [text], sw')
    /\ (str_in name SERVER_TOOLS = false ->
        sw' = sw
        /\ text = json_dumps (JObject [ ("error", JString (str_of_exn ValueError));
                                        ("trace", JString (format_exc ValueError)) ])).
Proof.
  unfold call_tool, try_except, any_Exception.
  destruct ((result <- dispatch name arguments;; ret [json_dumps result]) sw)
    as [[r|e] sw1] eqn:E.
  - apply bind_inv in E as (result & sw2 & Ed & E). inversion E. subst.
    eexists _, _. split; [reflexivity|].
    intros Hn. rewrite (dispatch_unknown _ _ Hn) in Ed. discriminate Ed.
  - eexists _, _. split; [reflexivity|].
    intros Hn. rewrite (dispatch_unknown _ _ Hn) in E.
    unfold bind, raise in E. inversion E. subst. split; reflexivity.
Qed.

Lemma on_driver_returns {A} (m : M W A) (s : server) (w w1 : W) (a : A) :
  m w = (Returns a, w1) -> on_driver m (s, w) = (Returns a, (s, w1)).
Proof. intros E. unfold on_driver. cbn [fst snd]. rewrite E. reflexivity. Qed.

Lemma on_driver_raises {A} (m : M W A) (s : server) (w w1 : W) (e : exn) :
  m w = (Raises e, w1) -> on_driver m (s, w) = (Raises e, (s, w1)).
Proof. intros E. unfold on_driver. cbn [fst snd]. rewrite E. reflexivity. Qed.

Lemma assign_returns (f : server -> server) (s : server) (w : W) :
  assign f (s, w) = (Returns tt, (f s, w)).
Proof. reflexivity. Qed.

Lemma start_browser_started (s : server) (w : W) :
  has_browser s = true -> start_browser (s, w) = (Returns tt, (s, w)).
Proof.
  intros Hb. unfold start_browser, bind, self. cbn [fst snd]. rewrite Hb. reflexivity.
Qed.

Lemma on_self_page_none {A} (m : M W A) (s : server) (w : W) :
  has_page s = false -> on_self_page m (s, w) = (Raises AttributeError, (s, w)).
Proof.
  intros Hp. unfold on_self_page, bind, self. cbn [fst snd]. rewrite Hp. reflexivity.
Qed.

(** X23.  The browser is started at most once: with self.browser set,
    start_browser does nothing.  So when the very first start gets as
    far as launching the browser and new_page then fails, the server is
    left with a browser and no page, and stays so: from then on navigate,
    click and fill raise AttributeError and get_snapshot raises
    RuntimeError, without another call reaching the browser. *)
Theorem failed_new_page_wedges_server (s : server) (w w1 w2 w3 : W) (e : exn) :
  has_browser s = false ->
  has_page s = false ->
  async_playwright_start w = (Returns tt, w1) ->
  srv_launch HEADLESS w1 = (Returns tt, w2) ->
  srv_new_page w2 = (Raises e, w3) ->
  exists s',
    start_browser (s, w) = (Raises e, (s', w3))
    /\ has_browser s' = true /\ has_page s' = false
    /\ forall (v : W) (a b : json),
         start_browser (s', v) = (Returns tt, (s', v))
         /\ srv_navigate a (s', v) = (Raises AttributeError, (s', v))
         /\ srv_do_click a (s', v) = (Raises AttributeError, (s', v))
         /\ srv_fill a b (s', v) = (Raises AttributeError, (s', v))
         /\ get_snapshot (s', v) = (Raises RuntimeError, (s', v)).
Proof.
  intros Hb Hp E1 E2 E3.
  exists {| has_playwright := true; has_browser := true; has_page := has_page s |}.
  split; [|split; [reflexivity | split; [exact Hp|]]].
  - unfold start_browser.
    rewrite (bind_returns self _ (s, w) s (s, w) eq_refl), Hb.
    rewrite (bind_returns _ _ _ _ _ (on_driver_returns _ s _ _ _ E1)).
    rewrite (bind_returns _ _ _ _ _ (assign_returns _ _ _)).
    rewrite (bind_returns _ _ _ _ _ (on_driver_returns _ _ _ _ _ E2)).
    rewrite (bind_returns _ _ _ _ _ (assign_returns _ _ _)).
    rewrite (bind_raises _ _ _ _ _ (on_driver_raises _ _ _ _ _ E3)).
    cbn [has_playwright has_browser has_page]. reflexivity.
  - intros v a b.
    set (s' := {| has_playwright := true; has_browser := true; has_page := has_page s |}).
    assert (Hb' : has_browser s' = true) by reflexivity.
    assert (Hp' : has_page s' = false) by exact Hp.
    pose proof (start_browser_started s' v Hb') as Hs.
    split; [exact Hs|].
    split; [|split; [|split]].
    + unfold srv_navigate. rewrite (bind_returns _ _ _ _ _ Hs).
      apply bind_raises. apply on_self_page_none. exact Hp'.
    + unfold srv_do_click. rewrite (bind_returns _ _ _ _ _ Hs).
      apply bind_raises. apply on_self_page_none. exact Hp'.
    + unfold srv_fill. rewrite (bind_returns _ _ _ _ _ Hs).
      apply bind_raises. apply on_self_page_none. exact Hp'.
    + unfold get_snapshot. rewrite (bind_returns _ _ _ _ _ Hs).
      unfold bind at 1. unfold try_except at 1.
      rewrite (on_self_page_none _ _ _ Hp'). unfold any_Exception, ret.
      unfold bind at 1. unfold try_except at 1. unfold bind at 1.
      rewrite (on_self_page_none _ _ _ Hp'). reflexivity.
Qed.

Lemma snapshot_fallback_shape (e : exn) (sw sw' : server * W) (ctx : json) :
  snapshot_fallback e sw = (Returns ctx, sw') ->
  exists d els,
    ctx = JObject d
    /\ dict_find d "warning" <> None
    /\ dict_get d "elements" = JArray els
    /\ dict_get d "element_count" = JInt (Z.of_nat (length els))
    /\ Forall server_element els.
Proof.
  unfold snapshot_fallback. intros E.
  apply bind_inv in E as (r & sw1 & _ & E).
  destruct r as [ax_e | ax].
  - apply bind_inv in E as (cur & sw2 & _ & E).
    apply bind_inv in E as (t & sw3 & _ & E).
    inversion E. eexists _, []. split; [reflexivity|].
    repeat split; try discriminate; constructor.
  - apply bind_inv in E as (cur & sw2 & _ & E).
    apply bind_inv in E as (t & sw3 & _ & E).
    inversion E. eexists _, _. split; [reflexivity|].
    split; [discriminate|]. split; [reflexivity|]. split; [reflexivity|].
    destruct ax as [n|]; [apply server_walk_elements | constructor].
Qed.

Lemma snapshot_rich_shape (sw sw' : server * W) (ctx : json) :
  snapshot_rich sw = (Returns ctx, sw') ->
  exists d, ctx = JObject d
            /\ dict_keys d = ["url"; "title"; "elements"; "element_count"; "recommended"].
Proof.
  unfold snapshot_rich. intros E.
  apply bind_inv in E as (data & sw1 & _ & E).
  destruct data as [| | | | | |d]; try discriminate E.
  apply bind_inv in E as (u & sw2 & _ & E).
  apply bind_inv in E as (t & sw3 & _ & E).
  inversion E. eexists. split; reflexivity.
Qed.

(** X24.  What get_snapshot returns is a dict of one of two kinds: the
    rich scan's, with exactly the keys url, title, elements,
    element_count and recommended and no warning; or a degraded one that
    carries a warning, whose elements are role/name dicts with one of
    the server's seven roles and a name that is never None, and whose
    element_count is their number.  When the title probe fails it
    returns nothing: it raises RuntimeError. *)
Theorem get_snapshot_shapes (sw : server * W) :
  match get_snapshot sw with
  | (Returns ctx, _) =>
      exists d, ctx = JObject d
        /\ ((dict_keys d = ["url"; "title"; "elements"; "element_count"; "recommended"])
            \/ (exists els,
                   dict_find d "warning" <> None
                   /\ dict_get d "elements" = JArray els
                   /\ dict_get d "element_count" = JInt (Z.of_nat (length els))
                   /\ Forall server_element els))
  | (Raises e, _) => True
  end
  /\ (forall sw1 sw2 sw3 e,
         start_browser sw = (Returns tt, sw1) ->
         try_except (on_self_page (srv_wait_for_load_state 10000))
                    any_Exception (fun _ => ret tt) sw1 = (Returns tt, sw2) ->
         on_self_page (srv_evaluate TITLE_PROBE) sw2 = (Raises e, sw3) ->
         get_snapshot sw = (Raises RuntimeError, sw3)).
Proof.
  split.
  - destruct (get_snapshot sw) as [[ctx|e] sw'] eqn:E; [|exact I].
    unfold get_snapshot in E.
    apply bind_inv in E as (u1 & sw1 & _ & E).
    apply bind_inv in E as (u2 & sw2 & _ & E).
    apply bind_inv in E as (u3 & sw3 & _ & E).
    unfold try_except, any_Exception in E.
    destruct (snapshot_rich sw3) as [[c|e] sw4] eqn:Er.
    + inversion E. subst. destruct (snapshot_rich_shape _ _ _ Er) as (d & -> & Hk).
      exists d. split; [reflexivity | left; exact Hk].
    + destruct (snapshot_fallback_shape _ _ _ _ E) as (d & els & -> & Hrest).
      exists d. split; [reflexivity | right; exists els; exact Hrest].
  - intros sw1 sw2 sw3 e E1 E2 E3. unfold get_snapshot.
    rewrite (bind_returns _ _ _ _ _ E1), (bind_returns _ _ _ _ _ E2).
    apply bind_raises. unfold try_except, any_Exception.
    rewrite (bind_raises _ _ _ _ _ E3). reflexivity.
Qed.

End ServerFacts.

Lemma call_tool_never_raises_witness :
  call_tool (W := Sim.sim) "playwright_hover" (JObject []) (fresh_server, Sim.home)
  = (Returns ["{error}"], (fresh_server, Sim.home)).
Proof.
  destruct (call_tool_never_raises (W := Sim.sim) "playwright_hover" (JObject [])
              (fresh_server, Sim.home)) as (text & sw' & E & Hunk).
  destruct (Hunk eq_refl) as [-> ->]. exact E.
Defined.

Lemma failed_new_page_wedges_server_witness :
  exists s',
    fst (start_browser (W := Sim.sim) (fresh_server, Sim.home_crashed)) = Raises PWError
    /\ has_browser s' = true /\ has_page s' = false
    /\ srv_navigate (W := Sim.sim) (JString START_URL) (s', Sim.home)
       = (Raises AttributeError, (s', Sim.home)).
Proof.
  edestruct (failed_new_page_wedges_server
               (W := Sim.sim) fresh_server Sim.home_crashed)
    as (s' & Es & Hb & Hp & Hafter);
    [reflexivity | reflexivity | reflexivity | reflexivity | reflexivity |].
  exists s'. split; [rewrite Es; reflexivity|]. split; [exact Hb|]. split; [exact Hp|].
  apply (Hafter Sim.home (JString START_URL) JNull).
Defined.

Lemma get_snapshot_shapes_witness :
  get_snapshot (W := Sim.sim) (SimX.started, Sim.home_crashed)
  = (Raises RuntimeError,
     (SimX.started,
      Sim.note Sim.EvEval (Sim.note (Sim.EvLoadState 10000) Sim.home_crashed))).
Proof.
  eapply (proj2 (get_snapshot_shapes (W := Sim.sim) (SimX.started, Sim.home_crashed)));
    reflexivity.
Defined.

(* ================================================================== *)
(** * More on the context builder, the executor and the planner *)
(* ================================================================== *)

Section RemoteDisabled.
Context {W : Type} `{Browser W} `{Host W} `{MCPTransport W}.

(** X25.  With MCP_PLAYWRIGHT_CMD unset or empty the remote path is
    switched off: no MCP session is opened and build_page_context is
    exactly the local introspection of the page. *)
Theorem no_mcp_command_means_local (w w1 : W) :
  import_mcp_client w = (Returns tt, w1) ->
  os_getenv "MCP_PLAYWRIGHT_CMD" w1 = None
  \/ os_getenv "MCP_PLAYWRIGHT_CMD" w1 = Some "" ->
  build_page_context w = local_context (page_url w) w1.
Proof.
  intros Ei Hc.
  assert (Em : mcp_first (page_url w) w = (Returns None, w1)).
  { unfold mcp_first. rewrite (bind_returns _ _ _ _ _ Ei).
    assert (Eb : build_playwright_mcp w1 = (Returns None, w1)).
    { unfold build_playwright_mcp, _get_config_from_env.
      destruct Hc as [-> | ->]; reflexivity. }
    rewrite (bind_returns _ _ _ _ _ Eb). reflexivity. }
  unfold build_page_context, bind, try_except. rewrite Em. reflexivity.
Qed.
End RemoteDisabled.

Section SettleWait.
Context {W : Type} `{Browser W}.

(** X26.  After a click step, whatever the click itself did, the
    executor waits for the page to settle: a timeout of that wait is
    swallowed and the plan goes on, any other error of it aborts the
    plan and is raised to the caller. *)
Theorem click_settle_wait (step : dict) (rest : list dict) (result : dict)
        (w w1 w2 : W) (clicked settled : outcome unit) :
  dict_get step "action" = JString "click" ->
  _do_click step w = (clicked, w1) ->
  page_wait_for_load_state 15000 w1 = (settled, w2) ->
  exec_loop (step :: rest) result w =
  match settled with
  | Returns _ => exec_loop rest result w2
  | Raises e => if is_PWTimeout e then exec_loop rest result w2 else (Raises e, w2)
  end.
Proof.
  intros Ea Ec Es.
  rewrite (exec_loop_mapped step rest result "click" _do_click Ea);
    [| discriminate | reflexivity | reflexivity].
  unfold bind at 1. unfold try_except at 1. rewrite Ec.
  assert (Hfirst : (match clicked with
                    | Returns a => (Returns a, w1)
                    | Raises e => if true then (if is_PWTimeout e then raise e else ret tt) w1
                                  else (Raises e, w1)
                    end) = (Returns tt, w1)).
  { destruct clicked as [[]|e]; [reflexivity|].
    unfold _do_click, retry in Ec. rewrite (retry_from_not_timeout _ _ _ _ _ _ _ Ec).
    reflexivity. }
  rewrite Hfirst.
  cbn [is_navigation eq_str String.eqb Ascii.eqb Bool.eqb orb].
  unfold bind at 1. unfold try_except at 1. rewrite Es.
  destruct settled as [[]|e]; [reflexivity|].
  destruct (is_PWTimeout e); reflexivity.
Qed.
End SettleWait.

Lemma click_settle_wait_witness :
  exec_loop (Sim.step_click :: [Sim.step_extract]) [("extracted", JNull)]
            Sim.home_click_broken
  = exec_loop [Sim.step_extract] [("extracted", JNull)]
      (Sim.note (Sim.EvLoadState 15000)
         (snd (_do_click Sim.step_click Sim.home_click_broken))).
Proof.
  erewrite (click_settle_wait (W := Sim.sim) Sim.step_click [Sim.step_extract]
              [("extracted", JNull)] Sim.home_click_broken);
    [ | reflexivity | cbv; reflexivity | cbv; reflexivity ].
  cbv. reflexivity.
Defined.

(** ** The bracket coercion of model replies *)

Lemma rfind_none_mem (d : ascii) (s : string) :
  rfind_char d s = None -> mem_char d s = false.
Proof.
  induction s as [|x s IH]; cbn [rfind_char mem_char]; [reflexivity|].
  destruct (rfind_char d s); [discriminate|].
  destruct (Ascii.eqb x d); [discriminate|]. intros _. exact (IH eq_refl).
Qed.

Lemma rfind_split (d : ascii) (s : string) : forall e,
  rfind_char d s = Some e ->
  exists body post,
    s = (body ++ String d post)%string
    /\ mem_char d post = false
    /\ substring 0 (S e) s = (body ++ String d "")%string.
Proof.
  induction s as [|x s IH]; intros e E; cbn [rfind_char] in E; [discriminate|].
  destruct (rfind_char d s) as [e'|] eqn:Er.
  - inversion E. subst e. destruct (IH e' eq_refl) as (body & post & Hs & Hm & Hsub).
    exists (String x body), post. split; [|split].
    + cbn [String.append]. rewrite <- Hs. reflexivity.
    + exact Hm.
    + cbn [substring String.append]. cbn [substring] in Hsub. rewrite Hsub. reflexivity.
  - destruct (Ascii.eqb x d) eqn:Ex; [|discriminate]. inversion E. subst e.
    apply Ascii.eqb_eq in Ex. subst x. exists "", s. split; [|split].
    + reflexivity.
    + apply rfind_none_mem. exact Er.
    + cbn. destruct s; reflexivity.
Qed.

(** The slice from the first [c] to the last [d], when they come in
    this order: nothing before it has a [c], nothing after it a [d]. *)
Lemma slice_outer (c d : ascii) (s : string) : forall i e,
  Ascii.eqb c d = false ->
  find_char c s = Some i ->
  rfind_char d s = Some e ->
  (i <= e)%nat ->
  exists pre body post,
    s = (pre ++ String c (body ++ String d post))%string
    /\ mem_char c pre = false
    /\ mem_char d post = false
    /\ slice s i (e + 1) = String c (body ++ String d "")%string.
Proof.
  unfold slice. induction s as [|x s IH]; intros i e Hcd Ef Er Hle;
    cbn [find_char] in Ef; [discriminate|].
  cbn [rfind_char] in Er.
  destruct (Ascii.eqb x c) eqn:Exc.
  - inversion Ef. subst i. apply Ascii.eqb_eq in Exc. subst x.
    destruct (rfind_char d s) as [e'|] eqn:Er'.
    + inversion Er. subst e.
      destruct (rfind_split d s e' Er') as (body & post & Hs & Hm & Hsub).
      exists "", body, post. split; [|split; [|split]].
      * cbn [String.append]. rewrite <- Hs. reflexivity.
      * reflexivity.
      * exact Hm.
      * replace (S e' + 1 - 0)%nat with (S (S e')) by lia.
        cbn [substring]. cbn [substring] in Hsub. rewrite Hsub. reflexivity.
    + rewrite Hcd in Er. discriminate.
  - destruct (find_char c s) as [i'|] eqn:Ef'; [|discriminate].
    inversion Ef. subst i.
    destruct (rfind_char d s) as [e'|] eqn:Er'.
    + inversion Er. subst e.
      destruct (IH i' e' Hcd eq_refl eq_refl ltac:(lia))
        as (pre & body & post & Hs & Hp & Hm & Hsl).
      exists (String x pre), body, post. split; [|split; [|split]].
      * cbn [String.append]. rewrite <- Hs. reflexivity.
      * cbn [mem_char]. rewrite Exc, Hp. reflexivity.
      * exact Hm.
      * replace (S e' + 1 - S i')%nat with (e' + 1 - i')%nat by lia.
        cbn [substring]. exact Hsl.
    + destruct (Ascii.eqb x d); [|discriminate]. inversion Er. subst e. lia.
Qed.

Lemma slice_backwards (s : string) (i e : nat) :
  (e < i)%nat -> slice s i (e + 1) = "".
Proof.
  intros Hlt. unfold slice. replace (e + 1 - i)%nat with 0%nat by lia.
  clear. revert s. induction i as [|i IH]; intros [|x s]; cbn; auto.
Qed.

Section ReplyCut.
Context {W : Type} `{Host W}.

(** X27.  When a model's reply, stripped, does not begin with an
    opening bracket but has both an opening and a closing one, what a
    pass of the model loop parses, validates and checks for an extract
    step is the slice from the first opening bracket to the last closing
    bracket of the reply.  When they come in this order the slice is an
    opening bracket, a body and a closing bracket, nothing before it in
    the reply has an opening bracket and nothing after it a closing one;
    when the last closing bracket comes before the first opening one the
    slice is empty, and the empty text goes to json.loads. *)
Theorem reply_cut_to_outer_brackets
        (mid goal : string) (context : json) (w w1 : W)
        (t : option string) (i e : nat) :
  generate_content_text mid goal context w = (Returns t, w1) ->
  startswith (reply_text t) (String LBRACKET "") = false ->
  find_char LBRACKET (reply_text t) = Some i ->
  rfind_char RBRACKET (reply_text t) = Some e ->
  try_model mid goal context w
  = check_plan mid (slice (reply_text t) i (e + 1)) w1
  /\ ((i <= e)%nat ->
      exists pre body post,
        reply_text t
        = (pre ++ String LBRACKET (body ++ String RBRACKET post))%string
        /\ mem_char LBRACKET pre = false
        /\ mem_char RBRACKET post = false
        /\ slice (reply_text t) i (e + 1)
           = String LBRACKET (body ++ String RBRACKET "")%string)
  /\ ((e < i)%nat -> slice (reply_text t) i (e + 1) = "").
Proof.
  intros Eg Es Ef Er. split; [|split].
  - rewrite (try_model_reply _ _ _ _ _ _ Eg).
    assert (Ee : String.eqb (reply_text t) "" = false).
    { destruct (reply_text t); [discriminate Ef | reflexivity]. }
    rewrite Ee, Es, Ef, Er. reflexivity.
  - intros Hle. apply slice_outer; [reflexivity | assumption..].
  - apply slice_backwards.
Qed.
End ReplyCut.

Lemma reply_cut_to_outer_brackets_witness :
  try_model SimOnline.FLASH_LITE "crimes LA" JNull SimOnline.start
  = check_plan SimOnline.FLASH_LITE "[PLAN]"
               {| SimOnline.asked := [SimOnline.FLASH_LITE] |}.
Proof.
  exact (proj1 (reply_cut_to_outer_brackets
                  (W := SimOnline.online) SimOnline.FLASH_LITE "crimes LA" JNull
                  SimOnline.start {| SimOnline.asked := [SimOnline.FLASH_LITE] |}
                  (Some SimOnline.WRAPPED) 24 29
                  eq_refl eq_refl eq_refl eq_refl)).
Defined.

(* ================================================================== *)
(** * What the tokens of a query are made of *)
(* ================================================================== *)

Lemma string_length_app (a b : string) :
  String.length (a ++ b) = (String.length a + String.length b)%nat.
Proof. induction a as [|x a IH]; cbn; [reflexivity | rewrite IH; reflexivity]. Qed.

Lemma prefix_of_app (a b : string) :
  prefix_of (String.length (a ++ b) - String.length b) (a ++ b) = a.
Proof.
  rewrite string_length_app. replace (String.length a + String.length b - String.length b)%nat
    with (String.length a) by lia.
  unfold prefix_of. induction a as [|x a IH]; cbn.
  - destruct b; reflexivity.
  - rewrite IH. reflexivity.
Qed.

(** What a greedy run of [p]-characters consumes is made of
    [p]-characters, whatever the continuation accepts. *)
Lemma star_chr_sound {A} (total : nat) (p : ascii -> bool)
      (k : string -> caps -> option A) (s : string) (c : caps) (a : A) :
  rmatch total (Star (Chr p)) s c k = Some a ->
  exists pre s', s = (pre ++ s')%string /\ all_chars p pre = true /\ k s' c = Some a.
Proof.
  cbn [rmatch]. generalize (String.length s) at 1. intros n. revert s.
  induction n as [|n IH]; intros s E.
  - exists "", s. split; [reflexivity | split; [reflexivity | exact E]].
  - destruct s as [|x s1].
    + exists "", "". split; [reflexivity | split; [reflexivity | exact E]].
    + destruct (p x) eqn:Ep.
      * destruct (Nat.ltb (String.length s1) (String.length (String x s1))) eqn:El.
        -- match type of E with
           | match ?X with Some _ => _ | None => _ end = _ => destruct X as [a0|] eqn:EX
           end.
           ++ inversion E. subst a0.
              apply IH in EX as (pre & s' & -> & Hp & Hk).
              exists (String x pre), s'. split; [reflexivity|].
              split; [cbn [all_chars]; rewrite Ep, Hp; reflexivity | exact Hk].
           ++ exists "", (String x s1). split; [reflexivity | split; [reflexivity | exact E]].
        -- cbn [String.length] in El. apply Nat.ltb_ge in El. lia.
      * exists "", (String x s1). split; [reflexivity | split; [reflexivity | exact E]].
Qed.

Lemma token_match_sound (total : nat) (s m rest : string) (c : caps) :
  match_here total RE_TOKEN s = Some (m, c, rest) ->
  m <> "" /\ all_chars is_word_char m = true.
Proof.
  unfold match_here, RE_TOKEN, Plus. cbn [rmatch].
  destruct s as [|x s1]; [discriminate|].
  destruct (is_word_char x) eqn:Ex; [|discriminate].
  intros E. apply (star_chr_sound total) in E as (pre & s' & -> & Hp & Hk).
  change (String x (pre ++ s'))%string with (String x pre ++ s')%string in Hk.
  rewrite prefix_of_app in Hk. injection Hk as Hm _ _. subst m.
  split; [discriminate|].
  cbn [all_chars]. rewrite Ex, Hp. reflexivity.
Qed.

Lemma scan_sound (total : nat) (r : regex) (s : string) : forall skip m c,
  In (inr (m, c)) (scan total r s skip) ->
  exists suffix rest, match_here total r suffix = Some (m, c, rest).
Proof.
  induction s as [|x s IH]; intros skip m c Hin; cbn [scan] in Hin; [contradiction|].
  destruct skip as [|n]; [|eapply IH; exact Hin].
  destruct (match_here total r (String x s)) as [[[m0 c0] rest0]|] eqn:E.
  - destruct (String.length m0) eqn:El.
    + destruct Hin as [Hin | Hin]; [discriminate | eapply IH; exact Hin].
    + destruct Hin as [Hin | Hin]; [|eapply IH; exact Hin].
      inversion Hin. subst. eauto.
  - destruct Hin as [Hin | Hin]; [discriminate | eapply IH; exact Hin].
Qed.

Lemma findall_tokens_sound (s : string) (m : string) :
  In m (map fst (re_findall RE_TOKEN s)) ->
  m <> "" /\ all_chars is_word_char m = true.
Proof.
  intros Hin. apply in_map_iff in Hin as ([m0 c] & Hm & Hin). cbn in Hm. subst m0.
  unfold re_findall in Hin. apply in_flat_map in Hin as (item & Hitem & Hin).
  destruct item as [lit | mc]; [contradiction|].
  destruct Hin as [Hin | []]. subst mc.
  apply scan_sound in Hitem as (suffix & rest & E).
  eapply token_match_sound. exact E.
Qed.

Lemma search_tokens_origin (text : string) (t : string) :
  In t (search_tokens text) ->
  t = "LA" \/ In t (word_tokens text) \/ In t (quoted_phrases text).
Proof.
  unfold search_tokens.
  set (s0 := strip (re_sub (Plus ws1) " " text)).
  fold (quoted_phrases text). fold s0.
  set (phr := quoted_phrases text).
  set (cleaned := filter keep_token
                    (map fst (re_findall RE_TOKEN
                                (re_sub RE_FILLER "" (re_sub RE_QUOTES "" s0))))).
  assert (Hw : word_tokens text = cleaned) by reflexivity.
  set (cleaned' := match phr with [] => cleaned | _ :: _ => cleaned ++ phr end).
  assert (Hc' : cleaned' = cleaned ++ phr).
  { unfold cleaned'. destruct phr; [rewrite app_nil_r|]; reflexivity. }
  set (dd := dedupe [] cleaned').
  intros Ht. apply in_map_iff in Ht as (t0 & <- & Ht0).
  destruct (String.eqb (lower t0) "la"); [left; reflexivity | right].
  assert (Hdd : In t0 dd).
  { change (In t0 (if (5 <? length dd)%nat then firstn 5 dd else dd)) in Ht0.
    destruct (5 <? length dd)%nat; [eapply In_firstn_keep; exact Ht0 | exact Ht0]. }
  apply (dedupe_spec cleaned' []) in Hdd as [Hdd _].
  rewrite Hc' in Hdd. rewrite Hw. apply in_app_or in Hdd. exact Hdd.
Qed.

(** X28.  Every token of a query is either one of the quoted phrases of
    the input or a non-empty word made only of ASCII letters, digits
    and hyphens. *)
Theorem search_tokens_are_words (text : string) (t : string) :
  In t (search_tokens text) ->
  (t <> "" /\ all_chars is_word_char t = true) \/ In t (quoted_phrases text).
Proof.
  intros Ht. apply search_tokens_origin in Ht as [-> | [Hw | Hp]].
  - left. split; [discriminate | reflexivity].
  - left. unfold word_tokens in Hw. apply filter_In in Hw as [Hw _].
    eapply findall_tokens_sound. exact Hw.
  - right. exact Hp.
Qed.

Lemma search_tokens_are_words_witness :
  ("crimes" <> "" /\ all_chars is_word_char "crimes" = true)
  \/ In "crimes" (quoted_phrases GOAL_CRIMES).
Proof.
  apply (search_tokens_are_words GOAL_CRIMES "crimes").
  vm_compute. left. reflexivity.
Defined.

Lemma no_mcp_command_means_local_witness :
  build_page_context Sim.home = local_context (page_url Sim.home) Sim.home.
Proof.
  apply (no_mcp_command_means_local (W := Sim.sim) Sim.home Sim.home).
  - reflexivity.
  - left. reflexivity.
Defined.
